(** * fast-ticket: seat selection, reservation race and retry loop

    A shallow embedding of the parts of the ticket-booking program that
    decide which seats a worker asks for, how the workers of one race
    share the reservation flag, and how the controller retries.

    - [Models]        models.py (boarding points, seats, floors, layout)
    - [BookingService] business/booking_service.py (_adjust_list)
    - [SeatService]   business/seat_service.py (reserve_seats)
    - [Race]          application/booking_worker.py,
                      application/seat_reservation_controller.py and
                      BookingController.book_ticket
    - [Retry]         BookingController.__run_with_retry and config.py *)

From Stdlib Require Import List Arith Bool ZArith Lia String Ascii.
Import ListNotations.


(** ** Python values shared by the modules *)

(** The built-in exceptions the modelled code can meet. *)
Inductive builtin_exn : Type :=
| IndexError
| KeyError
| TypeError
| AttributeError
| ValueError
| Exception.

(** A call either returns a value or raises an exception of type [E]. *)
Inductive pyres (E A : Type) : Type :=
| Returns (a : A)
| Raises (e : E).
Arguments Returns {E A} a.
Arguments Raises {E A} e.

(** [random.choice(seq)]: IndexError on an empty sequence, otherwise
    the element at an index below [len(seq)]; the draw [r] stands for
    the generator's state. *)
Definition choice {A : Type} (r : nat) (l : list A) : option A :=
  match l with
  | [] => None
  | _ :: _ => nth_error l (r mod List.length l)
  end.

(** [l[i : i + n]] for non-negative [i] and [n]. *)
Definition slice {A : Type} (i n : nat) (l : list A) : list A :=
  firstn n (skipn i l).

(** ** models.py *)
Module Models.

Record BoardingPoint : Type := mkBoardingPoint {
  bp_id : Z;
  bp_name : string;
  bp_time : string;
  bp_date : string
}.

(** The three fare fields of [Trip] are floats; nothing modelled here
    reads them. *)
Record Trip : Type := mkTrip {
  train_name : string;
  departure_time : string;
  arrival_time : string;
  travel_time : string;
  trip_id : Z;
  trip_route_id : Z;
  route_id : Z;
  boarding_points : list BoardingPoint
}.

(** [str.lower] on the ASCII letters. *)
Definition lower_ascii (c : ascii) : ascii :=
  let n := nat_of_ascii c in
  if (65 <=? n) && (n <=? 90) then ascii_of_nat (n + 32) else c.

Fixpoint lower (s : string) : string :=
  match s with
  | EmptyString => EmptyString
  | String c s' => String (lower_ascii c) (lower s')
  end.

(** [s.startswith(p)] *)
Definition startswith (s p : string) : bool := String.prefix p s.

Definition bp_matches (from_city : string) (bp : BoardingPoint) : bool :=
  startswith (lower (bp_name bp)) (lower from_city).

(** [next((bp for bp in l if ...), None)] *)
Definition next_matching (from_city : string) (l : list BoardingPoint)
  : option BoardingPoint :=
  find (bp_matches from_city) l.

(** [Trip.find_boarding_point].  A dataclass instance is always truthy,
    so [not boarding_point] holds exactly when the generator was
    exhausted; [self.boarding_points[0]] raises IndexError on an empty
    list. *)
Definition find_boarding_point (t : Trip) (from_city : string)
  : pyres builtin_exn (option BoardingPoint) :=
  match next_matching from_city (boarding_points t) with
  | None =>
      match boarding_points t with
      | [] => Raises IndexError
      | bp0 :: _ => Returns (Some bp0)
      end
  | Some bp => Returns (Some bp)
  end.

Record Seat : Type := mkSeat {
  seat_number : string;
  ticket_id : Z;
  is_available : bool;
  is_hidden : bool;
  ticket_type : Z
}.

Definition is_aisle (s : Seat) : bool := String.eqb (seat_number s) "".

Record Floor : Type := mkFloor {
  floor_number : Z;
  seats : list (list Seat);
  floor_name : string;
  seat_availability : bool
}.

(** The test of the inner loop of [find_adjacent_seats_pairs]. *)
Definition selectable (s : Seat) : bool :=
  negb (is_aisle s) && is_available s.

(** [available_seats] of one row, as the first loop builds it. *)
Definition row_available_seats (row : list Seat) : list Seat :=
  filter selectable row.

(** The second loop: [for i in range(len(l) - adjacency + 1)] yields
    [l[i : i + adjacency]]; the range is empty when the bound is not
    positive. *)
Definition windows (adjacency : nat) (l : list Seat) : list (list Seat) :=
  map (fun i => slice i adjacency l) (seq 0 (List.length l + 1 - adjacency)).

(** [Floor.find_adjacent_seats_pairs], the generator as the list of
    what it yields. *)
Definition find_adjacent_seats_pairs (f : Floor) (adjacency : nat)
  : list (list Seat) :=
  flat_map (fun row => windows adjacency (row_available_seats row)) (seats f).

Record SeatLayout : Type := mkSeatLayout {
  sl_trip_id : Z;
  sl_trip_route_id : Z;
  floors : list Floor
}.

Definition available_floors (sl : SeatLayout) : list Floor :=
  filter seat_availability (floors sl).

(** [SeatLayout.find_random_adjacent_seats]: both [choice] calls sit in
    one [try], and IndexError gives the empty list. *)
Definition find_random_adjacent_seats (sl : SeatLayout) (adjacency : nat)
  (r1 r2 : nat) : list Seat :=
  match choice r1 (available_floors sl) with
  | None => []
  | Some floor =>
      match choice r2 (find_adjacent_seats_pairs floor adjacency) with
      | None => []
      | Some group => group
      end
  end.

Record Passenger : Type := mkPassenger {
  p_name : string;
  p_email : string;
  p_mobile : string;
  p_gender : string;
  p_passenger_type : string
}.

(** What [ApiResponse.data] can hold: nothing (the request itself
    failed), the body as text (it was not JSON), a JSON object whose
    [error] is an object and whose [error.messages] prints as
    [messages], a JSON object whose [error] is not an object (a string,
    a number, null) and prints as [error], a JSON object carrying a seat
    layout under [data], or any
    other JSON object, one without [error] or whose [error] is an object
    without [messages]. *)
Inductive Payload : Type :=
| DataNone
| DataText (body : string)
| DataError (messages : string)
| DataErrorText (error : string)
| DataLayout (sl : SeatLayout)
| DataOther.

Record ApiResponse : Type := mkApiResponse {
  success : bool;
  data : Payload;
  error_message : option string;
  status_code : option Z;
  exc : option string
}.

(** *** What the seat-map properties speak about *)

(** [g] occupies consecutive positions of [row]. *)
Definition contiguous_in (g row : list Seat) : Prop :=
  exists pre post, row = pre ++ g ++ post.

(** Length of the longest run of selectable seats in a row. *)
Fixpoint longest_run_from (cur : nat) (row : list Seat) : nat :=
  match row with
  | [] => cur
  | s :: row' =>
      if selectable s then longest_run_from (S cur) row'
      else Nat.max cur (longest_run_from 0 row')
  end.

Definition longest_run (row : list Seat) : nat := longest_run_from 0 row.

Definition floor_longest_run (f : Floor) : nat :=
  fold_right Nat.max 0 (map longest_run (seats f)).

Definition layout_longest_run (sl : SeatLayout) : nat :=
  fold_right Nat.max 0 (map floor_longest_run (floors sl)).

(** A group of [n] seats, all available and none an aisle placeholder,
    occupying consecutive positions of one row of the seat map. *)
Definition adjacent_group (sl : SeatLayout) (n : nat) (g : list Seat) : Prop :=
  List.length g = n /\
  forallb selectable g = true /\
  exists f row, In f (floors sl) /\ In row (seats f) /\ contiguous_in g row.

(** No row of the seat map has a run of [n] selectable seats. *)
Definition no_run_of (sl : SeatLayout) (n : nat) : Prop :=
  layout_longest_run sl < n.

(** The scenario row [A1, A2, A3 (taken), A4]. *)
Definition A1 : Seat := mkSeat "A1" 101 true false 1.
Definition A2 : Seat := mkSeat "A2" 102 true false 1.
Definition A3 : Seat := mkSeat "A3" 103 false false 1.
Definition A4 : Seat := mkSeat "A4" 104 true false 1.

Definition scenario_floor : Floor := mkFloor 1 [[A1; A2; A3; A4]] "F1" true.
Definition scenario_layout : SeatLayout := mkSeatLayout (-1) (-1) [scenario_floor].

(** The scenario floor and a second floor, flagged available, whose only
    seat is taken. *)
Definition taken_floor : Floor := mkFloor 2 [[A3]] "F2" true.
Definition two_floor_layout : SeatLayout :=
  mkSeatLayout (-1) (-1) [scenario_floor; taken_floor].

(** A trip with two boarding points. *)
Definition two_stop_trip : Trip :=
  mkTrip "SILKCITY EXPRESS" "14:40" "20:20" "05h 40m" 11 12 13
    [mkBoardingPoint 1 "Biman Bandar" "14:40" "25-Mar-2025";
     mkBoardingPoint 2 "DHAKA" "15:05" "25-Mar-2025"].

End Models.

(** ** business/exception.py *)

(** What a worker can see raised: a built-in exception or one of the
    [RailwayTripException] subclasses, with the response it carries. *)
Inductive exn : Type :=
| Builtin (e : builtin_exn)
| UnauthorizedException (response : Models.ApiResponse)
| OrderLimitExceededForTheDayException (response : Models.ApiResponse)
| SeatAlreadyReservedException
| MultipleOrderAttemptException (response : Models.ApiResponse)
| ReservationFailedException (response : Models.ApiResponse).

(** The response an exception carries, and the reason it reports: the
    constructors format the response's [error_message] into the
    exception's message. *)
Definition carried_response (e : exn) : option Models.ApiResponse :=
  match e with
  | UnauthorizedException r
  | OrderLimitExceededForTheDayException r
  | MultipleOrderAttemptException r
  | ReservationFailedException r => Some r
  | SeatAlreadyReservedException | Builtin _ => None
  end.

Definition reason (e : exn) : option string :=
  match carried_response e with
  | Some r => Models.error_message r
  | None => None
  end.

(** ** config.py *)
Module Config.

Record BookingConfig : Type := mkBookingConfig {
  passenger_names : list string;
  passenger_email : string;
  passenger_mobile : string;
  passenger_genders : list string;
  passenger_types : list string;
  max_retry_attempts : Z
}.

(** [BookingConfig()] after [__post_init__]. *)
Definition default_config : BookingConfig :=
  mkBookingConfig
    ["PASSENGER_NAME_1"; "PASSENGER_NAME_2"]%string
    "EMAIL" "PHONE_NUMBER"
    ["female"; "male"]%string
    ["Adult"; "Adult"]%string
    3.

End Config.

(** ** business/booking_service.py *)
Module BookingService.

(** [l[:t]] for an integer [t]: a negative bound counts from the end. *)
Definition py_prefix {A : Type} (l : list A) (t : Z) : list A :=
  if (0 <=? t)%Z then firstn (Z.to_nat t) l
  else firstn (Z.to_nat (Z.of_nat (List.length l) + t)) l.

(** [RailwayBookingService._adjust_list] *)
Definition _adjust_list (items : list string) (target_length : Z)
  (default_value : string) : list string :=
  if (Z.of_nat (List.length items) <? target_length)%Z then
    items ++ repeat default_value
               (Z.to_nat (target_length - Z.of_nat (List.length items)))
  else py_prefix items target_length.

End BookingService.

(** ** business/seat_service.py *)
Module SeatService.
Import Models.

(** The remote service as seen by one [reserve_seats] call: the answer
    of [api_client.reserve_seat] for each ticket id. *)
Definition Remote : Type := Z -> ApiResponse.

(** [responses = await asyncio.gather( *reservation_tasks )] *)
Definition gather_responses (remote : Remote) (seats : list Seat)
  : list ApiResponse :=
  map (fun seat => remote (ticket_id seat)) seats.

(** The loop that fills [failed_reservations]; the entries are kept as
    (seat number, error message). *)
Definition failed_reservations (seats : list Seat)
  (responses : list ApiResponse) : list (string * option string) :=
  flat_map
    (fun '(seat, response) =>
       if success response then []
       else [(seat_number seat, error_message response)])
    (combine seats responses).

(** [RailwaySeatService.reserve_seats] *)
Definition reserve_seats (remote : Remote) (seats : list Seat)
  : pyres exn bool :=
  let responses := gather_responses remote seats in
  match failed_reservations seats responses with
  | [] => Returns true
  | _ :: _ =>
      match responses with
      | r0 :: _ => Raises (ReservationFailedException r0)
      | [] => Raises (Builtin IndexError)
      end
  end.

(** The first response, in seat order, that is not a success. *)
Definition first_failure (responses : list ApiResponse) : option ApiResponse :=
  find (fun r => negb (success r)) responses.

Definition ok_response : ApiResponse :=
  mkApiResponse true DataOther None (Some 200%Z) None.

Definition taken_response : ApiResponse :=
  mkApiResponse false (DataError "seat is not available")
    (Some "seat is not available"%string) (Some 422%Z) None.

(** A remote service on which A1 can be claimed and A2 cannot. *)
Definition remote_A2_taken : Remote :=
  fun t => if (t =? ticket_id A2)%Z then taken_response else ok_response.

End SeatService.

(** ** business/passenger_service.py *)
Module PassengerService.
Import Models.

(** Whitespace as [str.strip] sees it, on ASCII. *)
Definition is_space (c : ascii) : bool :=
  let n := nat_of_ascii c in
  ((9 <=? n) && (n <=? 13)) || ((28 <=? n) && (n <=? 32)).

Fixpoint lstrip (s : string) : string :=
  match s with
  | EmptyString => EmptyString
  | String c s' => if is_space c then lstrip s' else s
  end.

Fixpoint rstrip (s : string) : string :=
  match s with
  | EmptyString => EmptyString
  | String c s' =>
      let t := rstrip s' in
      if is_space c && String.eqb t "" then EmptyString else String c t
  end.

Definition strip (s : string) : string := rstrip (lstrip s).

(** [sub in s] *)
Fixpoint contains (sub s : string) : bool :=
  String.prefix sub s ||
  match s with
  | EmptyString => false
  | String _ s' => contains sub s'
  end.

Definition string_in (s : string) (l : list string) : bool :=
  existsb (String.eqb s) l.

(** The five checks of the loop body of [validate_passengers]. *)
Definition passenger_ok (p : Passenger) : bool :=
  negb (String.eqb (p_name p) "" || String.eqb (strip (p_name p)) "")
  && negb (String.eqb (p_email p) "" || negb (contains "@" (p_email p)))
  && negb (String.eqb (p_mobile p) ""
           || (String.length (strip (p_mobile p)) <? 10))
  && string_in (p_gender p) ["male"; "female"]%string
  && string_in (p_passenger_type p) ["Adult"; "Child"]%string.

(** [validate_passengers]: True, or ValueError. *)
Definition validate_passengers (passengers : list Passenger)
  : pyres exn bool :=
  match passengers with
  | [] => Raises (Builtin ValueError)
  | _ :: _ =>
      if forallb passenger_ok passengers then Returns true
      else Raises (Builtin ValueError)
  end.

(** [create_passengers_from_config]: one passenger per index below the
    shortest of the three lists. *)
Fixpoint create_passengers_from_config (names : list string)
  (email mobile : string) (genders types : list string) : list Passenger :=
  match names, genders, types with
  | n :: names', g :: genders', t :: types' =>
      mkPassenger n email mobile g t
      :: create_passengers_from_config names' email mobile genders' types'
  | _, _, _ => []
  end.

End PassengerService.

(** ** business/trip_repository.py *)
Module TripRepository.
Import Models PassengerService.

Definition status_is (r : ApiResponse) (code : Z) : bool :=
  match status_code r with
  | Some c => (c =? code)%Z
  | None => false
  end.

(** [RailwayTripRepository.get_seat_layout], from the response of
    [api_client.get_seat_layout] on.
    [response.data.get("error", {}).get("messages", {})] raises
    AttributeError when the data is None or text, and when [error] is
    there but is not an object. *)
Definition get_seat_layout (response : ApiResponse) : pyres exn SeatLayout :=
  if negb (success response) then
    if status_is response 401 || status_is response 403 then
      Raises (UnauthorizedException response)
    else
      match data response with
      | DataNone | DataText _ | DataErrorText _ =>
          Raises (Builtin AttributeError)
      | d =>
          let messages_str :=
            lower (match d with DataError m => m | _ => "{}"%string end) in
          if status_is response 422
             && contains "orderlimitexceeded" messages_str then
            Raises (OrderLimitExceededForTheDayException response)
          else if status_is response 422
                  && contains "multiple order attempt" messages_str then
            Raises (MultipleOrderAttemptException response)
          else Raises (Builtin Exception)
      end
  else
    match data response with
    | DataLayout sl => Returns sl
    | DataNone | DataText _ => Raises (Builtin TypeError)
    | DataError _ | DataErrorText _ | DataOther => Raises (Builtin KeyError)
    end.

End TripRepository.

(** ** The race: booking_worker.py, seat_reservation_controller.py and
       BookingController.book_ticket

    The workers are processes that share [is_reserved] (a
    [multiprocessing.Value]) and [result_queue].  Each worker is a small
    machine whose steps are the places where it touches the shared state,
    the network or the clock; a race is an interleaving of such steps. *)
Module Race.
Import Models Config PassengerService TripRepository SeatService.

(** What a worker puts on [result_queue]. *)
Record ReservationData : Type := mkReservationData {
  rd_trip : Trip;
  rd_ticket_ids : list Z;
  rd_process_id : nat;
  rd_selected_seats : list Seat;
  rd_passengers : list Passenger
}.

(** The effects a worker has besides reading the flag. *)
Inductive event : Type :=
| NetGetSeatLayout (process_id : nat) (trip_id trip_route_id : Z)
| NetReserveSeat (process_id : nat) (ticket_id route_id : Z)
| SetReserved (process_id : nat)
| QueuePut (process_id : nat)
| Sleep (process_id : nat) (milliseconds : nat).

Definition is_network (e : event) : bool :=
  match e with
  | NetGetSeatLayout _ _ _ | NetReserveSeat _ _ _ => true
  | _ => false
  end.

Definition event_process (e : event) : nat :=
  match e with
  | NetGetSeatLayout p _ _ | NetReserveSeat p _ _
  | SetReserved p | QueuePut p | Sleep p _ => p
  end.

(** Everything process [process_id] has done, in order. *)
Definition events_of (process_id : nat) (tr : list event) : list event :=
  filter (fun e => Nat.eqb (event_process e) process_id) tr.

(** The requests process [process_id] has sent. *)
Definition network_calls_of (process_id : nat) (tr : list event) : list event :=
  filter (fun e => is_network e && Nat.eqb (event_process e) process_id) tr.

Definition is_claim (e : event) : bool :=
  match e with
  | SetReserved _ => true
  | _ => false
  end.

(** The state the processes of one race share, with the log of effects:
    the lock [BookingController.__init__] creates (who holds it, if
    anyone), the flag, and the queue. *)
Record Shared : Type := mkShared {
  reservation_lock : option nat;
  is_reserved : bool;
  result_queue : list ReservationData;
  trace : list event
}.

Definition log (e : list event) (sh : Shared) : Shared :=
  mkShared (reservation_lock sh) (is_reserved sh) (result_queue sh)
    (trace sh ++ e).

(** What the outside world answers during one step: the response to the
    seat-layout request, the two draws of [random.choice], and the
    remote service's answers to the seat claims. *)
Record Env : Type := mkEnv {
  layout_response : ApiResponse;
  draw_floor : nat;
  draw_group : nat;
  reserve_response : Remote
}.

(** Where a worker is. *)
Inductive pc : Type :=
| AtLoopStart
| AtFetch
| AtRecheck (selected_seats : list Seat) (passengers : list Passenger)
| AtReserve (selected_seats : list Seat) (passengers : list Passenger)
| AtMark (selected_seats : list Seat) (passengers : list Passenger)
| AtPut (selected_seats : list Seat) (passengers : list Passenger)
| AtSleep
| Exited (e : exn).

Definition is_exited (p : pc) : bool :=
  match p with
  | Exited _ => true
  | _ => false
  end.

(** [SeatReservationController._prepare_passengers_async] *)
Definition prepare_passengers (config : BookingConfig)
  : pyres exn (list Passenger) :=
  let passengers :=
    create_passengers_from_config (passenger_names config)
      (passenger_email config) (passenger_mobile config)
      (passenger_genders config) (passenger_types config) in
  match validate_passengers passengers with
  | Raises e => Raises e
  | Returns _ => Returns passengers
  end.

Section Worker.

Variable selected_trip : Trip.
Variable config : BookingConfig.

(** One step of worker [process_id], the loop of [booking_worker]:
    - [AtLoopStart]: [process_booking] builds its config, client, cache
      and controller, which sends nothing, and
      [find_seat_layout_and_passengers] reads the flag;
    - [AtFetch]: the seat-layout request, gathered with the passenger
      list, then the choice of seats, and the plain [return] when none
      was found;
    - [AtRecheck]: [reserve_seats] of the controller reads the flag
      again, with [with self._reservation_lock:] commented out; when
      the flag is set it returns None, which the worker does not look
      at before it puts its result;
    - [AtReserve]: the seat claims; [AtMark]: the write of the flag;
      [AtPut]: [result_queue.put]; [AtSleep]: [time.sleep(0.1)].
    Every [except] clause of the loop ends in [sys.exit(0)], so a raised
    exception takes the worker to [Exited]; the pause is reached only
    when [process_booking] returns. *)
Definition worker_step (process_id : nat) (env : Env) (p : pc) (sh : Shared)
  : pc * Shared :=
  match p with
  | AtLoopStart =>
      if is_reserved sh then (Exited SeatAlreadyReservedException, sh)
      else (AtFetch, sh)
  | AtFetch =>
      let sh' := log [NetGetSeatLayout process_id (trip_id selected_trip)
                        (trip_route_id selected_trip)] sh in
      match prepare_passengers config with
      | Raises e => (Exited e, sh')
      | Returns passengers =>
          match get_seat_layout (layout_response env) with
          | Raises e => (Exited e, sh')
          | Returns seat_layout =>
              let selected_seats :=
                find_random_adjacent_seats seat_layout
                  (List.length passengers) (draw_floor env) (draw_group env) in
              if Nat.eqb (List.length selected_seats) 0 then (AtSleep, sh')
              else (AtRecheck selected_seats passengers, sh')
          end
      end
  | AtRecheck selected_seats passengers =>
      if is_reserved sh then (AtPut selected_seats passengers, sh)
      else (AtReserve selected_seats passengers, sh)
  | AtReserve selected_seats passengers =>
      let sh' :=
        log (map (fun seat => NetReserveSeat process_id (ticket_id seat)
                                (trip_route_id selected_trip))
               selected_seats) sh in
      match reserve_seats (reserve_response env) selected_seats with
      | Raises e => (Exited e, sh')
      | Returns _ => (AtMark selected_seats passengers, sh')
      end
  | AtMark selected_seats passengers =>
      (AtPut selected_seats passengers,
       mkShared (reservation_lock sh) true (result_queue sh)
         (trace sh ++ [SetReserved process_id]))
  | AtPut selected_seats passengers =>
      (AtSleep,
       mkShared (reservation_lock sh) (is_reserved sh)
         (result_queue sh ++
            [mkReservationData selected_trip (map ticket_id selected_seats)
               process_id selected_seats passengers])
         (trace sh ++ [QueuePut process_id]))
  | AtSleep => (AtLoopStart, log [Sleep process_id 100] sh)
  | Exited e => (Exited e, sh)
  end.

(** The processes of one race and what they share. *)
Record System : Type := mkSystem {
  workers : list pc;
  shared : Shared
}.

Fixpoint set_nth {A : Type} (i : nat) (x : A) (l : list A) : list A :=
  match l, i with
  | [], _ => []
  | _ :: l', 0 => x :: l'
  | y :: l', S i' => y :: set_nth i' x l'
  end.

(** The scheduler lets worker number [i] (process id [i + 1]) take one
    step. *)
Definition system_step (sys : System) (turn : nat * Env) : System :=
  let '(i, env) := turn in
  match nth_error (workers sys) i with
  | None => sys
  | Some p =>
      let '(p', sh') := worker_step (S i) env p (shared sys) in
      mkSystem (set_nth i p' (workers sys)) sh'
  end.

Definition run (schedule : list (nat * Env)) (sys : System) : System :=
  fold_left system_step schedule sys.

(** [book_ticket] up to the start of the workers: the flag is reset and
    [num_processes] workers are started. *)
Definition start_race (num_processes : nat) : System :=
  mkSystem (repeat AtLoopStart num_processes) (mkShared None false [] []).

(** What [book_ticket] does once the workers have been started:
    [p.join()] for every process, then [result_queue.get()], which has
    no timeout and blocks for as long as the queue is empty. *)
Inductive race_outcome : Type :=
| Joining
| BlockedOnGet
| Got (reservation_data : ReservationData).

Definition collect (sys : System) : race_outcome :=
  if forallb is_exited (workers sys) then
    match result_queue (shared sys) with
    | [] => BlockedOnGet
    | reservation_data :: _ => Got reservation_data
    end
  else Joining.

Definition book_ticket_race (num_processes : nat)
  (schedule : list (nat * Env)) : race_outcome :=
  collect (run schedule (start_race num_processes)).

End Worker.

(** *** Concrete surroundings used in the examples *)

Definition dhaka_trip : Trip :=
  mkTrip "SUBORNO EXPRESS" "07:00" "12:00" "05h 00m" 7001 9001 31
    [mkBoardingPoint 1 "Dhaka" "07:00" "25-Mar-2025"].

Definition one_passenger : BookingConfig :=
  mkBookingConfig ["Rahim"]%string "rahim@example.com" "01700000000"
    ["male"]%string ["Adult"]%string 3.

Definition two_seat_floor : Floor := mkFloor 1 [[A1; A2]] "F1" true.
Definition two_seat_layout : SeatLayout := mkSeatLayout (-1) (-1) [two_seat_floor].

Definition layout_ok (sl : SeatLayout) : ApiResponse :=
  mkApiResponse true (DataLayout sl) None (Some 200%Z) None.

(** A request that timed out: [make_request] catches the exception. *)
Definition timeout_response : ApiResponse :=
  mkApiResponse false DataNone (Some "TimeoutError"%string) None
    (Some "TimeoutError"%string).

(** A generic remote failure whose JSON body holds the error as a
    string. *)
Definition server_error_response : ApiResponse :=
  mkApiResponse false (DataErrorText "internal")
    (Some "{'error': 'internal'}"%string) (Some 500%Z) None.

(** A generic remote failure whose JSON body has no [error] entry. *)
Definition bad_gateway_response : ApiResponse :=
  mkApiResponse false DataOther (Some "{'message': 'bad gateway'}"%string)
    (Some 502%Z) None.

Definition unauthorized_response : ApiResponse :=
  mkApiResponse false (DataErrorText "token expired")
    (Some "{'error': 'token expired'}"%string) (Some 401%Z) None.

Definition all_ok : Remote := fun _ => ok_response.

Definition env_ok (draw : nat) : Env :=
  mkEnv (layout_ok two_seat_layout) 0 draw all_ok.

Definition env_with (response : ApiResponse) : Env :=
  mkEnv response 0 0 all_ok.

(** Two workers; each looks at the flag before either sets it. *)
Definition overlapping_schedule : list (nat * Env) :=
  [ (0, env_ok 0); (1, env_ok 1);      (* first look, both see False *)
    (0, env_ok 0); (1, env_ok 1);      (* seat layout, A1 and A2 chosen *)
    (0, env_ok 0); (1, env_ok 1);      (* second look, both see False *)
    (0, env_ok 0); (1, env_ok 1);      (* both seat claims succeed *)
    (0, env_ok 0); (1, env_ok 1);      (* both set the flag *)
    (0, env_ok 0); (1, env_ok 1);      (* both put their result *)
    (0, env_ok 0); (1, env_ok 1);      (* sleep *)
    (0, env_ok 0); (1, env_ok 1) ].    (* flag is set: both exit *)

(** A race in which worker 1 has set the flag and worker 2 is about to
    start an attempt. *)
Definition late_start : System :=
  mkSystem [AtPut [A1] []; AtLoopStart]
    (mkShared None true []
       [NetGetSeatLayout 1 7001 9001; NetReserveSeat 1 101 9001;
        SetReserved 1]).

(** At most one worker of a race sets the flag. *)
Definition at_most_one_claim (sys : System) : Prop :=
  List.length (filter is_claim (trace (shared sys))) <= 1.

(** One worker whose seat-layout request is answered 401. *)
Definition unauthorized_schedule : list (nat * Env) :=
  [(0, env_with unauthorized_response); (0, env_with unauthorized_response)].

(** Worker [process_id] has paused at least once during the race, which
    is what it does before it starts another attempt. *)
Definition retries_after_pause (sys : System) (process_id : nat) : Prop :=
  exists ms, In (Sleep process_id ms) (trace (shared sys)).

(** One worker whose seat-layout request times out, then given four more
    turns. *)
Definition timeout_schedule : list (nat * Env) :=
  [(0, env_with timeout_response); (0, env_with timeout_response);
   (0, env_ok 0); (0, env_ok 0); (0, env_ok 0); (0, env_ok 0)].

Definition server_error_schedule : list (nat * Env) :=
  [(0, env_with server_error_response); (0, env_with server_error_response);
   (0, env_ok 0); (0, env_ok 0); (0, env_ok 0); (0, env_ok 0)].

Definition bad_gateway_schedule : list (nat * Env) :=
  [(0, env_with bad_gateway_response); (0, env_with bad_gateway_response);
   (0, env_ok 0); (0, env_ok 0); (0, env_ok 0); (0, env_ok 0)].

End Race.

(** ** BookingController.__run_with_retry *)
Module Retry.
Import Config.

(** How one call of [book_ticket] can end for the loop that calls it:
    it returns a boolean, it never returns (blocked on the result
    queue), or the operator's interrupt is re-raised. *)
Inductive book_outcome : Type :=
| BookTrue
| BookFalse
| BookBlocks
| BookInterrupted.

Inductive log_line : Type :=
| InfoBookedOnAttempt (attempt : Z)
| WarnAttemptFailed (attempt : Z)
| ErrorFailedAfter (max_attempts : Z).

Inductive ending : Type :=
| Completed
| NeverReturns
| Interrupted
| OutOfFuel.

Record LoopResult : Type := mkLoopResult {
  how : ending;
  races : nat;
  lines : list log_line
}.

(** The statement after the loop. *)
Definition after_loop (max_attempts attempt : Z) (races : nat)
  (lines : list log_line) : LoopResult :=
  mkLoopResult Completed races
    (if (attempt >=? max_attempts)%Z
     then lines ++ [ErrorFailedAfter max_attempts] else lines).

(** The [while attempt < max_retry_attempts] loop; [book a] is how the
    race of attempt [a] ends. *)
Fixpoint while_loop (fuel : nat) (max_attempts : Z) (book : Z -> book_outcome)
  (attempt : Z) (races : nat) (lines : list log_line) : LoopResult :=
  match fuel with
  | 0 => mkLoopResult OutOfFuel races lines
  | S fuel' =>
      if (attempt <? max_attempts)%Z then
        let attempt := (attempt + 1)%Z in
        match book attempt with
        | BookTrue =>
            after_loop max_attempts attempt (S races)
              (lines ++ [InfoBookedOnAttempt attempt])
        | BookFalse =>
            while_loop fuel' max_attempts book attempt (S races)
              (lines ++ [WarnAttemptFailed attempt])
        | BookBlocks => mkLoopResult NeverReturns (S races) lines
        | BookInterrupted => mkLoopResult Interrupted (S races) lines
        end
      else after_loop max_attempts attempt races lines
  end.

(** The loop run from [attempt = 0], with one unit of fuel per possible
    iteration and one for the final test. *)
Definition run_with_retry (config : BookingConfig) (book : Z -> book_outcome)
  : LoopResult :=
  while_loop (S (Z.to_nat (max_retry_attempts config)))
    (max_retry_attempts config) book 0 0 [].

End Retry.

(** ** models.py: the seat count of a floor and the parsing of a layout *)
Module Layouts.
Import Models.

(** [Floor.available_seats]: every seat whose flag is set counts, an
    aisle placeholder included. *)
Definition available_seats (f : Floor) : nat :=
  List.length (filter is_available (List.concat (seats f))).

(** One seat of the seat-layout payload, with the keys [Seat.from_dict]
    reads. *)
Record SeatDict : Type := mkSeatDict {
  d_seat_number : string;
  d_ticket_id : Z;
  d_seat_availability : Z;
  d_isHidden : bool;
  d_ticket_type : Z
}.

(** [Seat.from_dict] *)
Definition Seat_from_dict (d : SeatDict) : Seat :=
  mkSeat (d_seat_number d) (d_ticket_id d)
    (d_seat_availability d =? 1)%Z (d_isHidden d) (d_ticket_type d).

(** One entry of [data["seatLayout"]]. *)
Record FloorDict : Type := mkFloorDict {
  d_seat_floor : Z;
  d_layout : list (list SeatDict);
  d_floor_name : string;
  d_floor_seat_availability : bool
}.

Definition Floor_from_dict (d : FloorDict) : Floor :=
  mkFloor (d_seat_floor d) (map (map Seat_from_dict) (d_layout d))
    (d_floor_name d) (d_floor_seat_availability d).

(** [SeatLayout.from_dict]: the trip ids keep their default, -1. *)
Definition SeatLayout_from_dict (seatLayout : list FloorDict) : SeatLayout :=
  mkSeatLayout (-1) (-1) (map Floor_from_dict seatLayout).

(** The same seat with another value of [is_hidden]. *)
Definition with_hidden (h : Seat -> bool) (s : Seat) : Seat :=
  mkSeat (seat_number s) (ticket_id s) (is_available s) (h s) (ticket_type s).

Definition floor_with_hidden (h : Seat -> bool) (f : Floor) : Floor :=
  mkFloor (floor_number f) (map (map (with_hidden h)) (seats f))
    (floor_name f) (seat_availability f).

Definition layout_with_hidden (h : Seat -> bool) (sl : SeatLayout) : SeatLayout :=
  mkSeatLayout (sl_trip_id sl) (sl_trip_route_id sl)
    (map (floor_with_hidden h) (floors sl)).

(** A row of four seats, all available, the second one hidden. *)
Definition B1 : Seat := mkSeat "B1" 201 true false 1.
Definition B2 : Seat := mkSeat "B2" 202 true true 1.
Definition B3 : Seat := mkSeat "B3" 203 true false 1.
Definition B4 : Seat := mkSeat "B4" 204 true false 1.

Definition open_floor : Floor := mkFloor 1 [[B1; B2; B3; B4]] "F1" true.

End Layouts.

(** ** business/passenger_service.py: fitting the passengers to the tickets *)
Module PassengerData.
Import Models PassengerService BookingService.

(** The exceptions of this part: the built-in ones met before, and the
    one [%] raises on a zero divisor. *)
Inductive py_exn : Type :=
| OfBuiltin (e : builtin_exn)
| ZeroDivisionError.

(** The [while len(adjusted) < needed_count] loop, which appends
    [passengers[len(adjusted) % len(passengers)]]; one unit of fuel per
    missing entry. *)
Fixpoint extend_cyclically (fuel : nat) (passengers adjusted : list Passenger)
  (needed_count : nat) : list Passenger :=
  match fuel with
  | 0 => adjusted
  | S fuel' =>
      if List.length adjusted <? needed_count then
        match nth_error passengers
                (List.length adjusted mod List.length passengers) with
        | Some p =>
            extend_cyclically fuel' passengers (adjusted ++ [p]) needed_count
        | None => adjusted
        end
      else adjusted
  end.

(** [RailwayPassengerService._adjust_passenger_count].  In the last
    branch the list is shorter than [needed_count]; on an empty list the
    first [%] divides by zero. *)
Definition _adjust_passenger_count (passengers : list Passenger)
  (needed_count : Z) : pyres py_exn (list Passenger) :=
  let len := Z.of_nat (List.length passengers) in
  if (len =? needed_count)%Z then Returns passengers
  else if (len >? needed_count)%Z then Returns (py_prefix passengers needed_count)
  else
    match passengers with
    | [] => Raises ZeroDivisionError
    | _ :: _ =>
        Returns (extend_cyclically
                   (Z.to_nat needed_count - List.length passengers)
                   passengers passengers (Z.to_nat needed_count))
    end.

(** The dictionary [prepare_passenger_data] returns. *)
Record PassengerDict : Type := mkPassengerDict {
  pd_pname : list string;
  pd_gender : list string;
  pd_passengerType : list string;
  pd_pemail : string;
  pd_pmobile : string
}.

(** [RailwayPassengerService.prepare_passenger_data]:
    [adjusted_passengers[0]] raises IndexError on an empty list. *)
Definition prepare_passenger_data (passengers : list Passenger)
  (num_tickets : Z) : pyres py_exn PassengerDict :=
  match validate_passengers passengers with
  | Raises _ => Raises (OfBuiltin ValueError)
  | Returns _ =>
      match _adjust_passenger_count passengers num_tickets with
      | Raises e => Raises e
      | Returns adjusted_passengers =>
          match adjusted_passengers with
          | [] => Raises (OfBuiltin IndexError)
          | first :: _ =>
              Returns (mkPassengerDict
                         (map p_name adjusted_passengers)
                         (map p_gender adjusted_passengers)
                         (map p_passenger_type adjusted_passengers)
                         (p_email first) (p_mobile first))
          end
      end
  end.

Definition rahim : Passenger :=
  mkPassenger "Rahim" "rahim@example.com" "01700000000" "male" "Adult".
Definition karima : Passenger :=
  mkPassenger "Karima" "rahim@example.com" "01700000000" "female" "Adult".

End PassengerData.

(** ** business/booking_service.py and BookingController.finalize_booking *)
Module Finalization.
Import Models BookingService.

(** [BookingRequest] *)
Record BookingRequest : Type := mkBookingRequest {
  br_trip : Trip;
  br_passengers : list Passenger;
  br_selected_seats : list Seat;
  br_boarding_point : BoardingPoint;
  br_num_seats : nat;
  br_from_city : string;
  br_to_city : string
}.

(** [BookingData], field by field. *)
Record BookingData : Type := mkBookingData {
  is_bkash_online : bool;
  boarding_point_id : Z;
  contactperson : Z;
  from_city : string;
  to_city : string;
  date_of_journey : string;
  seat_class : string;
  gender : list string;
  page : list string;
  passengerType : list string;
  pemail : string;
  pmobile : string;
  pname : list string;
  ppassport : list string;
  priyojon_order_id : option string;
  referral_mobile_number : option string;
  ticket_ids : list Z;
  bd_trip_id : Z;
  bd_trip_route_id : Z;
  isShohoz : Z;
  enable_sms_alert : Z;
  first_name : list (option string);
  middle_name : list (option string);
  last_name : list (option string);
  date_of_birth : list (option string);
  nationality : list (option string);
  passport_type : list (option string);
  passport_no : list (option string);
  passport_expiry_date : list (option string);
  visa_type : list (option string);
  visa_no : list (option string);
  visa_issue_place : list (option string);
  visa_issue_date : list (option string);
  visa_expire_date : list (option string);
  otp : string;
  selected_mobile_transaction : Z
}.

(** The fields of [BookingConfig] that [create_booking_data] reads. *)
Record PayloadConfig : Type := mkPayloadConfig {
  cfg_is_bkash_online : bool;
  cfg_seat_class : string;
  cfg_selected_mobile_transaction : Z
}.

(** [BookingConfig()]: bKash, SNIGDHA, transaction 1. *)
Definition default_payload_config : PayloadConfig :=
  mkPayloadConfig true "SNIGDHA" 1.

(** [RailwayBookingService.create_booking_data];
    [request.passengers[0]] raises IndexError on an empty list. *)
Definition create_booking_data (config : PayloadConfig)
  (request : BookingRequest) (otp : string) : pyres builtin_exn BookingData :=
  let num_tickets := List.length (br_selected_seats request) in
  let empty_array := repeat (@None string) num_tickets in
  let empty_string_array := repeat ""%string num_tickets in
  let passenger_names :=
    _adjust_list (map p_name (br_passengers request))
      (Z.of_nat num_tickets) "Passenger" in
  let passenger_genders :=
    _adjust_list (map p_gender (br_passengers request))
      (Z.of_nat num_tickets) "male" in
  let passenger_types :=
    _adjust_list (map p_passenger_type (br_passengers request))
      (Z.of_nat num_tickets) "Adult" in
  match br_passengers request with
  | [] => Raises IndexError
  | contact_passenger :: _ =>
      Returns
        (mkBookingData
           (cfg_is_bkash_online config)
           (bp_id (br_boarding_point request))
           0
           (br_from_city request)
           (br_to_city request)
           (bp_date (br_boarding_point request))
           (cfg_seat_class config)
           passenger_genders
           empty_string_array
           passenger_types
           (p_email contact_passenger)
           (p_mobile contact_passenger)
           passenger_names
           empty_string_array
           None
           None
           (map ticket_id (br_selected_seats request))
           (trip_id (br_trip request))
           (trip_route_id (br_trip request))
           0
           0
           empty_array empty_array empty_array empty_array empty_array
           empty_array empty_array empty_array empty_array empty_array
           empty_array empty_array empty_array
           otp
           (cfg_selected_mobile_transaction config))
  end.

(** The lengths of the lists of the payload that hold one entry per
    ticket. *)
Definition per_ticket_lengths (d : BookingData) : list nat :=
  [ List.length (gender d); List.length (page d);
    List.length (passengerType d); List.length (pname d);
    List.length (ppassport d); List.length (ticket_ids d);
    List.length (first_name d); List.length (middle_name d);
    List.length (last_name d); List.length (date_of_birth d);
    List.length (nationality d); List.length (passport_type d);
    List.length (passport_no d); List.length (passport_expiry_date d);
    List.length (visa_type d); List.length (visa_no d);
    List.length (visa_issue_place d); List.length (visa_issue_date d);
    List.length (visa_expire_date d) ].

(** [BookingResult] *)
Record BookingResult : Type := mkBookingResult {
  result_success : bool;
  result_error_message : option string;
  result_booking_data : option BookingData;
  confirmation_response : option Payload
}.

(** [RailwayBookingService.submit_booking], from the response of
    [api_client.confirm_booking] on. *)
Definition submit_booking (booking_data : BookingData) (response : ApiResponse)
  : BookingResult :=
  if success response then
    mkBookingResult true None (Some booking_data) (Some (data response))
  else
    mkBookingResult false (error_message response) (Some booking_data) None.

(** What the finalization can see raised. *)
Inductive final_exn : Type :=
| OtpVerificationFailedException (response : ApiResponse)
| Other (e : builtin_exn).

(** [RailwayBookingService.verify_otp], from the response of
    [api_client.verify_otp] on. *)
Definition verify_otp (response : ApiResponse) : pyres final_exn bool :=
  if success response then Returns true
  else Raises (OtpVerificationFailedException response).

(** The requests of the finalization. *)
Inductive request : Type :=
| VerifyOtp (trip_id trip_route_id : Z) (ticket_ids : list Z) (otp : string)
| Confirm (booking_data : BookingData).

(** What the outside world answers during one finalization: the two
    responses, and how [_handle_successful_booking] (the receipt file
    and the summary table) ends. *)
Record FinalEnv : Type := mkFinalEnv {
  verify_response : ApiResponse;
  confirm_response : ApiResponse;
  handled : pyres builtin_exn unit
}.

(** The [reservation_data] dictionary the controller works on. *)
Record Reservation : Type := mkReservation {
  r_trip : Trip;
  r_ticket_ids : list Z;
  r_selected_seats : list Seat;
  r_passengers : list Passenger
}.

(** [BookingController.finalize_booking]: the result, and the requests
    sent in order.  [verify_otp] returns True or raises, so the [else]
    of [if verify_result] is never taken. *)
Definition finalize_booking (config : PayloadConfig) (env : FinalEnv)
  (reservation_data : Reservation) (otp from_city to_city : string)
  : pyres final_exn bool * list request :=
  let verify :=
    VerifyOtp (trip_id (r_trip reservation_data))
      (trip_route_id (r_trip reservation_data))
      (r_ticket_ids reservation_data) otp in
  match verify_otp (verify_response env) with
  | Raises e => (Raises e, [verify])
  | Returns false => (Returns false, [verify])
  | Returns true =>
      match find_boarding_point (r_trip reservation_data) from_city with
      | Raises e => (Raises (Other e), [verify])
      | Returns None => (Raises (Other AttributeError), [verify])
      | Returns (Some boarding_point) =>
          let booking_request :=
            mkBookingRequest (r_trip reservation_data)
              (r_passengers reservation_data)
              (r_selected_seats reservation_data)
              boarding_point
              (List.length (r_selected_seats reservation_data))
              from_city to_city in
          match create_booking_data config booking_request otp with
          | Raises e => (Raises (Other e), [verify])
          | Returns booking_data =>
              let booking_result :=
                submit_booking booking_data (confirm_response env) in
              if result_success booking_result then
                match handled env with
                | Raises e => (Raises (Other e), [verify; Confirm booking_data])
                | Returns _ => (Returns true, [verify; Confirm booking_data])
                end
              else (Returns false, [verify; Confirm booking_data])
          end
      end
  end.

Definition accepted : ApiResponse :=
  mkApiResponse true DataOther None (Some 200%Z) None.

Definition rejected : ApiResponse :=
  mkApiResponse false (DataError "otp does not match")
    (Some "otp does not match"%string) (Some 422%Z) None.

End Finalization.

(** ** infrastructure/api_client.py: the response of a request *)
Module ApiClient.
Import Models.

(** How the HTTP exchange of [make_request] ends: a reply with its
    status, its body (JSON, or text when it does not parse; never
    [DataNone]) and what [str] prints for the body, or an exception of
    the transport with its message. *)
Inductive HttpOutcome : Type :=
| Reply (status : Z) (body : Payload) (printed : string)
| Failed (message : string).

(** [RailwayApiClient.make_request], from the exchange on. *)
Definition make_request (o : HttpOutcome) : ApiResponse :=
  match o with
  | Reply status body printed =>
      mkApiResponse (status =? 200)%Z body
        (if (status =? 200)%Z then None else Some printed)
        (Some status) None
  | Failed message =>
      mkApiResponse false DataNone (Some message) None (Some message)
  end.

End ApiClient.

(** ** business/trip_repository.py: the trips of a search result *)
Module TripParsing.
Import Models.

(** One entry of [train["seat_types"]]; the fare and VAT are floats and
    are left out, as in [Trip]. *)
Record SeatTypeDict : Type := mkSeatTypeDict {
  st_type : string;
  st_trip_id : Z;
  st_trip_route_id : Z;
  st_route_id : Z
}.

Record PointDict : Type := mkPointDict {
  trip_point_id : Z;
  location_name : string;
  location_time : string;
  location_date : string
}.

Record TrainDict : Type := mkTrainDict {
  trip_number : string;
  departure_date_time : string;
  arrival_date_time : string;
  train_travel_time : string;
  seat_types : list SeatTypeDict;
  train_boarding_points : list PointDict
}.

(** The search result as [_parse_trip_data] tests it: falsy, or without
    [data], or without [trains]; or with its list of trains. *)
Inductive SearchData : Type :=
| NoTrains
| Trains (trains : list TrainDict).

Definition point_of (point : PointDict) : BoardingPoint :=
  mkBoardingPoint (trip_point_id point) (location_name point)
    (location_time point) (location_date point).

(** The inner loop: the first seat type of the requested class, then
    [break]. *)
Fixpoint first_of_class (seat_class : string) (l : list SeatTypeDict)
  : option SeatTypeDict :=
  match l with
  | [] => None
  | seat_type :: l' =>
      if String.eqb (st_type seat_type) seat_class then Some seat_type
      else first_of_class seat_class l'
  end.

Definition trip_of (train : TrainDict) (seat_type : SeatTypeDict) : Trip :=
  mkTrip (trip_number train) (departure_date_time train)
    (arrival_date_time train) (train_travel_time train)
    (st_trip_id seat_type) (st_trip_route_id seat_type) (st_route_id seat_type)
    (map point_of (train_boarding_points train)).

(** The outer loop. *)
Fixpoint parse_trains (trains : list TrainDict) (seat_class : string)
  : list Trip :=
  match trains with
  | [] => []
  | train :: trains' =>
      match first_of_class seat_class (seat_types train) with
      | Some seat_type =>
          trip_of train seat_type :: parse_trains trains' seat_class
      | None => parse_trains trains' seat_class
      end
  end.

(** [RailwayTripRepository._parse_trip_data] *)
Definition _parse_trip_data (search_data : SearchData) (seat_class : string)
  : list Trip :=
  match search_data with
  | NoTrains => []
  | Trains trains => parse_trains trains seat_class
  end.

Definition offers (seat_class : string) (train : TrainDict) : bool :=
  existsb (fun seat_type => String.eqb (st_type seat_type) seat_class)
    (seat_types train).

End TripParsing.

(** ** BookingController._select_trip *)
Module TripSelection.
Import Models.

(** [BookingController._select_trip]; [trips[0]] raises IndexError on
    an empty list. *)
Definition _select_trip (auto_select_train : bool) (trips : list Trip)
  (trip_number : Z) : pyres builtin_exn Trip :=
  if auto_select_train || Nat.eqb (List.length trips) 1 then
    match trips with
    | [] => Raises IndexError
    | t :: _ => Returns t
    end
  else
    let selected_index := (trip_number - 1)%Z in
    let selected_index :=
      if (selected_index <? 0)%Z
         || (selected_index >=? Z.of_nat (List.length trips))%Z
      then 0%Z else selected_index in
    match nth_error trips (Z.to_nat selected_index) with
    | None => Raises IndexError
    | Some t => Returns t
    end.

End TripSelection.

(** ** What a race keeps true *)
Module RaceInvariant.
Import Models Config Race.

(** The results worker [process_id] has put on the queue, and the times
    it has set the flag. *)
Definition puts_of (process_id : nat) (queue : list ReservationData) : nat :=
  List.length (filter (fun rd => Nat.eqb (rd_process_id rd) process_id) queue).

Definition is_claim_of (process_id : nat) (e : event) : bool :=
  match e with
  | SetReserved p => Nat.eqb p process_id
  | _ => false
  end.

Definition claims_of (process_id : nat) (tr : list event) : nat :=
  List.length (filter (is_claim_of process_id) tr).

(** A group a worker carries through its attempt: one seat for each of
    the configured passengers, at least one, every seat available and
    none an aisle placeholder. *)
Definition group_ok (config : BookingConfig) (selected_seats : list Seat)
  (passengers : list Passenger) : Prop :=
  prepare_passengers config = Returns passengers /\
  List.length selected_seats = List.length passengers /\
  1 <= List.length selected_seats /\
  forallb selectable selected_seats = true.

(** Where a worker can be, given what it has done so far. *)
Definition worker_inv (config : BookingConfig) (process_id : nat) (p : pc)
  (sh : Shared) : Prop :=
  let q := puts_of process_id (result_queue sh) in
  let c := claims_of process_id (trace sh) in
  let before := q = 0 /\ c = 0 in
  let after := q = 1 /\ c <= 1 /\ is_reserved sh = true in
  match p with
  | AtLoopStart | AtSleep | Exited _ => before \/ after
  | AtFetch => before
  | AtRecheck s ps | AtReserve s ps | AtMark s ps =>
      before /\ group_ok config s ps
  | AtPut s ps =>
      q = 0 /\ c <= 1 /\ is_reserved sh = true /\ group_ok config s ps
  end.

Definition reservation_ok (trip : Trip) (config : BookingConfig)
  (num_processes : nat) (rd : ReservationData) : Prop :=
  rd_trip rd = trip /\
  rd_ticket_ids rd = map ticket_id (rd_selected_seats rd) /\
  1 <= rd_process_id rd <= num_processes /\
  group_ok config (rd_selected_seats rd) (rd_passengers rd).

Definition race_inv (trip : Trip) (config : BookingConfig)
  (num_processes : nat) (sys : System) : Prop :=
  List.length (workers sys) = num_processes /\
  (forall i p, nth_error (workers sys) i = Some p ->
     worker_inv config (S i) p (shared sys)) /\
  Forall (reservation_ok trip config num_processes)
    (result_queue (shared sys)) /\
  Forall (fun e => 1 <= event_process e <= num_processes)
    (trace (shared sys)) /\
  (result_queue (shared sys) <> [] -> is_reserved (shared sys) = true).

(** The result worker 1 puts on the queue in the schedule of the two
    overlapping workers. *)
Definition first_result : ReservationData :=
  mkReservationData dhaka_trip [101%Z] 1 [A1]
    [mkPassenger "Rahim" "rahim@example.com" "01700000000" "male" "Adult"].

End RaceInvariant.

(** ** infrastructure/cache_service.py *)
Module CacheService.

(** [s.replace(a, b)] for single characters. *)
Fixpoint replace_char (a b : ascii) (s : string) : string :=
  match s with
  | EmptyString => EmptyString
  | String c s' =>
      String (if Ascii.eqb c a then b else c) (replace_char a b s')
  end.

(** [safe_key] of [_get_cache_path]: "/", "\" and ":" become "_". *)
Definition safe_key (key : string) : string :=
  replace_char ":" "_" (replace_char "\" "_" (replace_char "/" "_" key)).

(** The name, inside [cache_dir], of the file [_get_cache_path] points
    to; the safe key holds no "/", so [os.path.join] keeps the
    directory. *)
Definition cache_file (key : string) : string :=
  String.append (safe_key key) ".pkl".

(** [name.endswith(suffix)] *)
Fixpoint endswith (name suffix : string) : bool :=
  String.eqb name suffix ||
  match name with
  | EmptyString => false
  | String _ name' => endswith name' suffix
  end.

(** What a file of the cache directory holds: a value that [pickle]
    loads, or bytes it cannot load. *)
Inductive FileContent (V : Type) : Type :=
| Pickled (v : V)
| Garbage.
Arguments Pickled {V} v.
Arguments Garbage {V}.

(** The cache directory: what each file name holds, if the file
    exists. *)
Definition Dir (V : Type) : Type := string -> option (FileContent V).

Definition write {V : Type} (name : string) (c : FileContent V) (dir : Dir V)
  : Dir V :=
  fun n => if String.eqb n name then Some c else dir n.

Definition remove {V : Type} (name : string) (dir : Dir V) : Dir V :=
  fun n => if String.eqb n name then None else dir n.

(** [FileCacheService.get]: the value, and the directory afterwards; a
    file that does not load is removed. *)
Definition get {V : Type} (dir : Dir V) (key : string) : option V * Dir V :=
  match dir (cache_file key) with
  | None => (None, dir)
  | Some (Pickled v) => (Some v, dir)
  | Some Garbage => (None, remove (cache_file key) dir)
  end.

(** How the [try] block of [FileCacheService.set] ends: the value is
    written; or [open(cache_path, "wb")] raises (a name the file system
    refuses, a directory that is gone or cannot be written to) and no
    file is touched; or [open] has created or emptied the file and
    [pickle.dump] raises, which leaves bytes that do not load.  The
    [except] clause logs the error and nothing else. *)
Inductive WriteOutcome : Type :=
| Written
| OpenFails
| DumpFails.

(** [FileCacheService.set]: it returns None and raises nothing, however
    the write ends; the directory afterwards. *)
Definition set {V : Type} (dir : Dir V) (key : string) (value : V)
  (outcome : WriteOutcome) : Dir V :=
  match outcome with
  | Written => write (cache_file key) (Pickled value) dir
  | OpenFails => dir
  | DumpFails => write (cache_file key) Garbage dir
  end.

(** [FileCacheService.clear] *)
Definition clear {V : Type} (dir : Dir V) (key : string) : Dir V :=
  remove (cache_file key) dir.

(** [FileCacheService.clear_all]: every file whose name ends in ".pkl"
    is removed. *)
Definition clear_all {V : Type} (dir : Dir V) : Dir V :=
  fun n => if endswith n ".pkl" then None else dir n.

Definition empty_dir {V : Type} : Dir V := fun _ => None.

End CacheService.

(** ** business/auth_service.py *)
Module AuthService.
Import PassengerService.

(** What the authentication touches: the token object of the service
    (its [token] field), the client's token and Authorization header,
    and the content of the token file, if the file exists. *)
Record AuthState : Type := mkAuthState {
  current_token : option string;
  client_token : option string;
  authorization : option string;
  token_file : option string
}.

Definition truthy (s : option string) : bool :=
  match s with
  | Some t => negb (String.eqb t "")
  | None => false
  end.

(** [BookingConfig.auth_token]: the stripped content of the file, None
    when there is no file. *)
Definition auth_token (st : AuthState) : option string :=
  option_map strip (token_file st).

(** The token object of the service set, [RailwayApiClient
    .update_auth_token], which keeps the token and puts
    [f"Bearer {auth_token}"] under Authorization, and
    [BookingConfig.save_auth_token], which writes the bare token to the
    token file (taken to be writable). *)
Definition install (token : string) (st : AuthState) : AuthState :=
  mkAuthState (Some token) (Some token) (Some (String.append "Bearer " token))
    (Some token).

(** [RailwayAuthService.get_current_token]: a token object, once there,
    is used whatever its token; otherwise the file is read. *)
Definition get_current_token (st : AuthState) : option string * AuthState :=
  match current_token st with
  | Some t => (Some t, st)
  | None =>
      let token := auth_token st in
      if truthy token then
        (token,
         mkAuthState token (client_token st) (authorization st) (token_file st))
      else (None, st)
  end.

(** [RailwayAuthService.set_token] *)
Definition set_token (token : string) (st : AuthState) : AuthState :=
  install token st.

(** [RailwayAuthService.clear_token] *)
Definition clear_token (st : AuthState) : AuthState :=
  mkAuthState None (client_token st) None (token_file st).

(** [RailwayAuthService.is_token_valid] *)
Definition is_token_valid (st : AuthState) : bool := truthy (current_token st).

(** The answer to the sign-in request, for a reply whose body is a JSON
    object: whether it succeeded and the token found under
    [data.token], if any. *)
Record LoginReply : Type := mkLoginReply {
  login_success : bool;
  login_token : option string
}.

(** [RailwayAuthService.login]: the token, or the exception, and the
    state afterwards. *)
Definition login (reply : LoginReply) (st : AuthState)
  : pyres builtin_exn string * AuthState :=
  if negb (login_success reply) then (Raises Exception, st)
  else
    match login_token reply with
    | Some t =>
        if String.eqb t "" then (Raises Exception, st)
        else (Returns t, install t st)
    | None => (Raises Exception, st)
    end.

(** [RailwayAuthService.ensure_authenticated]: the result, the number
    of sign-in requests sent, and the state afterwards. *)
Definition ensure_authenticated (reply : LoginReply) (st : AuthState)
  : pyres builtin_exn bool * nat * AuthState :=
  let '(token, st1) := get_current_token st in
  if truthy token then (Returns true, 0, st1)
  else
    match login reply st1 with
    | (Raises e, st2) => (Raises e, 1, st2)
    | (Returns _, st2) => (Returns true, 1, st2)
    end.

End AuthService.

(** ** BookingController.book_ticket, after the race *)
Module AfterRace.
Import Models Race Finalization.

(** The requests of [book_ticket] once it holds a reservation. *)
Inductive call : Type :=
| PassengerDetails (trip_id trip_route_id : Z) (ticket_ids : list Z)
| Final (r : request).

Definition reservation_of (rd : ReservationData) : Reservation :=
  mkReservation (rd_trip rd) (rd_ticket_ids rd) (rd_selected_seats rd)
    (rd_passengers rd).

(** [book_ticket] from [reservation_data = result_queue.get()] on: the
    table of reserved seats has one row per pair of
    [zip(selected_seats, passengers)]; an empty table and a failed
    passenger-details request return False; whatever [finalize_booking]
    raises is caught by [except Exception] and returns False. *)
Definition book_ticket_after_race (config : PayloadConfig)
  (reservation_data : ReservationData) (passenger_details : ApiResponse)
  (otp from_city to_city : string) (env : FinalEnv) : bool * list call :=
  let row_count :=
    List.length (combine (rd_selected_seats reservation_data)
                   (rd_passengers reservation_data)) in
  if Nat.eqb row_count 0 then (false, [])
  else
    let details :=
      PassengerDetails (trip_id (rd_trip reservation_data))
        (trip_route_id (rd_trip reservation_data))
        (rd_ticket_ids reservation_data) in
    if negb (success passenger_details) then (false, [details])
    else
      let '(result, sent) :=
        finalize_booking config env (reservation_of reservation_data)
          otp from_city to_city in
      (match result with
       | Returns b => b
       | Raises _ => false
       end,
       details :: map Final sent).

End AfterRace.

(** * Properties *)

(** ** Boarding points *)
Module BoardingPointFacts.
Import Models.

Lemma find_first_split {A : Type} (f : A -> bool) (l : list A) (x : A) :
  find f l = Some x ->
  exists pre post,
    l = pre ++ x :: post /\ f x = true /\
    forall y, In y pre -> f y = false.
Proof.
  induction l as [| a l IH]; simpl; [discriminate |].
  destruct (f a) eqn:Ha.
  - intros [= ->]. exists [], l. repeat split; auto. intros y [].
  - intros Hx. destruct (IH Hx) as (pre & post & -> & Hfx & Hpre).
    exists (a :: pre), post. repeat split; auto.
    intros y [<- | Hy]; auto.
Qed.

(** C9: on a trip with at least one boarding point,
    [find_boarding_point] returns a boarding point and never None: the
    first one whose lower-cased name starts with the lower-cased city,
    and the first of the list when there is no such one. *)
Theorem find_boarding_point_never_none (t : Trip) (from_city : string) :
  boarding_points t <> [] ->
  exists bp,
    find_boarding_point t from_city = Returns (Some bp) /\
    In bp (boarding_points t) /\
    ((forall b, In b (boarding_points t) -> bp_matches from_city b = false) ->
     hd_error (boarding_points t) = Some bp) /\
    ((exists b, In b (boarding_points t) /\ bp_matches from_city b = true) ->
     exists pre post,
       boarding_points t = pre ++ bp :: post /\
       bp_matches from_city bp = true /\
       forall b, In b pre -> bp_matches from_city b = false).
Proof.
  intros Hne. unfold find_boarding_point, next_matching.
  destruct (find (bp_matches from_city) (boarding_points t)) as [bp |] eqn:Hf.
  - exists bp. destruct (find_first_split _ _ _ Hf) as (pre & post & Hl & Hm & Hpre).
    split; [reflexivity |]. split.
    + rewrite Hl. apply in_or_app. right. left. reflexivity.
    + split.
      * intros Hall. apply find_some in Hf. destruct Hf as [Hin Hbp].
        rewrite (Hall bp Hin) in Hbp. discriminate.
      * intros _. exists pre, post. auto.
  - destruct (boarding_points t) as [| bp0 l] eqn:Hl; [contradiction |].
    exists bp0. split; [reflexivity |]. split; [left; reflexivity |]. split.
    + intros _. reflexivity.
    + intros (b & Hin & Hb). rewrite (find_none _ _ Hf b Hin) in Hb. discriminate.
Qed.

Lemma find_boarding_point_never_none_witness :
  exists bp,
    find_boarding_point two_stop_trip "dhaka" = Returns (Some bp) /\
    bp_id bp = 2%Z.
Proof.
  assert (Hne : boarding_points two_stop_trip <> []) by discriminate.
  destruct (find_boarding_point_never_none two_stop_trip "dhaka" Hne)
    as (bp & Hret & _).
  exists bp. split; [exact Hret |].
  vm_compute in Hret. injection Hret as <-. reflexivity.
Defined.

End BoardingPointFacts.

(** ** The booking payload's lists *)
Module AdjustListFacts.
Import BookingService.

(** C10: for a target length [n >= 0], [_adjust_list] returns exactly
    [n] elements; the first [min n (len items)] are those of the input;
    a shorter input is padded with the default and a longer one is cut
    after [n] entries. *)
Theorem adjust_list_exact_length (items : list string) (n : Z)
  (default_value : string) :
  (0 <= n)%Z ->
  let out := _adjust_list items n default_value in
  let k := Nat.min (Z.to_nat n) (List.length items) in
  List.length out = Z.to_nat n /\
  firstn k out = firstn k items /\
  (List.length items < Z.to_nat n ->
   out = items ++ repeat default_value (Z.to_nat n - List.length items)) /\
  (Z.to_nat n <= List.length items -> out = firstn (Z.to_nat n) items).
Proof.
  intros Hn. cbv zeta. unfold _adjust_list, py_prefix.
  destruct (Z.ltb_spec (Z.of_nat (List.length items)) n) as [Hlt | Hge].
  - assert (Hk : Nat.min (Z.to_nat n) (List.length items) = List.length items) by lia.
    rewrite Hk.
    replace (Z.to_nat (n - Z.of_nat (List.length items)))
      with (Z.to_nat n - List.length items) by lia.
    repeat split.
    + rewrite length_app, repeat_length. lia.
    + rewrite firstn_app, Nat.sub_diag, firstn_all. simpl. now rewrite app_nil_r.
    + intros Hc. lia.
  - destruct (Z.leb_spec 0 n) as [_ | Hneg]; [| lia].
    assert (Hk : Nat.min (Z.to_nat n) (List.length items) = Z.to_nat n) by lia.
    rewrite Hk. repeat split.
    + rewrite length_firstn. lia.
    + rewrite firstn_firstn. now rewrite Nat.min_id.
    + intros Hc. lia.
Qed.

Lemma adjust_list_exact_length_witness :
  List.length (_adjust_list ["a"; "b"; "c"]%string 2 "x") = 2 /\
  List.length (_adjust_list ["a"]%string 3 "x") = 3.
Proof.
  split.
  - apply (adjust_list_exact_length ["a"; "b"; "c"]%string 2%Z "x"%string). lia.
  - apply (adjust_list_exact_length ["a"]%string 3%Z "x"%string). lia.
Defined.

End AdjustListFacts.

(** ** Seat selection *)
Module SeatMapFacts.
Import Models.

Lemma choice_in {A : Type} (r : nat) (l : list A) (x : A) :
  choice r l = Some x -> In x l.
Proof.
  destruct l as [| a l]; simpl; [discriminate |].
  apply nth_error_In.
Qed.

Lemma choice_some {A : Type} (r : nat) (l : list A) :
  l <> [] -> exists x, choice r l = Some x.
Proof.
  destruct l as [| a l]; [contradiction |]. intros _.
  unfold choice.
  destruct (nth_error (a :: l) (r mod List.length (a :: l))) as [x |] eqn:Hn.
  - exists x. reflexivity.
  - apply nth_error_None in Hn.
    pose proof (Nat.mod_upper_bound r (List.length (a :: l))) as Hb.
    simpl in Hb, Hn. lia.
Qed.

Lemma in_slice {A : Type} (i n : nat) (l : list A) (x : A) :
  In x (slice i n l) -> In x l.
Proof.
  unfold slice. intros H.
  rewrite <- (firstn_skipn i l). apply in_or_app. right.
  rewrite <- (firstn_skipn n (skipn i l)). apply in_or_app. now left.
Qed.

Lemma slice_length {A : Type} (i n : nat) (l : list A) :
  i + n <= List.length l -> List.length (slice i n l) = n.
Proof.
  intros H. unfold slice. rewrite length_firstn, length_skipn. lia.
Qed.

Lemma slice_split {A : Type} (i n : nat) (l : list A) :
  l = firstn i l ++ slice i n l ++ skipn n (skipn i l).
Proof.
  unfold slice. rewrite firstn_skipn. now rewrite firstn_skipn.
Qed.

(** What the sliding loop yields: the [adjacency] consecutive entries of
    the list that start at some index [i]. *)
Lemma in_windows (adjacency : nat) (l g : list Seat) :
  In g (windows adjacency l) <->
  exists i, i + adjacency <= List.length l /\ g = slice i adjacency l.
Proof.
  unfold windows. rewrite in_map_iff. split.
  - intros (i & <- & Hi). apply in_seq in Hi. exists i. split; [lia | reflexivity].
  - intros (i & Hi & ->). exists i. split; [reflexivity |]. apply in_seq. lia.
Qed.

Lemma windows_nonempty (adjacency : nat) (l : list Seat) :
  adjacency <= List.length l -> windows adjacency l <> [].
Proof.
  intros H Hw.
  assert (Hin : In (slice 0 adjacency l) (windows adjacency l)).
  { apply in_windows. exists 0. split; [lia | reflexivity]. }
  rewrite Hw in Hin. destruct Hin.
Qed.

Lemma windows_empty (adjacency : nat) (l : list Seat) :
  List.length l < adjacency -> windows adjacency l = [].
Proof.
  intros H. unfold windows.
  replace (List.length l + 1 - adjacency) with 0 by lia. reflexivity.
Qed.

Lemma in_find_adjacent_seats_pairs (f : Floor) (adjacency : nat) (g : list Seat) :
  In g (find_adjacent_seats_pairs f adjacency) <->
  exists row, In row (seats f) /\ In g (windows adjacency (row_available_seats row)).
Proof.
  unfold find_adjacent_seats_pairs. apply in_flat_map.
Qed.

(** The selection either gives up or returns one of the windows of one
    row of a floor flagged available. *)
Lemma selection_cases (sl : SeatLayout) (adjacency r1 r2 : nat) :
  find_random_adjacent_seats sl adjacency r1 r2 = [] \/
  exists f row,
    In f (available_floors sl) /\ In row (seats f) /\
    In (find_random_adjacent_seats sl adjacency r1 r2)
       (windows adjacency (row_available_seats row)).
Proof.
  unfold find_random_adjacent_seats.
  destruct (choice r1 (available_floors sl)) as [f |] eqn:Hf; [| now left].
  destruct (choice r2 (find_adjacent_seats_pairs f adjacency)) as [g |] eqn:Hg;
    [| now left].
  right. apply choice_in in Hf, Hg.
  apply in_find_adjacent_seats_pairs in Hg. destruct Hg as (row & Hrow & Hw).
  exists f, row. auto.
Qed.

Lemma window_props (adjacency : nat) (row g : list Seat) :
  In g (windows adjacency (row_available_seats row)) ->
  List.length g = adjacency /\
  contiguous_in g (row_available_seats row) /\
  Forall (fun s => is_available s = true /\ is_aisle s = false) g.
Proof.
  intros Hw. apply in_windows in Hw. destruct Hw as (i & Hi & ->).
  split; [now apply slice_length |]. split.
  - eexists _, _. apply slice_split.
  - apply Forall_forall. intros s Hs.
    assert (Hin : In s (row_available_seats row)).
    { exact (in_slice _ _ _ _ Hs). }
    unfold row_available_seats in Hin. apply filter_In in Hin.
    destruct Hin as [_ Hsel]. unfold selectable in Hsel.
    apply andb_prop in Hsel. destruct Hsel as [Ha Hb].
    split; [exact Hb |]. now apply negb_true_iff in Ha.
Qed.

Lemma longest_run_from_bound (cur : nat) (row : list Seat) :
  longest_run_from cur row <= cur + List.length (row_available_seats row).
Proof.
  revert cur. induction row as [| s row IH]; intros cur; simpl; [lia |].
  destruct (selectable s); simpl.
  - specialize (IH (S cur)). lia.
  - specialize (IH 0). lia.
Qed.

Lemma longest_run_bound (row : list Seat) :
  longest_run row <= List.length (row_available_seats row).
Proof.
  apply (longest_run_from_bound 0 row).
Qed.

Lemma max_list_witness (l : list nat) (n : nat) :
  1 <= n -> n <= fold_right Nat.max 0 l -> exists x, In x l /\ n <= x.
Proof.
  intros Hn. induction l as [| a l IH]; simpl; [lia |].
  intros H. destruct (Nat.le_gt_cases n a) as [Ha | Ha].
  - exists a. auto.
  - destruct IH as (x & Hx & Hle); [lia |]. exists x. auto.
Qed.

Lemma floor_has_long_row (f : Floor) (n : nat) :
  1 <= n -> n <= floor_longest_run f ->
  exists row, In row (seats f) /\ n <= List.length (row_available_seats row).
Proof.
  intros Hn H. unfold floor_longest_run in H.
  destruct (max_list_witness _ n Hn H) as (x & Hx & Hle).
  apply in_map_iff in Hx. destruct Hx as (row & <- & Hrow).
  exists row. split; [exact Hrow |].
  pose proof (longest_run_bound row). lia.
Qed.

Lemma floor_pairs_nonempty (f : Floor) (n : nat) (row : list Seat) :
  In row (seats f) -> n <= List.length (row_available_seats row) ->
  find_adjacent_seats_pairs f n <> [].
Proof.
  intros Hrow Hlen Hnil.
  assert (Hin : In (slice 0 n (row_available_seats row))
                   (find_adjacent_seats_pairs f n)).
  { apply in_find_adjacent_seats_pairs. exists row. split; [exact Hrow |].
    apply in_windows. exists 0. split; [lia | reflexivity]. }
  rewrite Hnil in Hin. destruct Hin.
Qed.

(** *** The scenario row *)

Lemma scenario_floor_chosen (r1 : nat) :
  choice r1 (available_floors scenario_layout) = Some scenario_floor.
Proof.
  change (available_floors scenario_layout) with [scenario_floor].
  unfold choice. change (List.length [scenario_floor]) with 1.
  rewrite Nat.mod_1_r. reflexivity.
Qed.

Lemma scenario_pairs :
  find_adjacent_seats_pairs scenario_floor 2 = [[A1; A2]; [A2; A4]].
Proof. reflexivity. Qed.

Lemma scenario_triples :
  find_adjacent_seats_pairs scenario_floor 3 = [[A1; A2; A4]].
Proof. reflexivity. Qed.

Lemma scenario_groups_of_two (r1 r2 : nat) :
  find_random_adjacent_seats scenario_layout 2 r1 r2 = [A1; A2] \/
  find_random_adjacent_seats scenario_layout 2 r1 r2 = [A2; A4].
Proof.
  unfold find_random_adjacent_seats.
  rewrite scenario_floor_chosen, scenario_pairs. unfold choice.
  change (List.length [[A1; A2]; [A2; A4]]) with 2.
  pose proof (Nat.mod_upper_bound r2 2) as Hb.
  destruct (r2 mod 2) as [| [| k]]; [now left | now right | lia].
Qed.

Lemma scenario_groups_of_three (r1 r2 : nat) :
  find_random_adjacent_seats scenario_layout 3 r1 r2 = [A1; A2; A4].
Proof.
  unfold find_random_adjacent_seats.
  rewrite scenario_floor_chosen, scenario_triples. unfold choice.
  change (List.length [[A1; A2; A4]]) with 1.
  rewrite Nat.mod_1_r. reflexivity.
Qed.

Lemma A2_A4_not_contiguous : ~ contiguous_in [A2; A4] [A1; A2; A3; A4].
Proof.
  intros (pre & post & H).
  destruct pre as [| a [| b [| c [| d pre]]]]; simpl in H;
    injection H; intros; subst; try discriminate.
  destruct pre; discriminate.
Qed.

(** Against C2 as worded.  On the scenario row a group size of 2 is
    within the longest run,
    yet the second window of the row is (A2, A4): it is not a group of
    consecutive seats of the row, and it is not (A1, A2).  And with a
    second floor whose seats are all taken, the same group size is
    answered with nothing when the floor draw falls on that floor. *)
Lemma scenario_pair_skips_taken_seat :
  (2 <= layout_longest_run scenario_layout /\
   find_random_adjacent_seats scenario_layout 2 0 1 = [A2; A4] /\
   ~ adjacent_group scenario_layout 2
       (find_random_adjacent_seats scenario_layout 2 0 1) /\
   find_random_adjacent_seats scenario_layout 2 0 1 <> [A1; A2]) /\
  (2 <= layout_longest_run two_floor_layout /\
   find_random_adjacent_seats two_floor_layout 2 1 0 = [] /\
   ~ adjacent_group two_floor_layout 2
       (find_random_adjacent_seats two_floor_layout 2 1 0)).
Proof.
  split.
  - split; [vm_compute; lia |]. split; [reflexivity |]. split.
    + change (find_random_adjacent_seats scenario_layout 2 0 1) with [A2; A4].
      intros (_ & _ & f & row & Hf & Hrow & Hc).
      destruct Hf as [<- | []]. destruct Hrow as [<- | []].
      exact (A2_A4_not_contiguous Hc).
    + discriminate.
  - split; [vm_compute; lia |]. split; [reflexivity |].
    change (find_random_adjacent_seats two_floor_layout 2 1 0) with (@nil Seat).
    intros (Hlen & _). discriminate.
Qed.

(** Against C3 as worded.  On the scenario row no run has three seats,
    yet a group size of 3 is answered with (A1, A2, A4) whatever the
    draws. *)
Lemma scenario_triple_without_run :
  no_run_of scenario_layout 3 /\
  (forall r1 r2,
     find_random_adjacent_seats scenario_layout 3 r1 r2 = [A1; A2; A4]) /\
  find_random_adjacent_seats scenario_layout 3 0 0 <> [].
Proof.
  split; [unfold no_run_of; vm_compute; lia |].
  split; [exact scenario_groups_of_three | discriminate].
Qed.

(** C2, as the code has it: for a group size [n >= 1] that does not
    exceed the longest run of some row on every floor flagged available
    (and there is such a floor), the selection returns exactly [n] seats,
    all available, none an aisle placeholder, all of one row of such a
    floor, and consecutive in that row's list of available non-aisle
    seats, in row order.  The seats the row has between them, if any, are
    aisle placeholders or unavailable seats: on the scenario row with
    group size 2 the returnable groups are (A1, A2) and (A2, A4). *)
Theorem selection_returns_window_of_available_seats
  (sl : SeatLayout) (n r1 r2 : nat) :
  1 <= n ->
  available_floors sl <> [] ->
  (forall f, In f (available_floors sl) -> n <= floor_longest_run f) ->
  let g := find_random_adjacent_seats sl n r1 r2 in
  (List.length g = n /\
   Forall (fun s => is_available s = true /\ is_aisle s = false) g /\
   exists f row,
     In f (available_floors sl) /\ In row (seats f) /\
     contiguous_in g (row_available_seats row)) /\
  (forall d1 d2,
     find_random_adjacent_seats scenario_layout 2 d1 d2 = [A1; A2] \/
     find_random_adjacent_seats scenario_layout 2 d1 d2 = [A2; A4]) /\
  find_random_adjacent_seats scenario_layout 2 0 0 = [A1; A2] /\
  find_random_adjacent_seats scenario_layout 2 0 1 = [A2; A4].
Proof.
  intros Hn Hfloors Hruns g.
  split; [| split; [exact scenario_groups_of_two | split; reflexivity]].
  assert (Hwin : exists f row,
             In f (available_floors sl) /\ In row (seats f) /\
             In g (windows n (row_available_seats row))).
  { subst g. unfold find_random_adjacent_seats.
    destruct (choice_some r1 _ Hfloors) as (f & Hf). rewrite Hf.
    pose proof (choice_in _ _ _ Hf) as Hin.
    destruct (floor_has_long_row f n Hn (Hruns f Hin)) as (row & Hrow & Hlen).
    destruct (choice_some r2 _ (floor_pairs_nonempty f n row Hrow Hlen))
      as (w & Hw).
    rewrite Hw. apply choice_in in Hw.
    apply in_find_adjacent_seats_pairs in Hw.
    destruct Hw as (row' & Hrow' & Hw). exists f, row'. auto. }
  destruct Hwin as (f & row & Hf & Hrow & Hw).
  destruct (window_props n row g Hw) as (Hlen & Hc & Hall).
  split; [exact Hlen |]. split; [exact Hall |]. exists f, row. auto.
Qed.

Lemma selection_returns_window_of_available_seats_witness :
  List.length (find_random_adjacent_seats scenario_layout 2 0 1) = 2.
Proof.
  refine (proj1 (proj1
    (selection_returns_window_of_available_seats scenario_layout 2 0 1 _ _ _))).
  - lia.
  - discriminate.
  - intros f [<- | []]. vm_compute. lia.
Defined.

(** C3, as the code has it: when no row of a floor flagged available
    holds as many as [n] available non-aisle seats, counted over the
    whole row, the selection returns empty; and whatever the seat map, a
    group that is returned is never short: a non-empty result has exactly
    [n] seats. *)
Theorem selection_empty_or_full_size (sl : SeatLayout) (n r1 r2 : nat) :
  ((forall f row,
      In f (available_floors sl) -> In row (seats f) ->
      List.length (row_available_seats row) < n) ->
   find_random_adjacent_seats sl n r1 r2 = []) /\
  (find_random_adjacent_seats sl n r1 r2 <> [] ->
   List.length (find_random_adjacent_seats sl n r1 r2) = n).
Proof.
  destruct (selection_cases sl n r1 r2) as [Hnil | (f & row & Hf & Hrow & Hw)].
  - split; [intros _; exact Hnil | intros H; contradiction].
  - split.
    + intros Hshort. rewrite (windows_empty n _ (Hshort f row Hf Hrow)) in Hw.
      destruct Hw.
    + intros _. exact (proj1 (window_props n row _ Hw)).
Qed.

Lemma selection_empty_or_full_size_witness :
  find_random_adjacent_seats scenario_layout 4 0 0 = [].
Proof.
  apply (proj1 (selection_empty_or_full_size scenario_layout 4 0 0)).
  intros f row [<- | []] [<- | []]. vm_compute. lia.
Defined.

End SeatMapFacts.

(** ** Claiming the seats of a group *)
Module SeatServiceFacts.
Import Models SeatService.

Lemma failed_reservations_in (remote : Remote) (seats : list Seat) (s : Seat) :
  In s seats -> success (remote (ticket_id s)) = false ->
  In (seat_number s, error_message (remote (ticket_id s)))
     (failed_reservations seats (gather_responses remote seats)).
Proof.
  unfold failed_reservations, gather_responses.
  induction seats as [| a seats IH]; simpl; [intros [] |].
  intros [-> | Hin] Hs; apply in_or_app.
  - left. rewrite Hs. now left.
  - right. now apply IH.
Qed.

(** When some seat claim fails the call raises
    [ReservationFailedException], and what the exception carries is the
    response to the first seat of the group. *)
Lemma reserve_seats_raises_first_response
  (remote : Remote) (s0 : Seat) (seats : list Seat) :
  (exists s, In s (s0 :: seats) /\ success (remote (ticket_id s)) = false) ->
  reserve_seats remote (s0 :: seats)
  = Raises (ReservationFailedException (remote (ticket_id s0))).
Proof.
  intros (s & Hin & Hs). unfold reserve_seats.
  pose proof (failed_reservations_in remote (s0 :: seats) s Hin Hs) as Hf.
  destruct (failed_reservations (s0 :: seats)
              (gather_responses remote (s0 :: seats))); [destruct Hf |].
  reflexivity.
Qed.

Lemma reserve_seats_all_ok (remote : Remote) (seats : list Seat) :
  (forall s, In s seats -> success (remote (ticket_id s)) = true) ->
  reserve_seats remote seats = Returns true.
Proof.
  intros Hall. unfold reserve_seats.
  assert (Hnil : failed_reservations seats (gather_responses remote seats) = []).
  { unfold failed_reservations, gather_responses.
    induction seats as [| a seats IH]; simpl; [reflexivity |].
    rewrite (Hall a (or_introl eq_refl)). simpl.
    apply IH. intros s Hs. apply Hall. now right. }
  now rewrite Hnil.
Qed.

(** C5 at the group (A1, A2) with A1 claimed and A2 refused: the call
    raises, but the exception carries the response of A1, the claim that
    succeeded; its reason is None, while the first failing claim, that of
    A2, reports "seat is not available". *)
Theorem reserve_seats_reports_first_response_not_first_failure :
  reserve_seats remote_A2_taken [A1; A2]
  = Raises (ReservationFailedException ok_response) /\
  success ok_response = true /\
  reason (ReservationFailedException ok_response) = None /\
  first_failure (gather_responses remote_A2_taken [A1; A2])
  = Some taken_response /\
  error_message taken_response = Some "seat is not available"%string.
Proof.
  repeat split.
Qed.

End SeatServiceFacts.

(** ** The race between the workers *)
Module RaceFacts.
Import Models Config PassengerService TripRepository SeatService Race.
Import SeatServiceFacts.

Lemma get_seat_layout_failure (response : ApiResponse) :
  success response = false -> exists e, get_seat_layout response = Raises e.
Proof.
  intros H. unfold get_seat_layout. rewrite H. simpl.
  destruct (status_is response 401 || status_is response 403);
    [eexists; reflexivity |].
  destruct (data response); try (eexists; reflexivity);
    destruct (status_is response 422); simpl;
    repeat match goal with
           | |- context [if ?c then _ else _] => destruct c
           end; eexists; reflexivity.
Qed.

(** A worker that has exited takes no further step. *)
Lemma exited_is_final (trip : Trip) (config : BookingConfig)
  (process_id : nat) (env : Env) (e : exn) (sh : Shared) :
  worker_step trip config process_id env (Exited e) sh = (Exited e, sh).
Proof. reflexivity. Qed.

(** The pause is reached from two places only: after the result was put
    on the queue, and after a seat layout in which no group was found. *)
Lemma sleep_reached_from (trip : Trip) (config : BookingConfig)
  (process_id : nat) (env : Env) (p : pc) (sh : Shared) :
  fst (worker_step trip config process_id env p sh) = AtSleep ->
  (exists seats passengers, p = AtPut seats passengers) \/
  (p = AtFetch /\
   exists passengers seat_layout,
     prepare_passengers config = Returns passengers /\
     get_seat_layout (layout_response env) = Returns seat_layout /\
     find_random_adjacent_seats seat_layout (List.length passengers)
       (draw_floor env) (draw_group env) = []).
Proof.
  destruct p; simpl.
  - destruct (is_reserved sh); discriminate.
  - destruct (prepare_passengers config) as [passengers | e]; [| discriminate].
    destruct (get_seat_layout (layout_response env)) as [sl | e]; [| discriminate].
    destruct (find_random_adjacent_seats sl (List.length passengers)
                (draw_floor env) (draw_group env)) as [| s g] eqn:Hg.
    + intros _. right. split; [reflexivity |]. exists passengers, sl.
      rewrite Hg. auto.
    + simpl. discriminate.
  - destruct (is_reserved sh); discriminate.
  - destruct (reserve_seats (reserve_response env) selected_seats); discriminate.
  - discriminate.
  - intros _. left. eauto.
  - discriminate.
  - discriminate.
Qed.

(** *** C1: the second look and the write are separate steps *)

(** No step of a worker touches the lock. *)
Lemma worker_step_leaves_lock (trip : Trip) (config : BookingConfig)
  (process_id : nat) (env : Env) (p : pc) (sh : Shared) :
  reservation_lock (snd (worker_step trip config process_id env p sh))
  = reservation_lock sh.
Proof.
  destruct p; simpl; try reflexivity.
  - destruct (is_reserved sh); reflexivity.
  - destruct (prepare_passengers config); [| reflexivity].
    destruct (get_seat_layout (layout_response env)); [| reflexivity].
    destruct (Nat.eqb _ 0); reflexivity.
  - destruct (is_reserved sh); reflexivity.
  - destruct (reserve_seats (reserve_response env) selected_seats); reflexivity.
Qed.

(** The lock is free at the start of a race and stays free whatever the
    workers do. *)
Lemma lock_never_acquired (trip : Trip) (config : BookingConfig)
  (schedule : list (nat * Env)) (sys : System) :
  reservation_lock (shared (run trip config schedule sys))
  = reservation_lock (shared sys).
Proof.
  revert sys. induction schedule as [| [i env] schedule IH]; intros sys;
    [reflexivity |].
  unfold run in *. simpl. rewrite IH. unfold system_step.
  destruct (nth_error (workers sys) i) as [p |]; [| reflexivity].
  pose proof (worker_step_leaves_lock trip config (S i) env p (shared sys)) as H.
  destruct (worker_step trip config (S i) env p (shared sys)) as [p' sh'].
  exact H.
Qed.

(** C1 on two workers that both take their second look at the flag
    before either writes it: both find it False, both claim their seat,
    both set the flag and both put a result on the queue.  The steps
    [AtRecheck] and [AtMark] are not taken under the reservation lock;
    the worker never acquires it. *)
Theorem two_workers_both_claim :
  let sys := run dhaka_trip one_passenger overlapping_schedule (start_race 2) in
  filter is_claim (trace (shared sys)) = [SetReserved 1; SetReserved 2] /\
  map rd_process_id (result_queue (shared sys)) = [1; 2] /\
  map rd_ticket_ids (result_queue (shared sys)) = [[101%Z]; [102%Z]] /\
  ~ at_most_one_claim sys /\
  (forall trip config n schedule,
     reservation_lock (shared (run trip config schedule (start_race n)))
     = None).
Proof.
  cbv zeta. split; [reflexivity |]. split; [reflexivity |].
  split; [reflexivity |].
  unfold at_most_one_claim.
  change (List.length
            (filter is_claim
               (trace (shared (run dhaka_trip one_passenger
                                 overlapping_schedule (start_race 2))))))
    with 2.
  split; [lia |].
  intros trip config n schedule. apply lock_never_acquired.
Qed.

(** *** C4: a race nobody wins *)

Lemma collect_blocks (sys : System) :
  forallb is_exited (workers sys) = true ->
  result_queue (shared sys) = [] ->
  collect sys = BlockedOnGet.
Proof.
  intros Hex Hq. unfold collect. now rewrite Hex, Hq.
Qed.

(** C4 on a race of one worker whose seat-layout request is refused:
    the worker exits without a result, every [join] returns, and
    [book_ticket] is left in [result_queue.get()] on an empty queue; it
    does not return. *)
Theorem no_winner_blocks_on_empty_queue :
  let sys := run dhaka_trip one_passenger unauthorized_schedule (start_race 1) in
  workers sys = [Exited (UnauthorizedException unauthorized_response)] /\
  result_queue (shared sys) = [] /\
  book_ticket_race dhaka_trip one_passenger 1 unauthorized_schedule
  = BlockedOnGet.
Proof.
  cbv zeta. repeat split.
Qed.

(** *** C6: the first look at the flag *)

(** A step of a worker adds to the log only effects of that worker. *)
Lemma worker_step_trace (trip : Trip) (config : BookingConfig)
  (process_id : nat) (env : Env) (p : pc) (sh : Shared) :
  exists added,
    trace (snd (worker_step trip config process_id env p sh))
    = trace sh ++ added /\
    Forall (fun e => event_process e = process_id) added.
Proof.
  destruct p; simpl.
  - exists []. rewrite app_nil_r. destruct (is_reserved sh); auto.
  - exists [NetGetSeatLayout process_id (trip_id trip) (trip_route_id trip)].
    split; [| repeat constructor].
    destruct (prepare_passengers config); [| reflexivity].
    destruct (get_seat_layout (layout_response env)); [| reflexivity].
    destruct (Nat.eqb _ 0); reflexivity.
  - exists []. rewrite app_nil_r. destruct (is_reserved sh); auto.
  - exists (map (fun seat => NetReserveSeat process_id (ticket_id seat)
                              (trip_route_id trip)) selected_seats).
    split.
    + destruct (reserve_seats (reserve_response env) selected_seats);
        reflexivity.
    + apply Forall_forall. intros e He. apply in_map_iff in He.
      destruct He as (seat & <- & _). reflexivity.
  - exists [SetReserved process_id]. split; [reflexivity |]. repeat constructor.
  - exists [QueuePut process_id]. split; [reflexivity |]. repeat constructor.
  - exists [Sleep process_id 100]. split; [reflexivity |]. repeat constructor.
  - exists []. rewrite app_nil_r. auto.
Qed.

Lemma network_calls_of_others (process_id other : nat) (tr added : list event) :
  other <> process_id ->
  Forall (fun e => event_process e = other) added ->
  network_calls_of process_id (tr ++ added) = network_calls_of process_id tr.
Proof.
  intros Hne Hall. unfold network_calls_of. rewrite filter_app.
  assert (Hnil : filter
            (fun e => is_network e && Nat.eqb (event_process e) process_id)
            added = []).
  { induction Hall as [| e added He _ IH]; simpl; [reflexivity |].
    rewrite He. destruct (Nat.eqb_spec other process_id) as [Heq | _];
      [contradiction |].
    rewrite andb_false_r. exact IH. }
  rewrite Hnil. apply app_nil_r.
Qed.

Lemma nth_error_set_nth_same {A : Type} (i : nat) (x y : A) (l : list A) :
  nth_error l i = Some y -> nth_error (set_nth i x l) i = Some x.
Proof.
  revert i. induction l as [| a l IH]; intros [| i]; simpl; try discriminate.
  - reflexivity.
  - apply IH.
Qed.

Lemma nth_error_set_nth_other {A : Type} (i j : nat) (x : A) (l : list A) :
  i <> j -> nth_error (set_nth i x l) j = nth_error l j.
Proof.
  revert i j. induction l as [| a l IH]; intros [| i] [| j] Hne; simpl;
    try reflexivity; try contradiction.
  apply IH. intros ->. now apply Hne.
Qed.

(** Once worker [i] has exited, no schedule brings it back, and the
    requests it has sent stay what they were. *)
Lemma exited_worker_stays_silent (trip : Trip) (config : BookingConfig)
  (i : nat) (e : exn) (schedule : list (nat * Env)) (sys : System) :
  nth_error (workers sys) i = Some (Exited e) ->
  nth_error (workers (run trip config schedule sys)) i = Some (Exited e) /\
  network_calls_of (S i) (trace (shared (run trip config schedule sys)))
  = network_calls_of (S i) (trace (shared sys)).
Proof.
  revert sys. induction schedule as [| [j env] schedule IH]; intros sys Hi;
    [split; [exact Hi | reflexivity] |].
  change (run trip config ((j, env) :: schedule) sys)
    with (run trip config schedule (system_step trip config sys (j, env))).
  assert (Hstep :
    nth_error (workers (system_step trip config sys (j, env))) i
    = Some (Exited e) /\
    network_calls_of (S i)
      (trace (shared (system_step trip config sys (j, env))))
    = network_calls_of (S i) (trace (shared sys))).
  { unfold system_step.
    destruct (nth_error (workers sys) j) as [p |] eqn:Hj;
      [| split; [exact Hi | reflexivity]].
    destruct (worker_step_trace trip config (S j) env p (shared sys))
      as (added & Htr & Hall).
    destruct (Nat.eq_dec j i) as [-> | Hne].
    - rewrite Hi in Hj. injection Hj as <-. simpl.
      split; [now apply (nth_error_set_nth_same _ _ (Exited e)) | reflexivity].
    - destruct (worker_step trip config (S j) env p (shared sys))
        as [p' sh'] eqn:Hw.
      simpl in *. split.
      + rewrite nth_error_set_nth_other by exact Hne. exact Hi.
      + rewrite Htr. apply (network_calls_of_others (S i) (S j)); [lia | exact Hall]. }
  destruct Hstep as [Hi' Hcalls].
  destruct (IH _ Hi') as [Hfin Hsame].
  split; [exact Hfin |]. rewrite Hsame. exact Hcalls.
Qed.

(** C6: a worker that starts an attempt while the flag is set raises
    [SeatAlreadyReservedException] on the spot, before any request: the
    step changes nothing in the shared state or the log of effects, the
    worker has exited, and whatever the other workers do and whatever
    turns it is given afterwards, it sends neither a seat-layout request
    nor a seat claim. *)
Theorem claimed_flag_ends_attempt_without_network
  (trip : Trip) (config : BookingConfig) (sys : System) (i : nat) (env : Env)
  (schedule : list (nat * Env)) :
  nth_error (workers sys) i = Some AtLoopStart ->
  is_reserved (shared sys) = true ->
  worker_step trip config (S i) env AtLoopStart (shared sys)
  = (Exited SeatAlreadyReservedException, shared sys) /\
  shared (system_step trip config sys (i, env)) = shared sys /\
  nth_error (workers (run trip config ((i, env) :: schedule) sys)) i
  = Some (Exited SeatAlreadyReservedException) /\
  network_calls_of (S i)
    (trace (shared (run trip config ((i, env) :: schedule) sys)))
  = network_calls_of (S i) (trace (shared sys)).
Proof.
  intros Hi Hflag.
  assert (Hw : worker_step trip config (S i) env AtLoopStart (shared sys)
               = (Exited SeatAlreadyReservedException, shared sys)).
  { simpl. now rewrite Hflag. }
  assert (Hs : system_step trip config sys (i, env)
               = mkSystem (set_nth i (Exited SeatAlreadyReservedException)
                             (workers sys)) (shared sys)).
  { unfold system_step. now rewrite Hi, Hw. }
  split; [exact Hw |]. split; [now rewrite Hs |].
  change (run trip config ((i, env) :: schedule) sys)
    with (run trip config schedule (system_step trip config sys (i, env))).
  rewrite Hs.
  destruct (exited_worker_stays_silent trip config i
              SeatAlreadyReservedException schedule
              (mkSystem (set_nth i (Exited SeatAlreadyReservedException)
                           (workers sys)) (shared sys)))
    as [Hfin Hcalls].
  { simpl. exact (nth_error_set_nth_same _ _ _ _ Hi). }
  split; [exact Hfin | exact Hcalls].
Qed.

Lemma claimed_flag_ends_attempt_without_network_witness :
  nth_error
    (workers (run dhaka_trip one_passenger
                [(1, env_ok 0); (0, env_ok 0); (1, env_ok 0)] late_start)) 1
  = Some (Exited SeatAlreadyReservedException).
Proof.
  refine (proj1 (proj2 (proj2
    (claimed_flag_ends_attempt_without_network dhaka_trip one_passenger
       late_start 1 (env_ok 0) [(0, env_ok 0); (1, env_ok 0)] _ _)))).
  - reflexivity.
  - reflexivity.
Defined.

(** *** C7: what the worker does after a failed attempt *)

Lemma events_of_own (process_id : nat) (added : list event) :
  Forall (fun e => event_process e = process_id) added ->
  events_of process_id added = added.
Proof.
  intros Hall. unfold events_of.
  induction Hall as [| e added He _ IH]; simpl; [reflexivity |].
  rewrite He, Nat.eqb_refl. now rewrite IH.
Qed.

Lemma events_of_others (process_id other : nat) (tr added : list event) :
  other <> process_id ->
  Forall (fun e => event_process e = other) added ->
  events_of process_id (tr ++ added) = events_of process_id tr.
Proof.
  intros Hne Hall. unfold events_of. rewrite filter_app.
  assert (Hnil : filter (fun e => Nat.eqb (event_process e) process_id) added
                 = []).
  { induction Hall as [| e added He _ IH]; simpl; [reflexivity |].
    rewrite He. destruct (Nat.eqb_spec other process_id) as [Heq | _];
      [contradiction |].
    exact IH. }
  rewrite Hnil. apply app_nil_r.
Qed.

(** Once worker [i] has exited, no schedule brings it back, and nothing
    more is logged for it: no request, no pause, no write. *)
Lemma exited_worker_logs_nothing (trip : Trip) (config : BookingConfig)
  (i : nat) (e : exn) (schedule : list (nat * Env)) (sys : System) :
  nth_error (workers sys) i = Some (Exited e) ->
  nth_error (workers (run trip config schedule sys)) i = Some (Exited e) /\
  events_of (S i) (trace (shared (run trip config schedule sys)))
  = events_of (S i) (trace (shared sys)).
Proof.
  revert sys. induction schedule as [| [j env] schedule IH]; intros sys Hi;
    [split; [exact Hi | reflexivity] |].
  change (run trip config ((j, env) :: schedule) sys)
    with (run trip config schedule (system_step trip config sys (j, env))).
  assert (Hstep :
    nth_error (workers (system_step trip config sys (j, env))) i
    = Some (Exited e) /\
    events_of (S i) (trace (shared (system_step trip config sys (j, env))))
    = events_of (S i) (trace (shared sys))).
  { unfold system_step.
    destruct (nth_error (workers sys) j) as [p |] eqn:Hj;
      [| split; [exact Hi | reflexivity]].
    destruct (worker_step_trace trip config (S j) env p (shared sys))
      as (added & Htr & Hall).
    destruct (Nat.eq_dec j i) as [-> | Hne].
    - rewrite Hi in Hj. injection Hj as <-. simpl.
      split; [now apply (nth_error_set_nth_same _ _ (Exited e)) | reflexivity].
    - destruct (worker_step trip config (S j) env p (shared sys))
        as [p' sh'] eqn:Hw.
      simpl in *. split.
      + rewrite nth_error_set_nth_other by exact Hne. exact Hi.
      + rewrite Htr. apply (events_of_others (S i) (S j)); [lia | exact Hall]. }
  destruct Hstep as [Hi' Hsame'].
  destruct (IH _ Hi') as [Hfin Hsame].
  split; [exact Hfin |]. rewrite Hsame. exact Hsame'.
Qed.

(** A step that takes worker [i] to [Exited] is its last: whatever the
    schedule does next, the worker stays there, and what the log holds
    for it is what it held before the step followed by what the step
    itself added. *)
Lemma exit_step_is_final (trip : Trip) (config : BookingConfig)
  (sys : System) (i : nat) (env : Env) (schedule : list (nat * Env))
  (p : pc) (e : exn) (added : list event) :
  nth_error (workers sys) i = Some p ->
  worker_step trip config (S i) env p (shared sys)
  = (Exited e, log added (shared sys)) ->
  Forall (fun ev => event_process ev = S i) added ->
  nth_error (workers (run trip config ((i, env) :: schedule) sys)) i
  = Some (Exited e) /\
  events_of (S i) (trace (shared (run trip config ((i, env) :: schedule) sys)))
  = events_of (S i) (trace (shared sys)) ++ added.
Proof.
  intros Hi Hw Hown.
  assert (Hs : system_step trip config sys (i, env)
               = mkSystem (set_nth i (Exited e) (workers sys))
                   (log added (shared sys))).
  { unfold system_step. now rewrite Hi, Hw. }
  change (run trip config ((i, env) :: schedule) sys)
    with (run trip config schedule (system_step trip config sys (i, env))).
  rewrite Hs.
  destruct (exited_worker_logs_nothing trip config i e schedule
              (mkSystem (set_nth i (Exited e) (workers sys))
                 (log added (shared sys))))
    as [Hfin Hsame].
  { simpl. exact (nth_error_set_nth_same _ _ _ _ Hi). }
  split; [exact Hfin |]. rewrite Hsame. simpl.
  unfold events_of at 1. rewrite filter_app.
  fold (events_of (S i) (trace (shared sys))). fold (events_of (S i) added).
  now rewrite (events_of_own _ _ Hown).
Qed.

(** The step that receives a failed seat-layout response: the one
    request has been sent, the exception is the one
    [_prepare_passengers_async] or [get_seat_layout] raises, and the
    worker has exited. *)
Lemma failed_fetch_step (trip : Trip) (config : BookingConfig)
  (process_id : nat) (env : Env) (sh : Shared) :
  success (layout_response env) = false ->
  exists e,
    (prepare_passengers config = Raises e \/
     get_seat_layout (layout_response env) = Raises e) /\
    worker_step trip config process_id env AtFetch sh
    = (Exited e,
       log [NetGetSeatLayout process_id (trip_id trip) (trip_route_id trip)] sh).
Proof.
  intros Hfail. simpl.
  destruct (prepare_passengers config) as [passengers | e].
  - destruct (get_seat_layout_failure _ Hfail) as (e & He). rewrite He.
    exists e. split; [right |]; reflexivity.
  - exists e. split; [left |]; reflexivity.
Qed.

(** The step that sends the seat claims when one of them is refused:
    every claim of the group has been sent once, the worker has exited
    with [ReservationFailedException]. *)
Lemma failed_reserve_step (trip : Trip) (config : BookingConfig)
  (process_id : nat) (env : Env) (sh : Shared)
  (seats : list Seat) (passengers : list Passenger) :
  (exists s, In s seats /\
             success (reserve_response env (ticket_id s)) = false) ->
  exists s0 rest,
    seats = s0 :: rest /\
    worker_step trip config process_id env (AtReserve seats passengers) sh
    = (Exited (ReservationFailedException
                 (reserve_response env (ticket_id s0))),
       log (map (fun seat => NetReserveSeat process_id (ticket_id seat)
                               (trip_route_id trip)) seats) sh).
Proof.
  intros Hex.
  destruct seats as [| s0 rest]; [destruct Hex as (s & [] & _) |].
  exists s0, rest. split; [reflexivity |].
  cbn [worker_step].
  rewrite (reserve_seats_raises_first_response _ _ _ Hex). reflexivity.
Qed.

(** Against C7 as worded.  After a timed-out request, after a remote
    500 whose body holds the error as a string, and after a remote 502
    whose body has no error entry, the worker has exited: it made the
    one request, never slept and never tried again, whatever turns it
    was given. *)
Lemma remote_error_stops_worker :
  let sys := run dhaka_trip one_passenger timeout_schedule (start_race 1) in
  let sys' := run dhaka_trip one_passenger server_error_schedule (start_race 1) in
  let sys'' := run dhaka_trip one_passenger bad_gateway_schedule (start_race 1) in
  workers sys = [Exited (Builtin AttributeError)] /\
  trace (shared sys) = [NetGetSeatLayout 1 7001 9001] /\
  ~ retries_after_pause sys 1 /\
  workers sys' = [Exited (Builtin AttributeError)] /\
  trace (shared sys') = [NetGetSeatLayout 1 7001 9001] /\
  ~ retries_after_pause sys' 1 /\
  workers sys'' = [Exited (Builtin Exception)] /\
  trace (shared sys'') = [NetGetSeatLayout 1 7001 9001] /\
  ~ retries_after_pause sys'' 1.
Proof.
  cbv zeta. repeat split.
  - intros (ms & [H | []]). discriminate.
  - intros (ms & [H | []]). discriminate.
  - intros (ms & [H | []]). discriminate.
Qed.

(** C7, as the code has it: an attempt in which a remote call fails,
    whatever the failure, ends the worker.  The step that receives a
    failed seat-layout response logs the one request and nothing else
    and leaves the worker in [Exited]; the step that sends the seat
    claims, when one is refused, logs one claim per seat and nothing
    else and leaves the worker in [Exited] with
    [ReservationFailedException].  [Exited] is final and silent.  In a
    race, whatever the other workers do and whatever turns the worker is
    given afterwards, it stays exited and its part of the log is what it
    was before the failing step followed by that one round of requests:
    no pause and no second request.  The pause is 100 ms, it leads back
    to the top of the loop, and it is reached only after an attempt that
    raised nothing: one that found no seat group, or one that put its
    result on the queue. *)
Theorem worker_exits_on_remote_failure_and_pauses_otherwise
  (trip : Trip) (config : BookingConfig) (process_id : nat) (env : Env)
  (sh : Shared) :
  (success (layout_response env) = false ->
   exists e,
     (prepare_passengers config = Raises e \/
      get_seat_layout (layout_response env) = Raises e) /\
     worker_step trip config process_id env AtFetch sh
     = (Exited e,
        log [NetGetSeatLayout process_id (trip_id trip) (trip_route_id trip)]
          sh)) /\
  (forall seats passengers,
     (exists s, In s seats /\
                success (reserve_response env (ticket_id s)) = false) ->
     exists s0 rest,
       seats = s0 :: rest /\
       worker_step trip config process_id env (AtReserve seats passengers) sh
       = (Exited (ReservationFailedException
                    (reserve_response env (ticket_id s0))),
          log (map (fun seat => NetReserveSeat process_id (ticket_id seat)
                                  (trip_route_id trip)) seats) sh)) /\
  (forall e, worker_step trip config process_id env (Exited e) sh
             = (Exited e, sh)) /\
  (forall sys i schedule,
     nth_error (workers sys) i = Some AtFetch ->
     success (layout_response env) = false ->
     exists e,
       nth_error (workers (run trip config ((i, env) :: schedule) sys)) i
       = Some (Exited e) /\
       events_of (S i)
         (trace (shared (run trip config ((i, env) :: schedule) sys)))
       = events_of (S i) (trace (shared sys))
         ++ [NetGetSeatLayout (S i) (trip_id trip) (trip_route_id trip)]) /\
  (forall sys i schedule seats passengers,
     nth_error (workers sys) i = Some (AtReserve seats passengers) ->
     (exists s, In s seats /\
                success (reserve_response env (ticket_id s)) = false) ->
     exists e,
       nth_error (workers (run trip config ((i, env) :: schedule) sys)) i
       = Some (Exited e) /\
       events_of (S i)
         (trace (shared (run trip config ((i, env) :: schedule) sys)))
       = events_of (S i) (trace (shared sys))
         ++ map (fun seat => NetReserveSeat (S i) (ticket_id seat)
                               (trip_route_id trip)) seats) /\
  worker_step trip config process_id env AtSleep sh
  = (AtLoopStart, log [Sleep process_id 100] sh) /\
  (forall p,
     fst (worker_step trip config process_id env p sh) = AtSleep ->
     (exists seats passengers, p = AtPut seats passengers) \/
     (p = AtFetch /\
      exists passengers seat_layout,
        prepare_passengers config = Returns passengers /\
        get_seat_layout (layout_response env) = Returns seat_layout /\
        find_random_adjacent_seats seat_layout (List.length passengers)
          (draw_floor env) (draw_group env) = [])).
Proof.
  split; [| split; [| split; [| split; [| split; [| split]]]]].
  - apply failed_fetch_step.
  - intros seats passengers. apply failed_reserve_step.
  - reflexivity.
  - intros sys i schedule Hi Hfail.
    destruct (failed_fetch_step trip config (S i) env (shared sys) Hfail)
      as (e & _ & Hw).
    exists e.
    apply (exit_step_is_final trip config sys i env schedule AtFetch e _ Hi Hw).
    repeat constructor.
  - intros sys i schedule seats passengers Hi Hex.
    destruct (failed_reserve_step trip config (S i) env (shared sys)
                seats passengers Hex) as (s0 & rest & _ & Hw).
    eexists.
    apply (exit_step_is_final trip config sys i env schedule _ _ _ Hi Hw).
    apply Forall_forall. intros ev Hev. apply in_map_iff in Hev.
    destruct Hev as (seat & <- & _). reflexivity.
  - reflexivity.
  - intros p. apply sleep_reached_from.
Qed.

Lemma worker_exits_on_remote_failure_and_pauses_otherwise_witness :
  exists e,
    nth_error
      (workers (run dhaka_trip one_passenger
                  ((0, env_with server_error_response)
                     :: [(0, env_with server_error_response); (0, env_ok 0);
                         (0, env_ok 0); (0, env_ok 0)])
                  (mkSystem [AtFetch] (mkShared None false [] [])))) 0
    = Some (Exited e) /\
    events_of 1
      (trace (shared (run dhaka_trip one_passenger
                        ((0, env_with server_error_response)
                           :: [(0, env_with server_error_response);
                               (0, env_ok 0); (0, env_ok 0); (0, env_ok 0)])
                        (mkSystem [AtFetch] (mkShared None false [] [])))))
    = events_of 1 (trace (shared (mkSystem [AtFetch] (mkShared None false [] []))))
      ++ [NetGetSeatLayout 1 (trip_id dhaka_trip) (trip_route_id dhaka_trip)].
Proof.
  apply (proj1 (proj2 (proj2 (proj2
           (worker_exits_on_remote_failure_and_pauses_otherwise
              dhaka_trip one_passenger 1 (env_with server_error_response)
              (mkShared None false [] [])))))
           (mkSystem [AtFetch] (mkShared None false [] [])) 0
           [(0, env_with server_error_response); (0, env_ok 0);
            (0, env_ok 0); (0, env_ok 0)]).
  - reflexivity.
  - reflexivity.
Defined.

End RaceFacts.

(** ** The retry loop around the race *)
Module RetryFacts.
Import Config Retry.

Local Open Scope Z_scope.

(** With fuel for the iterations that are left, the loop ends by itself
    and runs no more races than are left. *)
Lemma while_loop_bounded (fuel : nat) (max_attempts : Z)
  (book : Z -> book_outcome) (attempt : Z) (n : nat) (l : list log_line) :
  (Z.to_nat (max_attempts - attempt) < fuel)%nat ->
  let r := while_loop fuel max_attempts book attempt n l in
  how r <> OutOfFuel /\
  (races r <= n + Z.to_nat (max_attempts - attempt))%nat.
Proof.
  revert attempt n l. induction fuel as [| fuel IH]; intros attempt n l Hfuel;
    [lia |].
  cbv zeta. simpl.
  destruct (Z.ltb_spec attempt max_attempts) as [Hlt | Hge].
  - destruct (book (attempt + 1)); simpl.
    + split; [discriminate | lia].
    + assert (Hf : (Z.to_nat (max_attempts - (attempt + 1)) < fuel)%nat) by lia.
      destruct (IH (attempt + 1) (S n) (l ++ [WarnAttemptFailed (attempt + 1)]) Hf)
        as [Hhow Hr].
      split; [exact Hhow | lia].
    + split; [discriminate | lia].
    + split; [discriminate | lia].
  - simpl. split; [discriminate | lia].
Qed.

(** When every race that is left fails, the loop runs all of them, ends,
    and its last word is the error line. *)
Lemma while_loop_all_fail (fuel : nat) (max_attempts : Z)
  (book : Z -> book_outcome) (attempt : Z) (n : nat) (l : list log_line) :
  (Z.to_nat (max_attempts - attempt) < fuel)%nat ->
  (forall a, attempt < a <= max_attempts -> book a = BookFalse) ->
  let r := while_loop fuel max_attempts book attempt n l in
  how r = Completed /\
  races r = (n + Z.to_nat (max_attempts - attempt))%nat /\
  exists before, lines r = before ++ [ErrorFailedAfter max_attempts].
Proof.
  revert attempt n l. induction fuel as [| fuel IH];
    intros attempt n l Hfuel Hfail; [lia |].
  cbv zeta. simpl.
  destruct (Z.ltb_spec attempt max_attempts) as [Hlt | Hge].
  - rewrite (Hfail (attempt + 1)) by lia.
    assert (Hf : (Z.to_nat (max_attempts - (attempt + 1)) < fuel)%nat) by lia.
    destruct (IH (attempt + 1) (S n) (l ++ [WarnAttemptFailed (attempt + 1)]) Hf)
      as (Hhow & Hr & Hl).
    { intros a Ha. apply Hfail. lia. }
    split; [exact Hhow |]. split; [lia | exact Hl].
  - unfold after_loop. simpl.
    destruct (Z.geb_spec attempt max_attempts) as [_ | Hc]; [| lia].
    split; [reflexivity |]. split; [lia |]. exists l. reflexivity.
Qed.

(** C8: the loop around the race ends by itself for every configured
    bound and runs at most that many races (3 by default); when every
    race within the bound fails it runs exactly that many, stops, and
    closes its log with "Failed to book ticket after N attempts". *)
Theorem retry_loop_bounded (config : BookingConfig) (book : Z -> book_outcome) :
  let r := run_with_retry config book in
  how r <> OutOfFuel /\
  Z.of_nat (races r) <= Z.max 0 (max_retry_attempts config) /\
  ((forall a, 1 <= a <= max_retry_attempts config -> book a = BookFalse) ->
   how r = Completed /\
   races r = Z.to_nat (max_retry_attempts config) /\
   exists before,
     lines r = before ++ [ErrorFailedAfter (max_retry_attempts config)]) /\
  max_retry_attempts default_config = 3.
Proof.
  cbv zeta. unfold run_with_retry.
  set (m := max_retry_attempts config).
  assert (Hfuel : (Z.to_nat (m - 0) < S (Z.to_nat m))%nat) by lia.
  destruct (while_loop_bounded (S (Z.to_nat m)) m book 0 0 [] Hfuel)
    as [Hhow Hr].
  split; [exact Hhow |]. split; [lia |]. split; [| reflexivity].
  intros Hfail.
  destruct (while_loop_all_fail (S (Z.to_nat m)) m book 0 0 [] Hfuel)
    as (Hc & Hn & Hl).
  { intros a Ha. apply Hfail. lia. }
  split; [exact Hc |]. split; [| exact Hl].
  rewrite Hn. simpl. f_equal. lia.
Qed.

Lemma retry_loop_bounded_witness :
  races (run_with_retry default_config (fun _ => BookFalse)) = 3%nat.
Proof.
  refine (proj1 (proj2 (proj1 (proj2 (proj2
    (retry_loop_bounded default_config (fun _ => BookFalse)))) _))).
  intros a _. reflexivity.
Defined.

End RetryFacts.

(** ** More on the seat map *)
Module LayoutFacts.
Import Models Layouts SeatMapFacts.

Lemma windows_one (l : list Seat) : windows 1 l = map (fun s => [s]) l.
Proof.
  unfold windows. replace (List.length l + 1 - 1) with (List.length l) by lia.
  induction l as [| a l IH]; [reflexivity |].
  simpl List.length. rewrite <- cons_seq. simpl map at 1.
  rewrite <- seq_shift, map_map. simpl. f_equal. exact IH.
Qed.

Lemma flat_map_map {A B C : Type} (g : B -> C) (h : A -> list B) (l : list A) :
  flat_map (fun a => map g (h a)) l = map g (flat_map h l).
Proof.
  induction l as [| a l IH]; simpl; [reflexivity |].
  now rewrite map_app, IH.
Qed.

(** With an adjacency of 1, the default of
    [SeatLayout.find_random_adjacent_seats] (that of
    [Floor.find_adjacent_seats_pairs] itself is 2), a floor yields each
    of its available non-aisle seats exactly once, as a group of one, in
    row order. *)
Theorem single_seat_groups (f : Floor) :
  find_adjacent_seats_pairs f 1
  = map (fun s => [s]) (flat_map row_available_seats (seats f)).
Proof.
  unfold find_adjacent_seats_pairs.
  rewrite <- flat_map_map. apply flat_map_ext. intros row. apply windows_one.
Qed.

Lemma slice_middle {A : Type} (pre g post : list A) :
  slice (List.length pre) (List.length g) (pre ++ g ++ post) = g.
Proof.
  unfold slice. rewrite skipn_app, skipn_all, Nat.sub_diag. simpl.
  rewrite firstn_app, firstn_all, Nat.sub_diag. simpl. apply app_nil_r.
Qed.

Lemma filter_all {A : Type} (p : A -> bool) (l : list A) :
  forallb p l = true -> filter p l = l.
Proof.
  induction l as [| a l IH]; simpl; [reflexivity |].
  intros H. apply andb_prop in H. destruct H as [Ha Hl].
  rewrite Ha. f_equal. now apply IH.
Qed.

(** No run is missed: every stretch of consecutive seats of a row that
    are all available and none an aisle placeholder is among the groups
    the floor yields for its length. *)
Theorem every_run_is_yielded (f : Floor) (row pre g post : list Seat) :
  In row (seats f) ->
  row = pre ++ g ++ post ->
  forallb selectable g = true ->
  In g (find_adjacent_seats_pairs f (List.length g)).
Proof.
  intros Hrow -> Hg. apply in_find_adjacent_seats_pairs.
  exists (pre ++ g ++ post). split; [exact Hrow |].
  apply in_windows. unfold row_available_seats.
  rewrite !filter_app, (filter_all _ _ Hg).
  exists (List.length (filter selectable pre)). split.
  - rewrite !length_app. lia.
  - symmetry. apply slice_middle.
Qed.

Lemma every_run_is_yielded_witness :
  In [A1; A2] (find_adjacent_seats_pairs scenario_floor 2).
Proof.
  apply (every_run_is_yielded scenario_floor [A1; A2; A3; A4] [] [A1; A2]
           [A3; A4]).
  - left. reflexivity.
  - reflexivity.
  - reflexivity.
Defined.

(** On a floor whose rows hold neither an aisle placeholder nor an
    unavailable seat, every group yielded occupies consecutive positions
    of one row. *)
Theorem gap_free_rows_give_adjacent_groups
  (f : Floor) (adjacency : nat) (g : list Seat) :
  (forall row, In row (seats f) -> forallb selectable row = true) ->
  In g (find_adjacent_seats_pairs f adjacency) ->
  List.length g = adjacency /\
  exists row, In row (seats f) /\ contiguous_in g row.
Proof.
  intros Hfull Hg. apply in_find_adjacent_seats_pairs in Hg.
  destruct Hg as (row & Hrow & Hw).
  destruct (window_props adjacency row g Hw) as (Hlen & Hc & _).
  split; [exact Hlen |]. exists row. split; [exact Hrow |].
  unfold row_available_seats in Hc.
  now rewrite (filter_all _ _ (Hfull row Hrow)) in Hc.
Qed.

Lemma gap_free_rows_give_adjacent_groups_witness :
  exists row, In row (seats open_floor) /\ contiguous_in [B2; B3] row.
Proof.
  refine (proj2 (gap_free_rows_give_adjacent_groups open_floor 2 [B2; B3] _ _)).
  - intros row [<- | []]. reflexivity.
  - right. left. reflexivity.
Defined.

Lemma selectable_le_available (row : list Seat) :
  List.length (row_available_seats row)
  <= List.length (filter is_available row).
Proof.
  unfold row_available_seats, selectable.
  induction row as [| s row IH]; simpl; [lia |].
  destruct (is_aisle s), (is_available s); simpl; lia.
Qed.

Lemma row_available_le (rows : list (list Seat)) (row : list Seat) :
  In row rows ->
  List.length (row_available_seats row)
  <= List.length (filter is_available (List.concat rows)).
Proof.
  induction rows as [| r rows IH]; intros Hin; [destruct Hin |].
  simpl. rewrite filter_app, length_app. destruct Hin as [-> | Hin].
  - pose proof (selectable_le_available row). lia.
  - specialize (IH Hin). lia.
Qed.

(** A floor whose count of available seats is below the group size
    yields no group at all. *)
Theorem too_few_available_seats (f : Floor) (adjacency : nat) :
  available_seats f < adjacency ->
  find_adjacent_seats_pairs f adjacency = [].
Proof.
  intros Hfew. unfold find_adjacent_seats_pairs.
  assert (Hrows : forall rows,
             (forall row, In row rows -> In row (seats f)) ->
             flat_map (fun row => windows adjacency (row_available_seats row))
               rows = []).
  { induction rows as [| row rows IH]; intros Hsub; [reflexivity |].
    simpl. rewrite IH by (intros r Hr; apply Hsub; now right).
    rewrite windows_empty; [reflexivity |].
    pose proof (row_available_le (seats f) row (Hsub row (or_introl eq_refl))).
    unfold available_seats in Hfew. lia. }
  apply Hrows. auto.
Qed.

Lemma too_few_available_seats_witness :
  find_adjacent_seats_pairs scenario_floor 4 = [].
Proof.
  apply (too_few_available_seats scenario_floor 4). vm_compute. lia.
Defined.

Lemma NoDup_map_filter {A B : Type} (k : A -> B) (p : A -> bool) (l : list A) :
  NoDup (map k l) -> NoDup (map k (filter p l)).
Proof.
  induction l as [| a l IH]; simpl; intros H; [constructor |].
  inversion H as [| x xs Hnin Hnd]; subst.
  destruct (p a); simpl; [| now apply IH].
  constructor; [| now apply IH].
  intros Hin. apply Hnin. apply in_map_iff in Hin.
  destruct Hin as (y & Hy & Hyin). apply in_map_iff. exists y. split; [exact Hy |].
  apply filter_In in Hyin. tauto.
Qed.

Lemma NoDup_slice {A : Type} (i n : nat) (l : list A) :
  NoDup l -> NoDup (slice i n l).
Proof.
  intros H. unfold slice.
  rewrite <- (firstn_skipn i l) in H. apply NoDup_app_remove_l in H.
  rewrite <- (firstn_skipn n (skipn i l)) in H.
  now apply NoDup_app_remove_r in H.
Qed.

(** When the ticket ids of every row are pairwise distinct, so are the
    ticket ids of every group: no seat is asked for twice. *)
Theorem group_ticket_ids_distinct (f : Floor) (adjacency : nat) (g : list Seat) :
  (forall row, In row (seats f) -> NoDup (map ticket_id row)) ->
  In g (find_adjacent_seats_pairs f adjacency) ->
  NoDup (map ticket_id g).
Proof.
  intros Hrows Hg. apply in_find_adjacent_seats_pairs in Hg.
  destruct Hg as (row & Hrow & Hw). apply in_windows in Hw.
  destruct Hw as (i & _ & ->). unfold slice.
  rewrite <- firstn_map, <- skipn_map.
  apply (NoDup_slice i adjacency). apply NoDup_map_filter. now apply Hrows.
Qed.

Lemma group_ticket_ids_distinct_witness :
  NoDup (map ticket_id [A2; A4]).
Proof.
  apply (group_ticket_ids_distinct scenario_floor 2 [A2; A4]).
  - intros row [<- | []]. repeat constructor; simpl; intuition discriminate.
  - right. left. reflexivity.
Defined.

Lemma selectable_with_hidden (h : Seat -> bool) (s : Seat) :
  selectable (with_hidden h s) = selectable s.
Proof. reflexivity. Qed.

Lemma row_available_with_hidden (h : Seat -> bool) (row : list Seat) :
  row_available_seats (map (with_hidden h) row)
  = map (with_hidden h) (row_available_seats row).
Proof.
  unfold row_available_seats.
  induction row as [| s row IH]; simpl; [reflexivity |].
  rewrite selectable_with_hidden. destruct (selectable s); simpl; now rewrite IH.
Qed.

Lemma windows_map (k : Seat -> Seat) (adjacency : nat) (l : list Seat) :
  windows adjacency (map k l) = map (map k) (windows adjacency l).
Proof.
  unfold windows, slice. rewrite length_map, map_map.
  apply map_ext. intros i. now rewrite skipn_map, firstn_map.
Qed.

Lemma pairs_with_hidden (h : Seat -> bool) (f : Floor) (adjacency : nat) :
  find_adjacent_seats_pairs (floor_with_hidden h f) adjacency
  = map (map (with_hidden h)) (find_adjacent_seats_pairs f adjacency).
Proof.
  unfold find_adjacent_seats_pairs, floor_with_hidden. simpl.
  rewrite <- flat_map_map.
  induction (seats f) as [| row rows IH]; simpl; [reflexivity |].
  now rewrite IH, row_available_with_hidden, windows_map.
Qed.

Lemma choice_map {A B : Type} (k : A -> B) (r : nat) (l : list A) :
  choice r (map k l) = option_map k (choice r l).
Proof.
  destruct l as [| a l]; [reflexivity |].
  unfold choice. change (map k (a :: l)) with (k a :: map k l).
  cbv iota. change (k a :: map k l) with (map k (a :: l)).
  rewrite length_map. apply nth_error_map.
Qed.

Lemma available_floors_with_hidden (h : Seat -> bool) (sl : SeatLayout) :
  available_floors (layout_with_hidden h sl)
  = map (floor_with_hidden h) (available_floors sl).
Proof.
  unfold available_floors, layout_with_hidden. simpl.
  induction (floors sl) as [| f fs IH]; simpl; [reflexivity |].
  destruct (seat_availability f); simpl; now rewrite IH.
Qed.

(** The selection never looks at [is_hidden]: whatever the hidden flags
    of a layout are changed to, the same draws pick the same seats. *)
Theorem hidden_flag_is_ignored (h : Seat -> bool) (sl : SeatLayout)
  (adjacency r1 r2 : nat) :
  find_random_adjacent_seats (layout_with_hidden h sl) adjacency r1 r2
  = map (with_hidden h) (find_random_adjacent_seats sl adjacency r1 r2).
Proof.
  unfold find_random_adjacent_seats.
  rewrite available_floors_with_hidden, choice_map.
  destruct (choice r1 (available_floors sl)) as [f |]; simpl; [| reflexivity].
  rewrite pairs_with_hidden, choice_map.
  destruct (choice r2 (find_adjacent_seats_pairs f adjacency)); reflexivity.
Qed.

(** Every seat selected from a parsed layout comes from an entry of the
    payload, on a floor flagged available, whose [seat_availability] is
    exactly 1 and whose [seat_number] is not empty. *)
Theorem selected_seats_come_from_available_entries
  (seatLayout : list FloorDict) (adjacency r1 r2 : nat) (s : Seat) :
  In s (find_random_adjacent_seats (SeatLayout_from_dict seatLayout)
          adjacency r1 r2) ->
  exists fd rowd sd,
    In fd seatLayout /\ d_floor_seat_availability fd = true /\
    In rowd (d_layout fd) /\ In sd rowd /\
    s = Seat_from_dict sd /\
    d_seat_availability sd = 1%Z /\ d_seat_number sd <> ""%string.
Proof.
  intros Hs.
  destruct (selection_cases (SeatLayout_from_dict seatLayout) adjacency r1 r2)
    as [Hnil | (f & row & Hf & Hrow & Hw)].
  - rewrite Hnil in Hs. destruct Hs.
  - apply in_windows in Hw. destruct Hw as (i & _ & Hg).
    rewrite Hg in Hs. apply in_slice in Hs.
    unfold row_available_seats in Hs. apply filter_In in Hs.
    destruct Hs as [Hin Hsel].
    unfold available_floors in Hf. apply filter_In in Hf.
    destruct Hf as [Hf Hav]. simpl in Hf. apply in_map_iff in Hf.
    destruct Hf as (fd & <- & Hfd). simpl in Hrow, Hav.
    apply in_map_iff in Hrow. destruct Hrow as (rowd & <- & Hrowd).
    apply in_map_iff in Hin. destruct Hin as (sd & <- & Hsd).
    exists fd, rowd, sd. repeat split; auto.
    + unfold selectable in Hsel. apply andb_prop in Hsel.
      destruct Hsel as [_ Ha]. simpl in Ha. now apply Z.eqb_eq.
    + unfold selectable, is_aisle in Hsel. apply andb_prop in Hsel.
      destruct Hsel as [Hn _]. simpl in Hn. apply negb_true_iff in Hn.
      now apply String.eqb_neq.
Qed.

Lemma selected_seats_come_from_available_entries_witness :
  exists fd rowd sd,
    In fd [mkFloorDict 1 [[mkSeatDict "C1" 301 1 false 1]] "F1" true] /\
    d_floor_seat_availability fd = true /\
    In rowd (d_layout fd) /\ In sd rowd /\
    mkSeat "C1" 301 true false 1 = Seat_from_dict sd /\
    d_seat_availability sd = 1%Z /\ d_seat_number sd <> ""%string.
Proof.
  apply (selected_seats_come_from_available_entries
           [mkFloorDict 1 [[mkSeatDict "C1" 301 1 false 1]] "F1" true] 1 0 0).
  left. reflexivity.
Defined.

End LayoutFacts.

(** ** Passengers *)
Module PassengerFacts.
Import Models Config PassengerService BookingService PassengerData Race.

(** The three configured lists are zipped up to the shortest of them:
    the surplus entries of the longer lists are dropped, and every
    passenger gets the one configured email and mobile number. *)
Theorem create_passengers_zips_to_shortest
  (names : list string) (email mobile : string) (genders types : list string) :
  let ps := create_passengers_from_config names email mobile genders types in
  let k := Nat.min (Nat.min (List.length names) (List.length genders))
             (List.length types) in
  List.length ps = k /\
  map p_name ps = firstn k names /\
  map p_gender ps = firstn k genders /\
  map p_passenger_type ps = firstn k types /\
  Forall (fun p => p_email p = email /\ p_mobile p = mobile) ps.
Proof.
  cbv zeta. revert genders types.
  induction names as [| n names IH]; intros genders types.
  - simpl. repeat split; constructor.
  - destruct genders as [| g genders]; [simpl; repeat split; constructor |].
    destruct types as [| t types].
    + cbn [create_passengers_from_config List.length map].
      rewrite Nat.min_0_r. simpl. repeat split; constructor.
    + destruct (IH genders types) as (Hl & Hn & Hg & Ht & Hall).
      simpl. rewrite Hl, Hn, Hg, Ht. repeat split; auto.
Qed.

(** [_prepare_passengers_async] returns exactly when the zipped list is
    not empty and every passenger passes the five checks; what it
    returns is that list, so a worker never asks for a group of zero
    seats. *)
Theorem prepare_passengers_returns_valid_nonempty
  (config : BookingConfig) (passengers : list Passenger) :
  prepare_passengers config = Returns passengers <->
  passengers
  = create_passengers_from_config (passenger_names config)
      (passenger_email config) (passenger_mobile config)
      (passenger_genders config) (passenger_types config) /\
  1 <= List.length passengers /\
  forallb passenger_ok passengers = true.
Proof.
  unfold prepare_passengers, validate_passengers.
  set (ps := create_passengers_from_config _ _ _ _ _).
  split.
  - destruct ps as [| p ps']; [discriminate |].
    destruct (forallb passenger_ok (p :: ps')) eqn:Hok; [| discriminate].
    intros [= <-]. split; [reflexivity |]. split; [simpl; lia | exact Hok].
  - intros (-> & Hlen & Hok).
    destruct ps as [| p ps']; [simpl in Hlen; lia |].
    now rewrite Hok.
Qed.

Lemma extend_cyclically_spec (passengers : list Passenger) (needed_count : nat) :
  passengers <> [] ->
  forall fuel adjusted,
    needed_count <= List.length adjusted + fuel ->
    List.length adjusted <= needed_count ->
    (forall i, i < List.length adjusted ->
       nth_error adjusted i
       = nth_error passengers (i mod List.length passengers)) ->
    let r := extend_cyclically fuel passengers adjusted needed_count in
    List.length r = needed_count /\
    forall i, i < needed_count ->
      nth_error r i = nth_error passengers (i mod List.length passengers).
Proof.
  intros Hne. induction fuel as [| fuel IH]; intros adjusted Hfuel Hle Hinv.
  - simpl. split; [lia |]. intros i Hi. apply Hinv. lia.
  - cbv zeta. simpl.
    destruct (Nat.ltb_spec (List.length adjusted) needed_count) as [Hlt | Hge].
    + assert (Hlen : List.length passengers <> 0).
      { destruct passengers; [contradiction | discriminate]. }
      pose proof (Nat.mod_upper_bound (List.length adjusted) _ Hlen) as Hb.
      destruct (nth_error passengers
                  (List.length adjusted mod List.length passengers))
        as [p |] eqn:Hp; [| apply nth_error_None in Hp; lia].
      apply IH.
      * rewrite length_app. simpl. lia.
      * rewrite length_app. simpl. lia.
      * intros i Hi. rewrite length_app in Hi. simpl in Hi.
        destruct (Nat.eq_dec i (List.length adjusted)) as [-> | Hneq].
        -- rewrite nth_error_app2 by lia. rewrite Nat.sub_diag. simpl.
           now rewrite Hp.
        -- rewrite nth_error_app1 by lia. apply Hinv. lia.
    + split; [lia |]. intros i Hi. apply Hinv. lia.
Qed.

(** For a non-empty passenger list and a count [n >= 0],
    [_adjust_passenger_count] returns exactly [n] passengers and the
    one at index [i] is [passengers[i % len(passengers)]]: a longer list
    is cut, a shorter one is repeated cyclically. *)
Theorem adjust_passenger_count_cycles
  (passengers : list Passenger) (needed_count : Z) :
  passengers <> [] ->
  (0 <= needed_count)%Z ->
  exists adjusted,
    _adjust_passenger_count passengers needed_count = Returns adjusted /\
    List.length adjusted = Z.to_nat needed_count /\
    forall i, i < Z.to_nat needed_count ->
      nth_error adjusted i
      = nth_error passengers (i mod List.length passengers).
Proof.
  intros Hne Hn. unfold _adjust_passenger_count. cbv zeta.
  assert (Hlen : List.length passengers <> 0).
  { destruct passengers; [contradiction | discriminate]. }
  destruct (Z.eqb_spec (Z.of_nat (List.length passengers)) needed_count)
    as [Heq | Hneq].
  - exists passengers. split; [reflexivity |]. split; [lia |].
    intros i Hi. rewrite Nat.mod_small by lia. reflexivity.
  - destruct (Z.gtb_spec (Z.of_nat (List.length passengers)) needed_count)
      as [Hgt | Hle].
    + exists (py_prefix passengers needed_count). split; [reflexivity |].
      unfold py_prefix. destruct (Z.leb_spec 0 needed_count) as [_ | Hc]; [| lia].
      split; [rewrite length_firstn; lia |].
      intros i Hi. rewrite Nat.mod_small by lia.
      now rewrite nth_error_firstn, (proj2 (Nat.ltb_lt _ _) Hi).
    + destruct passengers as [| p ps] eqn:Hps; [contradiction |].
      eexists. split; [reflexivity |]. rewrite <- Hps in *.
      apply extend_cyclically_spec; auto; try lia.
      intros i Hi. rewrite Nat.mod_small by lia. reflexivity.
Qed.

Lemma adjust_passenger_count_cycles_witness :
  exists adjusted,
    _adjust_passenger_count [rahim; karima] 5 = Returns adjusted /\
    List.length adjusted = 5.
Proof.
  destruct (adjust_passenger_count_cycles [rahim; karima] 5)
    as (adjusted & Hret & Hlen & _).
  - discriminate.
  - lia.
  - exists adjusted. split; [exact Hret | exact Hlen].
Defined.

(** With no passenger at all and a positive count the cyclic fill divides
    by zero, and [prepare_passenger_data] with zero tickets, or with an
    empty list, never returns a dictionary: it raises ValueError for the
    empty list and IndexError for the zero count. *)
Theorem passenger_data_edge_cases (passengers : list Passenger) (n : Z) :
  ((0 < n)%Z -> _adjust_passenger_count [] n = Raises ZeroDivisionError) /\
  prepare_passenger_data [] n = Raises (OfBuiltin ValueError) /\
  (validate_passengers passengers = Returns true ->
   prepare_passenger_data passengers 0 = Raises (OfBuiltin IndexError)).
Proof.
  split; [| split].
  - intros Hn. destruct n; try lia. reflexivity.
  - reflexivity.
  - intros Hv. unfold prepare_passenger_data. rewrite Hv.
    destruct passengers as [| p ps]; [discriminate |].
    unfold _adjust_passenger_count. cbv zeta. simpl List.length.
    destruct (Z.eqb_spec (Z.of_nat (S (List.length ps))) 0) as [Heq | _]; [lia |].
    destruct (Z.gtb_spec (Z.of_nat (S (List.length ps))) 0) as [_ | Hle]; [| lia].
    reflexivity.
Qed.

Lemma passenger_data_edge_cases_witness :
  _adjust_passenger_count [] 2 = Raises ZeroDivisionError /\
  prepare_passenger_data [rahim] 0 = Raises (OfBuiltin IndexError).
Proof.
  split.
  - apply (proj1 (passenger_data_edge_cases [] 2)). lia.
  - apply (proj2 (proj2 (passenger_data_edge_cases [rahim] 0))). reflexivity.
Defined.

(** For passengers that pass validation and a ticket count [n >= 1],
    [prepare_passenger_data] returns three lists of exactly [n] entries,
    and the contact email and mobile are those of the first
    passenger. *)
Theorem prepare_passenger_data_lengths
  (passengers : list Passenger) (num_tickets : Z) :
  validate_passengers passengers = Returns true ->
  (1 <= num_tickets)%Z ->
  exists d first,
    prepare_passenger_data passengers num_tickets = Returns d /\
    hd_error passengers = Some first /\
    List.length (pd_pname d) = Z.to_nat num_tickets /\
    List.length (pd_gender d) = Z.to_nat num_tickets /\
    List.length (pd_passengerType d) = Z.to_nat num_tickets /\
    pd_pemail d = p_email first /\ pd_pmobile d = p_mobile first.
Proof.
  intros Hv Hn. unfold prepare_passenger_data. rewrite Hv.
  assert (Hne : passengers <> []).
  { intros ->. discriminate. }
  destruct (adjust_passenger_count_cycles passengers num_tickets Hne)
    as (adjusted & -> & Hlen & Hnth); [lia |].
  destruct passengers as [| first ps]; [contradiction |].
  destruct adjusted as [| a adjusted']; [simpl in Hlen; lia |].
  assert (Ha : a = first).
  { specialize (Hnth 0). rewrite Nat.mod_small in Hnth by (simpl; lia).
    simpl in Hnth. specialize (Hnth ltac:(lia)). now injection Hnth. }
  subst a. exists (mkPassengerDict (map p_name (first :: adjusted'))
                     (map p_gender (first :: adjusted'))
                     (map p_passenger_type (first :: adjusted'))
                     (p_email first) (p_mobile first)), first.
  split; [reflexivity |]. split; [reflexivity |].
  simpl. rewrite !length_map. simpl in Hlen. auto.
Qed.

Lemma prepare_passenger_data_lengths_witness :
  exists d first,
    prepare_passenger_data [rahim; karima] 3 = Returns d /\
    hd_error [rahim; karima] = Some first /\
    List.length (pd_pname d) = 3.
Proof.
  destruct (prepare_passenger_data_lengths [rahim; karima] 3)
    as (d & first & Hret & Hhd & Hl & _).
  - reflexivity.
  - lia.
  - exists d, first. auto.
Defined.

End PassengerFacts.

(** ** The booking payload and the finalization *)
Module FinalizationFacts.
Import Models BookingService Finalization BoardingPointFacts PassengerData.

Lemma adjust_list_length (items : list string) (n : nat) (d : string) :
  List.length (_adjust_list items (Z.of_nat n) d) = n.
Proof.
  unfold _adjust_list, py_prefix.
  destruct (Z.ltb_spec (Z.of_nat (List.length items)) (Z.of_nat n)).
  - rewrite length_app, repeat_length. lia.
  - destruct (Z.leb_spec 0 (Z.of_nat n)); [| lia].
    rewrite length_firstn. lia.
Qed.

(** With at least one passenger [create_booking_data] returns a payload
    in which every per-ticket list has exactly one entry per selected
    seat, whatever the number of passengers; the ticket ids are those of
    the seats, in order, and the contact data are the first
    passenger's.  Without a passenger it raises IndexError. *)
Theorem booking_payload_lists_match_tickets
  (config : PayloadConfig) (request : BookingRequest) (otp : string) :
  (br_passengers request = [] ->
   create_booking_data config request otp = Raises IndexError) /\
  (forall p ps, br_passengers request = p :: ps ->
   exists d,
     create_booking_data config request otp = Returns d /\
     Forall (fun n => n = List.length (br_selected_seats request))
       (per_ticket_lengths d) /\
     ticket_ids d = map ticket_id (br_selected_seats request) /\
     pemail d = p_email p /\ pmobile d = p_mobile p /\
     boarding_point_id d = bp_id (br_boarding_point request) /\
     date_of_journey d = bp_date (br_boarding_point request)).
Proof.
  split.
  - intros H. unfold create_booking_data. now rewrite H.
  - intros p ps H. unfold create_booking_data. rewrite H.
    eexists. split; [reflexivity |].
    split; [| repeat split].
    unfold per_ticket_lengths. simpl.
    rewrite !adjust_list_length, !repeat_length, length_map.
    repeat constructor.
Qed.

Lemma booking_payload_lists_match_tickets_witness :
  exists d,
    create_booking_data default_payload_config
      (mkBookingRequest two_stop_trip [rahim] [A1; A2]
         (mkBoardingPoint 2 "DHAKA" "15:05" "25-Mar-2025") 2 "Dhaka" "Rajshahi")
      "1234" = Returns d /\
    pname d = ["Rahim"; "Passenger"]%string.
Proof.
  destruct (proj2 (booking_payload_lists_match_tickets default_payload_config
      (mkBookingRequest two_stop_trip [rahim] [A1; A2]
         (mkBoardingPoint 2 "DHAKA" "15:05" "25-Mar-2025") 2 "Dhaka" "Rajshahi")
      "1234") rahim [] eq_refl) as (d & Hret & _).
  exists d. split; [exact Hret |].
  vm_compute in Hret. injection Hret as <-. reflexivity.
Defined.

(** A rejected code never reaches the confirmation: [finalize_booking]
    raises [OtpVerificationFailedException] with the response it got,
    having sent the verification request and nothing else; it does not
    return False. *)
Theorem rejected_otp_raises_before_confirm
  (config : PayloadConfig) (env : FinalEnv) (reservation_data : Reservation)
  (otp from_city to_city : string) :
  success (verify_response env) = false ->
  finalize_booking config env reservation_data otp from_city to_city
  = (Raises (OtpVerificationFailedException (verify_response env)),
     [VerifyOtp (trip_id (r_trip reservation_data))
        (trip_route_id (r_trip reservation_data))
        (r_ticket_ids reservation_data) otp]).
Proof.
  intros H. unfold finalize_booking, verify_otp. now rewrite H.
Qed.

Lemma rejected_otp_raises_before_confirm_witness :
  fst (finalize_booking default_payload_config
         (mkFinalEnv rejected accepted (Returns tt))
         (mkReservation two_stop_trip [101%Z] [A1] [rahim])
         "0000" "Dhaka" "Rajshahi")
  = Raises (OtpVerificationFailedException rejected).
Proof.
  rewrite (rejected_otp_raises_before_confirm default_payload_config
             (mkFinalEnv rejected accepted (Returns tt))
             (mkReservation two_stop_trip [101%Z] [A1] [rahim])
             "0000" "Dhaka" "Rajshahi"); reflexivity.
Defined.

(** [finalize_booking] returns True only when the code was accepted and
    the confirmation succeeded; the confirmation was then sent exactly
    once, after the verification, for a boarding point of the trip and
    the ticket ids of the reserved seats. *)
Theorem finalize_true_means_verified_and_confirmed
  (config : PayloadConfig) (env : FinalEnv) (reservation_data : Reservation)
  (otp from_city to_city : string) (sent : list request) :
  finalize_booking config env reservation_data otp from_city to_city
  = (Returns true, sent) ->
  success (verify_response env) = true /\
  success (confirm_response env) = true /\
  exists booking_data boarding_point,
    sent = [VerifyOtp (trip_id (r_trip reservation_data))
              (trip_route_id (r_trip reservation_data))
              (r_ticket_ids reservation_data) otp;
            Confirm booking_data] /\
    In boarding_point (boarding_points (r_trip reservation_data)) /\
    boarding_point_id booking_data = bp_id boarding_point /\
    ticket_ids booking_data
    = map ticket_id (r_selected_seats reservation_data).
Proof.
  unfold finalize_booking, verify_otp.
  destruct (success (verify_response env)) eqn:Hv; [| discriminate].
  unfold find_boarding_point, next_matching.
  assert (Hbp : forall bp,
            (match find (bp_matches from_city)
                     (boarding_points (r_trip reservation_data)) with
             | Some b => Some b
             | None => hd_error (boarding_points (r_trip reservation_data))
             end) = Some bp ->
            In bp (boarding_points (r_trip reservation_data))).
  { intros bp.
    destruct (find (bp_matches from_city)
                (boarding_points (r_trip reservation_data))) as [b |] eqn:Hf.
    - intros [= <-]. now apply find_some in Hf.
    - destruct (boarding_points (r_trip reservation_data)); [discriminate |].
      intros [= <-]. now left. }
  destruct (find (bp_matches from_city)
              (boarding_points (r_trip reservation_data))) as [b |] eqn:Hf.
  - specialize (Hbp b eq_refl).
    unfold create_booking_data. simpl br_passengers.
    destruct (r_passengers reservation_data) as [| p ps]; [discriminate |].
    unfold submit_booking.
    destruct (success (confirm_response env)) eqn:Hc; simpl; [| discriminate].
    destruct (handled env); [| discriminate].
    intros [= <-]. split; [reflexivity |]. split; [reflexivity |].
    eexists _, b. split; [reflexivity |]. split; [exact Hbp |].
    split; reflexivity.
  - destruct (boarding_points (r_trip reservation_data)) as [| b0 l];
      [discriminate |].
    specialize (Hbp b0 eq_refl).
    unfold create_booking_data. simpl br_passengers.
    destruct (r_passengers reservation_data) as [| p ps]; [discriminate |].
    unfold submit_booking.
    destruct (success (confirm_response env)) eqn:Hc; simpl; [| discriminate].
    destruct (handled env); [| discriminate].
    intros [= <-]. split; [reflexivity |]. split; [reflexivity |].
    eexists _, b0. split; [reflexivity |]. split; [exact Hbp |].
    split; reflexivity.
Qed.

Lemma finalize_true_means_verified_and_confirmed_witness :
  success (verify_response (mkFinalEnv accepted accepted (Returns tt))) = true.
Proof.
  refine (proj1 (finalize_true_means_verified_and_confirmed
    default_payload_config (mkFinalEnv accepted accepted (Returns tt))
    (mkReservation two_stop_trip [101%Z] [A1] [rahim])
    "1234" "Dhaka" "Rajshahi" _ _)).
  reflexivity.
Defined.

End FinalizationFacts.

(** ** Responses, seat layouts and seat claims *)
Module ResponseFacts.
Import Models ApiClient TripRepository SeatService SeatServiceFacts.

(** In every response [make_request] builds, success, status 200 and
    the absence of an error message go together; a transport failure
    has no status and no data. *)
Theorem response_fields_agree (o : HttpOutcome) :
  let r := make_request o in
  (success r = true <-> status_code r = Some 200%Z) /\
  (success r = true <-> error_message r = None) /\
  (status_code r = None <-> data r = DataNone /\ exists m, o = Failed m).
Proof.
  destruct o as [status body printed | message]; simpl.
  - destruct (Z.eqb_spec status 200) as [-> | Hne].
    + repeat split; auto; try discriminate.
      intros (_ & m & H). discriminate.
    + repeat split; try discriminate; try (intros [= H]; contradiction).
      intros (_ & m & H). discriminate.
  - repeat split; try discriminate; eauto.
Qed.

(** A seat layout comes back exactly for a reply with status 200 whose
    body carries a layout.  A request that failed in transport ends in
    AttributeError, without its message; a reply with status 401 or 403
    ends in [UnauthorizedException] carrying the response, whatever its
    body. *)
Theorem seat_layout_by_http_outcome (o : HttpOutcome) (sl : SeatLayout) :
  (get_seat_layout (make_request o) = Returns sl <->
   exists printed, o = Reply 200 (DataLayout sl) printed) /\
  (forall message,
     get_seat_layout (make_request (Failed message))
     = Raises (Builtin AttributeError)) /\
  (forall status body printed,
     status = 401%Z \/ status = 403%Z ->
     get_seat_layout (make_request (Reply status body printed))
     = Raises (UnauthorizedException (make_request (Reply status body printed)))).
Proof.
  split; [| split].
  - split.
    + destruct o as [status body printed | message].
      * unfold get_seat_layout, make_request. simpl.
        destruct (Z.eqb_spec status 200) as [-> | Hne]; simpl.
        -- destruct body; try discriminate. intros [= ->]. eauto.
        -- unfold status_is. simpl.
           destruct ((status =? 401)%Z || (status =? 403)%Z); [discriminate |].
           destruct body; try discriminate;
             destruct (status =? 422)%Z; simpl;
             repeat match goal with
                    | |- context [if ?c then _ else _] => destruct c
                    end; discriminate.
      * discriminate.
    + intros (printed & ->). reflexivity.
  - reflexivity.
  - intros status body printed [-> | ->]; reflexivity.
Qed.

Lemma seat_layout_by_http_outcome_witness :
  get_seat_layout (make_request (Reply 403 (DataText "Forbidden") "Forbidden"))
  = Raises (UnauthorizedException
              (make_request (Reply 403 (DataText "Forbidden") "Forbidden"))).
Proof.
  apply (proj2 (proj2 (seat_layout_by_http_outcome
                         (Failed "x") scenario_layout))).
  right. reflexivity.
Defined.

(** [reserve_seats] returns True exactly when the claim of every seat of
    the group succeeded; for an empty group it returns True. *)
Theorem reserve_seats_true_iff_all_claimed (remote : Remote) (seats : list Seat) :
  reserve_seats remote seats = Returns true <->
  forall s, In s seats -> success (remote (ticket_id s)) = true.
Proof.
  split.
  - intros Hret s Hin.
    destruct (success (remote (ticket_id s))) eqn:Hs; [reflexivity |].
    destruct seats as [| s0 seats]; [destruct Hin |].
    rewrite (reserve_seats_raises_first_response remote s0 seats) in Hret
      by (exists s; auto).
    discriminate.
  - apply reserve_seats_all_ok.
Qed.

End ResponseFacts.

(** ** Trips *)
Module TripFacts.
Import Models TripParsing TripSelection.

Lemma first_of_class_spec (seat_class : string) (l : list SeatTypeDict)
  (st : SeatTypeDict) :
  first_of_class seat_class l = Some st ->
  exists pre post,
    l = pre ++ st :: post /\ st_type st = seat_class /\
    forall x, In x pre -> st_type x <> seat_class.
Proof.
  induction l as [| a l IH]; simpl; [discriminate |].
  destruct (String.eqb_spec (st_type a) seat_class) as [Heq | Hne].
  - intros [= <-]. exists [], l.
    split; [reflexivity | split; [exact Heq | intros x []]].
  - intros H. destruct (IH H) as (pre & post & -> & Ht & Hpre).
    exists (a :: pre), post.
    split; [reflexivity | split; [exact Ht |]].
    intros x [<- | Hx]; auto.
Qed.

Lemma first_of_class_offers (seat_class : string) (train : TrainDict) :
  offers seat_class train = true <->
  exists st, first_of_class seat_class (seat_types train) = Some st.
Proof.
  unfold offers. induction (seat_types train) as [| a l IH]; simpl.
  - split; [discriminate | intros (st & H); discriminate].
  - destruct (String.eqb (st_type a) seat_class); simpl; [| exact IH].
    split; eauto.
Qed.

(** The search result gives at most one trip per train: exactly the
    trains that offer the requested class, in their order; each trip
    takes its ids from the first seat type of that class and keeps the
    train's boarding points in order.  Without trains the list is
    empty. *)
Theorem one_trip_per_train_offering_class
  (trains : list TrainDict) (seat_class : string) :
  let trips := _parse_trip_data (Trains trains) seat_class in
  List.length trips <= List.length trains /\
  map train_name trips = map trip_number (filter (offers seat_class) trains) /\
  (forall t, In t trips ->
     exists train st pre post,
       In train trains /\
       seat_types train = pre ++ st :: post /\
       st_type st = seat_class /\
       (forall x, In x pre -> st_type x <> seat_class) /\
       t = trip_of train st /\
       map bp_name (boarding_points t)
       = map location_name (train_boarding_points train)) /\
  _parse_trip_data NoTrains seat_class = [].
Proof.
  cbv zeta. simpl. split; [| split; [| split; [| reflexivity]]].
  - induction trains as [| train trains IH]; simpl; [lia |].
    destruct (first_of_class seat_class (seat_types train)); simpl; lia.
  - induction trains as [| train trains IH]; simpl; [reflexivity |].
    destruct (first_of_class seat_class (seat_types train)) as [st |] eqn:Hf.
    + rewrite (proj2 (first_of_class_offers seat_class train))
        by (exists st; exact Hf).
      simpl. now rewrite IH.
    + destruct (offers seat_class train) eqn:Ho; [| exact IH].
      apply first_of_class_offers in Ho. destruct Ho as (st & Hst).
      rewrite Hst in Hf. discriminate.
  - induction trains as [| train trains IH]; simpl; [intros t [] |].
    intros t Ht.
    destruct (first_of_class seat_class (seat_types train)) as [st |] eqn:Hf.
    + destruct Ht as [<- | Ht].
      * destruct (first_of_class_spec _ _ _ Hf) as (pre & post & Hl & Hty & Hpre).
        exists train, st, pre, post. repeat split; auto.
        simpl. rewrite map_map. reflexivity.
      * destruct (IH t Ht) as (tr & st' & pre & post & Hin & H).
        exists tr, st', pre, post. split; [now right | exact H].
    + destruct (IH t Ht) as (tr & st' & pre & post & Hin & H).
      exists tr, st', pre, post. split; [now right | exact H].
Qed.

(** On a non-empty list [_select_trip] always returns one of the trips:
    the one numbered [trip_number] (from 1) when that number is in range
    and neither automatic selection is on nor the list has a single
    trip, and the first trip otherwise.  On an empty list it raises
    IndexError. *)
Theorem select_trip_in_range_or_first
  (auto_select_train : bool) (trips : list Trip) (trip_number : Z) :
  (trips = [] ->
   _select_trip auto_select_train trips trip_number = Raises IndexError) /\
  (forall t0 rest, trips = t0 :: rest ->
   exists t,
     _select_trip auto_select_train trips trip_number = Returns t /\
     In t trips /\
     (auto_select_train = false -> rest <> [] ->
      (1 <= trip_number <= Z.of_nat (List.length trips))%Z ->
      nth_error trips (Z.to_nat (trip_number - 1)) = Some t) /\
     (auto_select_train = true \/ rest = [] \/
      (trip_number < 1)%Z \/ (Z.of_nat (List.length trips) < trip_number)%Z ->
      t = t0)).
Proof.
  split.
  - intros ->. unfold _select_trip. simpl.
    destruct auto_select_train; simpl; [reflexivity |].
    destruct ((trip_number - 1 <? 0)%Z || (trip_number - 1 >=? 0)%Z) eqn:H.
    + reflexivity.
    + destruct (Z.to_nat (trip_number - 1)); reflexivity.
  - intros t0 rest ->. unfold _select_trip.
    destruct (auto_select_train || Nat.eqb (List.length (t0 :: rest)) 1) eqn:Hauto.
    + exists t0. split; [reflexivity |]. split; [now left |]. split.
      * intros -> Hrest _. simpl in Hauto.
        destruct rest; [contradiction | discriminate].
      * reflexivity.
    + apply orb_false_iff in Hauto. destruct Hauto as [-> Hlen].
      assert (Hrest : rest <> []).
      { intros ->. discriminate. }
      cbv zeta. remember (t0 :: rest) as trips eqn:Htrips.
      assert (Hlen1 : (1 <= List.length trips)%nat) by (subst trips; simpl; lia).
      destruct (Z.ltb_spec (trip_number - 1) 0) as [Hlow | Hlow];
        destruct (Z.geb_spec (trip_number - 1) (Z.of_nat (List.length trips)))
          as [Hhigh | Hhigh]; cbn [orb].
      * exists t0. subst trips. split; [reflexivity |]. split; [now left |].
        split; [intros _ _ Hr; lia | reflexivity].
      * exists t0. subst trips. split; [reflexivity |]. split; [now left |].
        split; [intros _ _ Hr; lia | reflexivity].
      * exists t0. subst trips. split; [reflexivity |]. split; [now left |].
        split; [intros _ _ Hr; lia | reflexivity].
      * destruct (nth_error trips (Z.to_nat (trip_number - 1)))
          as [t |] eqn:Hn.
        -- exists t. split; [reflexivity |].
           split; [now apply nth_error_In in Hn |].
           split; [auto |].
           intros [H | [H | [H | H]]];
             [discriminate | contradiction | lia | lia].
        -- apply nth_error_None in Hn. lia.
Qed.

Lemma select_trip_in_range_or_first_witness :
  _select_trip false [two_stop_trip; two_stop_trip] 7 = Returns two_stop_trip.
Proof.
  destruct (proj2 (select_trip_in_range_or_first false
                     [two_stop_trip; two_stop_trip] 7)
              two_stop_trip [two_stop_trip] eq_refl)
    as (t & Hret & _ & _ & Hfirst).
  rewrite Hret. f_equal. apply Hfirst. right. right. right. simpl. lia.
Defined.

End TripFacts.

(** ** More on the retry loop *)
Module RetryMoreFacts.
Import Config Retry.

Local Open Scope Z_scope.

(** [m] failed races in a row take the loop [m] iterations further. *)
Lemma while_loop_skip (m : nat) :
  forall (fuel : nat) (max_attempts : Z) (book : Z -> book_outcome)
         (attempt : Z) (n : nat) (l : list log_line),
    (forall a, attempt < a <= attempt + Z.of_nat m -> book a = BookFalse) ->
    attempt + Z.of_nat m <= max_attempts ->
    exists ws,
      while_loop (m + fuel) max_attempts book attempt n l
      = while_loop fuel max_attempts book (attempt + Z.of_nat m) (n + m)%nat
          (l ++ ws).
Proof.
  induction m as [| m IH]; intros fuel max_attempts book attempt n l Hf Hle.
  - exists []. simpl. now rewrite Z.add_0_r, Nat.add_0_r, app_nil_r.
  - simpl plus. cbn [while_loop].
    destruct (Z.ltb_spec attempt max_attempts) as [_ | Hc]; [| lia].
    rewrite (Hf (attempt + 1)) by lia.
    destruct (IH fuel max_attempts book (attempt + 1) (S n)
                (l ++ [WarnAttemptFailed (attempt + 1)])) as (ws & Hws).
    + intros a Ha. apply Hf. lia.
    + lia.
    + exists (WarnAttemptFailed (attempt + 1) :: ws). rewrite Hws.
      replace (attempt + 1 + Z.of_nat m) with (attempt + Z.of_nat (S m)) by lia.
      replace (S n + m)%nat with (n + S m)%nat by lia.
      now rewrite <- app_assoc.
Qed.

Lemma run_reaches (config : BookingConfig) (book : Z -> book_outcome) (k : Z) :
  1 <= k <= max_retry_attempts config ->
  (forall a, 1 <= a < k -> book a = BookFalse) ->
  exists ws fuel,
    run_with_retry config book
    = while_loop (S fuel) (max_retry_attempts config) book (k - 1)
        (Z.to_nat (k - 1)) ws.
Proof.
  intros Hk Hf. unfold run_with_retry.
  set (m := Z.to_nat (k - 1)).
  destruct (while_loop_skip m
              (S (Z.to_nat (max_retry_attempts config) - m))
              (max_retry_attempts config) book 0 0 []) as (ws & Hws).
  - intros a Ha. apply Hf. lia.
  - lia.
  - exists ([] ++ ws), (Z.to_nat (max_retry_attempts config) - m)%nat.
    replace (S (Z.to_nat (max_retry_attempts config)))
      with (m + S (Z.to_nat (max_retry_attempts config) - m))%nat by lia.
    rewrite Hws. f_equal; lia.
Qed.

(** When the race of attempt [k] is the first to succeed, the loop runs
    exactly [k] races and stops.  Its log ends with the success line,
    followed by the line "Failed to book ticket after N attempts" exactly
    when the success came on the last attempt allowed. *)
Theorem first_success_ends_the_loop
  (config : BookingConfig) (book : Z -> book_outcome) (k : Z) :
  1 <= k <= max_retry_attempts config ->
  (forall a, 1 <= a < k -> book a = BookFalse) ->
  book k = BookTrue ->
  let r := run_with_retry config book in
  how r = Completed /\
  races r = Z.to_nat k /\
  exists before,
    lines r
    = before ++ InfoBookedOnAttempt k
        :: (if k =? max_retry_attempts config
            then [ErrorFailedAfter (max_retry_attempts config)] else []).
Proof.
  intros Hk Hf Hb. cbv zeta.
  destruct (run_reaches config book k Hk Hf) as (ws & fuel & ->).
  cbn [while_loop].
  destruct (Z.ltb_spec (k - 1) (max_retry_attempts config)) as [_ | Hc]; [| lia].
  replace (k - 1 + 1) with k by lia. rewrite Hb. unfold after_loop.
  split; [reflexivity |]. split; [simpl; lia |]. simpl lines.
  destruct (Z.geb_spec k (max_retry_attempts config)) as [Hge | Hlt];
    destruct (Z.eqb_spec k (max_retry_attempts config)) as [Heq | Hne];
    try lia.
  - exists ws. now rewrite <- app_assoc.
  - exists ws. reflexivity.
Qed.

Lemma first_success_ends_the_loop_witness :
  races (run_with_retry default_config
           (fun a => if a =? 2 then BookTrue else BookFalse)) = 2%nat.
Proof.
  refine (proj1 (proj2 (first_success_ends_the_loop default_config
            (fun a => if a =? 2 then BookTrue else BookFalse) 2 _ _ _))).
  - simpl. lia.
  - intros a Ha. destruct (Z.eqb_spec a 2); [lia | reflexivity].
  - reflexivity.
Defined.

(** When the race of attempt [k] is the first not to return False and it
    never returns, or is interrupted, the loop neither completes nor
    starts another race, and it logs nothing after the warnings of the
    failed attempts. *)
Theorem stuck_race_stops_the_loop
  (config : BookingConfig) (book : Z -> book_outcome) (k : Z) :
  1 <= k <= max_retry_attempts config ->
  (forall a, 1 <= a < k -> book a = BookFalse) ->
  book k = BookBlocks \/ book k = BookInterrupted ->
  let r := run_with_retry config book in
  (how r = NeverReturns \/ how r = Interrupted) /\
  (how r = NeverReturns <-> book k = BookBlocks) /\
  races r = Z.to_nat k /\
  Forall (fun line => exists a, line = WarnAttemptFailed a) (lines r).
Proof.
  intros Hk Hf Hb. cbv zeta.
  assert (Hgen : forall (m : nat) fuel attempt n l,
            (forall a, attempt < a <= attempt + Z.of_nat m -> book a = BookFalse) ->
            attempt + Z.of_nat m < max_retry_attempts config ->
            book (attempt + Z.of_nat m + 1) = BookBlocks \/
            book (attempt + Z.of_nat m + 1) = BookInterrupted ->
            Forall (fun line => exists a, line = WarnAttemptFailed a) l ->
            let r := while_loop (m + S fuel) (max_retry_attempts config) book
                       attempt n l in
            (how r = NeverReturns \/ how r = Interrupted) /\
            (how r = NeverReturns <->
             book (attempt + Z.of_nat m + 1) = BookBlocks) /\
            races r = (n + S m)%nat /\
            Forall (fun line => exists a, line = WarnAttemptFailed a) (lines r)).
  { induction m as [| m IH]; intros fuel attempt n l Hfalse Hlt Hlast Hl.
    - change (Z.of_nat 0) with 0 in *. rewrite Z.add_0_r in *.
      cbv zeta. simpl plus. cbn [while_loop].
      destruct (Z.ltb_spec attempt (max_retry_attempts config)) as [_ | Hc];
        [| lia].
      destruct Hlast as [Hbk | Hbk]; rewrite Hbk; simpl.
      + split; [now left |]. split; [split; reflexivity |].
        split; [lia | exact Hl].
      + split; [now right |].
        split; [split; discriminate |]. split; [lia | exact Hl].
    - cbv zeta. simpl plus. cbn [while_loop].
      destruct (Z.ltb_spec attempt (max_retry_attempts config)) as [_ | Hc];
        [| lia].
      rewrite (Hfalse (attempt + 1)) by lia.
      replace (attempt + Z.of_nat (S m) + 1)
        with (attempt + 1 + Z.of_nat m + 1) in * by lia.
      replace (n + S (S m))%nat with (S n + S m)%nat by lia.
      apply IH; auto.
      + intros a Ha. apply Hfalse. lia.
      + lia.
      + apply Forall_app. split; [exact Hl |]. repeat constructor. eauto. }
  unfold run_with_retry.
  set (m := Z.to_nat (k - 1)).
  replace (S (Z.to_nat (max_retry_attempts config)))
    with (m + S (Z.to_nat (max_retry_attempts config) - m))%nat by lia.
  replace k with (0 + Z.of_nat m + 1) in Hb |- * by lia.
  replace (Z.to_nat (0 + Z.of_nat m + 1)) with (0 + S m)%nat by lia.
  apply Hgen; auto.
  - intros a Ha. apply Hf. lia.
  - lia.
Qed.

Lemma stuck_race_stops_the_loop_witness :
  races (run_with_retry default_config (fun _ => BookBlocks)) = 1%nat.
Proof.
  refine (proj1 (proj2 (proj2 (stuck_race_stops_the_loop default_config
            (fun _ => BookBlocks) 1 _ _ _)))).
  - simpl. lia.
  - intros a Ha. lia.
  - left. reflexivity.
Defined.

(** With a bound of zero or less no race is run at all, and the loop
    reports the failure at once. *)
Theorem non_positive_bound_runs_no_race
  (config : BookingConfig) (book : Z -> book_outcome) :
  max_retry_attempts config <= 0 ->
  run_with_retry config book
  = mkLoopResult Completed 0 [ErrorFailedAfter (max_retry_attempts config)].
Proof.
  intros H. unfold run_with_retry. cbn [while_loop].
  destruct (Z.ltb_spec 0 (max_retry_attempts config)) as [Hc | _]; [lia |].
  unfold after_loop.
  destruct (Z.geb_spec 0 (max_retry_attempts config)) as [_ | Hc]; [| lia].
  reflexivity.
Qed.

Lemma non_positive_bound_runs_no_race_witness :
  races (run_with_retry (mkBookingConfig [] "" "" [] [] 0) (fun _ => BookTrue))
  = 0%nat.
Proof.
  rewrite (non_positive_bound_runs_no_race
             (mkBookingConfig [] "" "" [] [] 0) (fun _ => BookTrue));
    [reflexivity | simpl; lia].
Defined.

End RetryMoreFacts.

(** ** Invariants of the race *)
Module RaceInvariantFacts.
Import Models Config PassengerService TripRepository SeatService Race.
Import RaceInvariant SeatMapFacts RaceFacts.

Lemma puts_of_app (pid : nat) (q1 q2 : list ReservationData) :
  puts_of pid (q1 ++ q2) = puts_of pid q1 + puts_of pid q2.
Proof. unfold puts_of. now rewrite filter_app, length_app. Qed.

Lemma claims_of_app (pid : nat) (t1 t2 : list event) :
  claims_of pid (t1 ++ t2) = claims_of pid t1 + claims_of pid t2.
Proof. unfold claims_of. now rewrite filter_app, length_app. Qed.

Lemma claims_of_others (pid other : nat) (added : list event) :
  other <> pid ->
  Forall (fun e => event_process e = other) added ->
  claims_of pid added = 0.
Proof.
  intros Hne Hall. unfold claims_of.
  induction Hall as [| e added He _ IH]; [reflexivity |].
  simpl. destruct e; simpl in *; try exact IH.
  subst. destruct (Nat.eqb_spec other pid); [contradiction | exact IH].
Qed.

(** What one step of a worker does to the shared state: the lock stays
    as it is, the flag is not cleared, the queue and the log only grow,
    and what is added carries the worker's process id. *)
Lemma worker_step_frame (trip : Trip) (config : BookingConfig)
  (pid : nat) (env : Env) (p : pc) (sh : Shared) :
  let sh' := snd (worker_step trip config pid env p sh) in
  (is_reserved sh = true -> is_reserved sh' = true) /\
  exists added_q added_tr,
    result_queue sh' = result_queue sh ++ added_q /\
    trace sh' = trace sh ++ added_tr /\
    Forall (fun rd => rd_process_id rd = pid) added_q /\
    Forall (fun e => event_process e = pid) added_tr.
Proof.
  cbv zeta.
  destruct (worker_step_trace trip config pid env p sh) as (added & Htr & Hall).
  split.
  - destruct p; simpl;
      repeat match goal with
             | |- context [if ?c then _ else _] => destruct c eqn:?
             | |- context [match ?c with Returns _ => _ | Raises _ => _ end] =>
                 destruct c
             end; simpl; intros; try congruence; auto.
  - destruct p.
    1-5, 7-8:
      (exists [], added; split;
       [ rewrite app_nil_r; simpl;
         repeat match goal with
                | |- context [if ?c then _ else _] => destruct c
                | |- context [match ?c with Returns _ => _ | Raises _ => _ end] =>
                    destruct c
                end; reflexivity
       | split; [exact Htr | split; [constructor | exact Hall]] ]).
    eexists [_], added. split; [reflexivity |].
    split; [exact Htr |]. split; [repeat constructor | exact Hall].
Qed.

Lemma others_keep_inv (trip : Trip) (config : BookingConfig)
  (pid other : nat) (env : Env) (p q : pc) (sh : Shared) :
  other <> pid ->
  worker_inv config pid q sh ->
  worker_inv config pid q (snd (worker_step trip config other env p sh)).
Proof.
  intros Hne Hinv.
  destruct (worker_step_frame trip config other env p sh)
    as (Hflag & added_q & added_tr & Hq & Htr & Hallq & Hallt).
  assert (Hputs : puts_of pid
                    (result_queue (snd (worker_step trip config other env p sh)))
                  = puts_of pid (result_queue sh)).
  { rewrite Hq, puts_of_app.
    assert (H0 : puts_of pid added_q = 0).
    { unfold puts_of. clear Hq.
      induction Hallq as [| rd l Hrd _ IH]; [reflexivity |].
      simpl. rewrite Hrd.
      destruct (Nat.eqb_spec other pid); [contradiction | exact IH]. }
    lia. }
  assert (Hclaims : claims_of pid
                      (trace (snd (worker_step trip config other env p sh)))
                    = claims_of pid (trace sh)).
  { rewrite Htr, claims_of_app, (claims_of_others pid other added_tr Hne Hallt).
    lia. }
  unfold worker_inv in *. cbv zeta in *. rewrite Hputs, Hclaims.
  destruct q; intuition.
Qed.

Lemma selected_group_ok (config : BookingConfig) (sl : SeatLayout)
  (passengers : list Passenger) (r1 r2 : nat) :
  prepare_passengers config = Returns passengers ->
  Nat.eqb (List.length (find_random_adjacent_seats sl
                          (List.length passengers) r1 r2)) 0 = false ->
  group_ok config
    (find_random_adjacent_seats sl (List.length passengers) r1 r2) passengers.
Proof.
  intros Hp Hne. apply Nat.eqb_neq in Hne.
  destruct (selection_cases sl (List.length passengers) r1 r2)
    as [Hnil | (f & row & _ & _ & Hw)].
  - rewrite Hnil in Hne. simpl in Hne. lia.
  - destruct (window_props _ _ _ Hw) as (Hlen & _ & Hall).
    split; [exact Hp |]. split; [exact Hlen |]. split; [lia |].
    apply forallb_forall. intros s Hs.
    rewrite Forall_forall in Hall. destruct (Hall s Hs) as [Ha Hb].
    unfold selectable. now rewrite Ha, Hb.
Qed.

Lemma no_claim_among_requests (pid other : nat) (route : Z) (l : list Seat) :
  filter (is_claim_of pid)
    (map (fun seat => NetReserveSeat other (ticket_id seat) route) l) = [].
Proof.
  induction l as [| s l IH]; [reflexivity | exact IH].
Qed.

Lemma own_step_keeps_inv (trip : Trip) (config : BookingConfig)
  (pid : nat) (env : Env) (p : pc) (sh : Shared) :
  worker_inv config pid p sh ->
  worker_inv config pid (fst (worker_step trip config pid env p sh))
    (snd (worker_step trip config pid env p sh)).
Proof.
  unfold worker_inv, claims_of, puts_of. cbv zeta. destruct p; simpl.
  - intros H. destruct (is_reserved sh) eqn:Hf; simpl; rewrite ?Hf;
      intuition congruence.
  - intros (Hq & Hc).
    destruct (prepare_passengers config) as [passengers | e] eqn:Hp;
      simpl; rewrite ?filter_app, ?length_app; simpl; [| left; split; lia].
    destruct (get_seat_layout (layout_response env)) as [sl | e]; simpl;
      rewrite ?filter_app, ?length_app; simpl; [| left; split; lia].
    destruct (Nat.eqb _ 0) eqn:Hn; simpl;
      rewrite ?filter_app, ?length_app; simpl; [left; split; lia |].
    split; [split; lia |]. now apply selected_group_ok.
  - intros ((Hq & Hc) & Hg). destruct (is_reserved sh) eqn:Hf; simpl;
      rewrite ?Hf.
    + split; [exact Hq | split; [lia | split; [reflexivity | exact Hg]]].
    + auto.
  - intros ((Hq & Hc) & Hg).
    destruct (reserve_seats (reserve_response env) selected_seats); simpl;
      rewrite filter_app, length_app, no_claim_among_requests; simpl.
    + split; [split; lia | exact Hg].
    + left. split; lia.
  - intros ((Hq & Hc) & Hg). rewrite filter_app, length_app. simpl.
    rewrite Nat.eqb_refl. simpl.
    split; [exact Hq | split; [lia | split; [reflexivity | exact Hg]]].
  - intros (Hq & Hc & Hf & Hg). right.
    rewrite !filter_app, !length_app. simpl. rewrite Nat.eqb_refl. simpl.
    split; [lia | split; [lia | exact Hf]].
  - rewrite filter_app, length_app. simpl. rewrite Nat.add_0_r. auto.
  - auto.
Qed.

Lemma length_set_nth {A : Type} (i : nat) (x : A) (l : list A) :
  List.length (set_nth i x l) = List.length l.
Proof.
  revert i. induction l as [| a l IH]; intros [| i]; simpl; auto.
Qed.

Lemma system_step_keeps_inv (trip : Trip) (config : BookingConfig) (n : nat)
  (sys : System) (turn : nat * Env) :
  race_inv trip config n sys ->
  race_inv trip config n (system_step trip config sys turn).
Proof.
  intros (Hlen & Hw & Hq & Ht & Hflag). destruct turn as [j env].
  unfold system_step.
  destruct (nth_error (workers sys) j) as [p |] eqn:Hj;
    [| unfold race_inv; auto].
  assert (Hjn : j < n).
  { rewrite <- Hlen. apply nth_error_Some. rewrite Hj. discriminate. }
  pose proof (own_step_keeps_inv trip config (S j) env p (shared sys)
                (Hw j p Hj)) as Hown.
  pose proof (worker_step_frame trip config (S j) env p (shared sys))
    as (Hmono & added_q & added_tr & Haq & Hat & Hallq & Hallt).
  assert (Hput : added_q <> [] ->
                 is_reserved (snd (worker_step trip config (S j) env p
                                     (shared sys))) = true /\
                 Forall (reservation_ok trip config n) added_q).
  { pose proof (Hw j p Hj) as Hinv. revert Haq. clear Hown.
    destruct p; simpl;
      try (repeat match goal with
                  | |- context [if ?c then _ else _] => destruct c
                  | |- context [match ?c with
                                | Returns _ => _ | Raises _ => _ end] =>
                      destruct c
                  end;
           simpl; intros Haq Hne;
           rewrite <- (app_nil_r (result_queue (shared sys))) in Haq at 1;
           apply app_inv_head in Haq; subst added_q; contradiction).
    intros Haq Hne. apply app_inv_head in Haq. subst added_q.
    unfold worker_inv in Hinv. cbv zeta in Hinv.
    destruct Hinv as (_ & _ & Hf & Hg).
    split; [exact Hf |]. apply Forall_cons; [| apply Forall_nil].
    unfold reservation_ok. simpl.
    split; [reflexivity | split; [reflexivity | split; [lia | exact Hg]]]. }
  destruct (worker_step trip config (S j) env p (shared sys)) as [p' sh'] eqn:Hs.
  simpl in *. unfold race_inv. simpl.
  split; [| split; [| split; [| split]]].
  - now rewrite length_set_nth.
  - intros i q Hi. destruct (Nat.eq_dec i j) as [-> | Hne].
    + rewrite (nth_error_set_nth_same _ _ _ _ Hj) in Hi.
      injection Hi as <-. exact Hown.
    + rewrite nth_error_set_nth_other in Hi by auto.
      pose proof (others_keep_inv trip config (S i) (S j) env p q (shared sys))
        as Hothers.
      rewrite Hs in Hothers. apply Hothers; [lia | now apply Hw].
  - rewrite Haq. apply Forall_app. split; [exact Hq |].
    destruct added_q as [| rd l]; [constructor |].
    apply Hput. discriminate.
  - rewrite Hat. apply Forall_app. split; [exact Ht |].
    eapply Forall_impl; [| exact Hallt]. simpl. intros e ->. lia.
  - intros Hne. rewrite Haq in Hne.
    destruct added_q as [| rd l].
    + rewrite app_nil_r in Hne. apply Hmono. now apply Hflag.
    + apply Hput. discriminate.
Qed.

Lemma start_race_inv (trip : Trip) (config : BookingConfig) (n : nat) :
  race_inv trip config n (start_race n).
Proof.
  unfold race_inv, start_race. simpl. repeat split.
  - apply repeat_length.
  - intros i p Hi. apply nth_error_In, repeat_spec in Hi. subst p.
    left. split; reflexivity.
  - constructor.
  - constructor.
  - intros H. contradiction.
Qed.

Lemma run_keeps_inv (trip : Trip) (config : BookingConfig) (n : nat)
  (schedule : list (nat * Env)) (sys : System) :
  race_inv trip config n sys ->
  race_inv trip config n (run trip config schedule sys).
Proof.
  revert sys. induction schedule as [| turn schedule IH]; intros sys H;
    [exact H |].
  change (run trip config (turn :: schedule) sys)
    with (run trip config schedule (system_step trip config sys turn)).
  apply IH. now apply system_step_keeps_inv.
Qed.

Lemma worker_of_race (trip : Trip) (config : BookingConfig) (n : nat)
  (schedule : list (nat * Env)) (i : nat) :
  i < n ->
  exists p,
    nth_error (workers (run trip config schedule (start_race n))) i = Some p /\
    worker_inv config (S i) p
      (shared (run trip config schedule (start_race n))).
Proof.
  intros Hi.
  destruct (run_keeps_inv trip config n schedule (start_race n)
              (start_race_inv trip config n)) as (Hlen & Hw & _).
  destruct (nth_error (workers (run trip config schedule (start_race n))) i)
    as [p |] eqn:Hp.
  - exists p. split; [reflexivity | now apply Hw].
  - apply nth_error_None in Hp. lia.
Qed.

(** In a race, whatever the interleaving, no worker puts more than one
    result on the queue and no worker sets the flag more than once. *)
Theorem each_worker_puts_and_claims_at_most_once
  (trip : Trip) (config : BookingConfig) (n : nat)
  (schedule : list (nat * Env)) (i : nat) :
  i < n ->
  let sh := shared (run trip config schedule (start_race n)) in
  puts_of (S i) (result_queue sh) <= 1 /\
  claims_of (S i) (trace sh) <= 1.
Proof.
  intros Hi. cbv zeta.
  destruct (worker_of_race trip config n schedule i Hi) as (p & _ & Hinv).
  unfold worker_inv in Hinv. cbv zeta in Hinv.
  destruct p; intuition lia.
Qed.

Lemma each_worker_puts_and_claims_at_most_once_witness :
  puts_of 2
    (result_queue (shared (run dhaka_trip one_passenger overlapping_schedule
                             (start_race 2)))) <= 1.
Proof.
  refine (proj1 (each_worker_puts_and_claims_at_most_once dhaka_trip
                   one_passenger 2 overlapping_schedule 1 _)).
  lia.
Defined.

(** A list whose keys lie in 1..n and in which no key occurs twice has
    at most [n] entries. *)
Lemma at_most_one_per_key {A : Type} (key : A -> nat) (n : nat) :
  forall l : list A,
    Forall (fun x => 1 <= key x <= n) l ->
    (forall i, i < n ->
       List.length (filter (fun x => Nat.eqb (key x) (S i)) l) <= 1) ->
    List.length l <= n.
Proof.
  induction n as [| n IH]; intros l Hrange Hone.
  - destruct l as [| x l]; [simpl; lia |].
    inversion Hrange; subst. lia.
  - pose proof (filter_length (fun x => Nat.eqb (key x) (S n)) l) as Hsplit.
    pose proof (Hone n ltac:(lia)) as Hlast.
    assert (Hrest : List.length
                      (filter (fun x => negb (Nat.eqb (key x) (S n))) l) <= n).
    { apply IH.
      - apply Forall_forall. intros x Hx. apply filter_In in Hx.
        destruct Hx as [Hx Hk]. rewrite Forall_forall in Hrange.
        specialize (Hrange x Hx). apply negb_true_iff, Nat.eqb_neq in Hk. lia.
      - intros i Hi.
        pose proof (Hone i ltac:(lia)) as Hi1.
        pose proof (filter_length_le
                      (fun x => Nat.eqb (key x) (S i))
                      (filter (fun x => negb (Nat.eqb (key x) (S n))) l)) as _.
        assert (Hsub : forall l0 : list A,
                  List.length
                    (filter (fun x => Nat.eqb (key x) (S i))
                       (filter (fun x => negb (Nat.eqb (key x) (S n))) l0))
                  <= List.length
                       (filter (fun x => Nat.eqb (key x) (S i)) l0)).
        { induction l0 as [| y l0 IHl]; simpl; [lia |].
          destruct (Nat.eqb (key y) (S n)); simpl;
            destruct (Nat.eqb (key y) (S i)); simpl; lia. }
        specialize (Hsub l). lia. }
    lia.
Qed.

Lemma claims_of_as_filter (pid : nat) (tr : list event) :
  claims_of pid tr
  = List.length (filter (fun e => Nat.eqb (event_process e) pid)
                   (filter is_claim tr)).
Proof.
  unfold claims_of. induction tr as [| e tr IH]; [reflexivity |].
  destruct e; simpl; try exact IH.
  destruct (Nat.eqb process_id pid); simpl; now rewrite IH.
Qed.

(** In a race of [n] workers the queue never holds more than [n]
    results and the flag is set at most [n] times; a race of a single
    worker sets it at most once. *)
Theorem results_and_claims_bounded_by_workers
  (trip : Trip) (config : BookingConfig) (n : nat)
  (schedule : list (nat * Env)) :
  let sys := run trip config schedule (start_race n) in
  List.length (result_queue (shared sys)) <= n /\
  List.length (filter is_claim (trace (shared sys))) <= n /\
  (n <= 1 -> at_most_one_claim sys).
Proof.
  cbv zeta.
  destruct (run_keeps_inv trip config n schedule (start_race n)
              (start_race_inv trip config n)) as (_ & _ & Hq & Ht & _).
  assert (Hresults :
    List.length (result_queue (shared (run trip config schedule
                                         (start_race n)))) <= n).
  { apply (at_most_one_per_key rd_process_id).
    - eapply Forall_impl; [| exact Hq]. intros rd (_ & _ & H & _). exact H.
    - intros i Hi.
      apply (each_worker_puts_and_claims_at_most_once trip config n schedule
               i Hi). }
  assert (Hclaims :
    List.length (filter is_claim
                   (trace (shared (run trip config schedule
                                     (start_race n))))) <= n).
  { apply (at_most_one_per_key event_process).
    - apply Forall_forall. intros e He. apply filter_In in He.
      rewrite Forall_forall in Ht. apply Ht. tauto.
    - intros i Hi. rewrite <- claims_of_as_filter.
      apply (each_worker_puts_and_claims_at_most_once trip config n schedule
               i Hi). }
  split; [exact Hresults |]. split; [exact Hclaims |].
  intros Hn. unfold at_most_one_claim. lia.
Qed.

Lemma results_and_claims_bounded_by_workers_witness :
  at_most_one_claim
    (run dhaka_trip one_passenger
       [(0, env_ok 0); (0, env_ok 0); (0, env_ok 0); (0, env_ok 0);
        (0, env_ok 0); (0, env_ok 0)] (start_race 1)).
Proof.
  apply (results_and_claims_bounded_by_workers dhaka_trip one_passenger 1).
  lia.
Defined.

(** Every reservation [book_ticket] takes from the queue was put there
    by one of the race's workers for the selected trip; it holds one
    seat for each configured passenger, at least one, all of them
    available non-aisle seats, with their ticket ids in the same order;
    and the flag is set by then. *)
Theorem received_reservation_is_complete
  (trip : Trip) (config : BookingConfig) (n : nat)
  (schedule : list (nat * Env)) (rd : ReservationData) :
  book_ticket_race trip config n schedule = Got rd ->
  rd_trip rd = trip /\
  rd_ticket_ids rd = map ticket_id (rd_selected_seats rd) /\
  1 <= rd_process_id rd <= n /\
  prepare_passengers config = Returns (rd_passengers rd) /\
  List.length (rd_selected_seats rd) = List.length (rd_passengers rd) /\
  1 <= List.length (rd_selected_seats rd) /\
  forallb selectable (rd_selected_seats rd) = true /\
  is_reserved (shared (run trip config schedule (start_race n))) = true.
Proof.
  unfold book_ticket_race, collect.
  destruct (run_keeps_inv trip config n schedule (start_race n)
              (start_race_inv trip config n)) as (_ & _ & Hq & _ & Hflag).
  destruct (forallb is_exited
              (workers (run trip config schedule (start_race n))));
    [| discriminate].
  destruct (result_queue (shared (run trip config schedule (start_race n))))
    as [| rd0 q]; [discriminate |].
  intros [= <-]. inversion Hq as [| x l Hrd _]; subst.
  destruct Hrd as (H1 & H2 & H3 & H4 & H5 & H6 & H7).
  repeat split; auto; try lia. apply Hflag. discriminate.
Qed.

Lemma received_reservation_is_complete_witness :
  List.length (rd_selected_seats first_result)
  = List.length (rd_passengers first_result).
Proof.
  refine (proj1 (proj2 (proj2 (proj2 (proj2
    (received_reservation_is_complete dhaka_trip one_passenger 2
       overlapping_schedule first_result _)))))).
  vm_compute. reflexivity.
Defined.

Lemma requests_hold_no_claim (pid : nat) (route : Z) (l : list Seat) :
  existsb is_claim
    (map (fun seat => NetReserveSeat pid (ticket_id seat) route) l) = false.
Proof.
  induction l as [| s l IH]; [reflexivity | exact IH].
Qed.

(** The flag tells whether some worker has claimed: a step keeps the
    equivalence between a set flag and a claim in the log. *)
Lemma worker_step_flag_iff_claim (trip : Trip) (config : BookingConfig)
  (pid : nat) (env : Env) (p : pc) (sh : Shared) :
  (is_reserved sh = true <-> existsb is_claim (trace sh) = true) ->
  let sh' := snd (worker_step trip config pid env p sh) in
  is_reserved sh' = true <-> existsb is_claim (trace sh') = true.
Proof.
  intros H. cbv zeta. destruct p; simpl;
    repeat match goal with
           | |- context [if ?c then _ else _] => destruct c eqn:?
           | |- context [match ?c with Returns _ => _ | Raises _ => _ end] =>
               destruct c
           end; simpl;
    rewrite ?existsb_app, ?requests_hold_no_claim; simpl;
    rewrite ?orb_false_r, ?orb_true_r; intuition congruence.
Qed.

(** Once the flag is set no step of any worker clears it, and in a race
    it is set exactly when some worker has claimed. *)
Theorem flag_is_monotone_and_means_claimed
  (trip : Trip) (config : BookingConfig) (schedule : list (nat * Env)) :
  (forall sys,
     is_reserved (shared sys) = true ->
     is_reserved (shared (run trip config schedule sys)) = true) /\
  (forall n,
     is_reserved (shared (run trip config schedule (start_race n))) = true <->
     exists pid,
       In (SetReserved pid)
          (trace (shared (run trip config schedule (start_race n))))).
Proof.
  split.
  - induction schedule as [| [j env] schedule IH]; intros sys H; [exact H |].
    change (run trip config ((j, env) :: schedule) sys)
      with (run trip config schedule (system_step trip config sys (j, env))).
    apply IH. unfold system_step.
    destruct (nth_error (workers sys) j) as [p |]; [| exact H].
    pose proof (proj1 (worker_step_frame trip config (S j) env p (shared sys)) H)
      as Hm.
    destruct (worker_step trip config (S j) env p (shared sys)). exact Hm.
  - intros n.
    assert (Hiff : forall sys,
              (is_reserved (shared sys) = true <->
               existsb is_claim (trace (shared sys)) = true) ->
              is_reserved (shared (run trip config schedule sys)) = true <->
              existsb is_claim
                (trace (shared (run trip config schedule sys))) = true).
    { induction schedule as [| [j env] schedule IH]; intros sys H; [exact H |].
      change (run trip config ((j, env) :: schedule) sys)
        with (run trip config schedule (system_step trip config sys (j, env))).
      apply IH. unfold system_step.
      destruct (nth_error (workers sys) j) as [p |]; [| exact H].
      pose proof (worker_step_flag_iff_claim trip config (S j) env p
                    (shared sys) H) as Hm.
      destruct (worker_step trip config (S j) env p (shared sys)). exact Hm. }
    rewrite (Hiff (start_race n)) by (simpl; split; discriminate).
    rewrite existsb_exists. split.
    + intros (e & He & Hc). destruct e; try discriminate. eauto.
    + intros (pid & Hin). exists (SetReserved pid). auto.
Qed.

Lemma flag_is_monotone_and_means_claimed_witness :
  is_reserved
    (shared (run dhaka_trip one_passenger [(1, env_ok 0); (0, env_ok 0)]
               late_start)) = true.
Proof.
  apply (proj1 (flag_is_monotone_and_means_claimed dhaka_trip one_passenger
                  [(1, env_ok 0); (0, env_ok 0)])).
  reflexivity.
Defined.

End RaceInvariantFacts.

(** ** The file cache *)
Module CacheFacts.
Import CacheService.

Lemma replace_char_spec (a b : ascii) (s : string) (c : ascii) :
  a <> b ->
  In c (list_ascii_of_string (replace_char a b s)) -> c <> a.
Proof.
  intros Hab. induction s as [| x s IH]; simpl; [intros [] |].
  intros [<- | Hin]; [| now apply IH].
  destruct (Ascii.eqb_spec x a) as [-> | Hne]; auto.
Qed.

Lemma replace_char_keeps (a b d : ascii) (s : string) :
  b <> d ->
  (forall c, In c (list_ascii_of_string s) -> c <> d) ->
  forall c, In c (list_ascii_of_string (replace_char a b s)) -> c <> d.
Proof.
  intros Hbd. induction s as [| x s IH]; simpl; intros Hs c; [intros [] |].
  intros [<- | Hin].
  - destruct (Ascii.eqb x a); [exact Hbd | apply Hs; now left].
  - apply IH; auto.
Qed.

Lemma replace_char_length (a b : ascii) (s : string) :
  String.length (replace_char a b s) = String.length s.
Proof.
  induction s as [| x s IH]; simpl; [reflexivity | now rewrite IH].
Qed.

Lemma replace_char_absent (a b : ascii) (s : string) :
  (forall c, In c (list_ascii_of_string s) -> c <> a) ->
  replace_char a b s = s.
Proof.
  induction s as [| x s IH]; simpl; intros Hs; [reflexivity |].
  destruct (Ascii.eqb_spec x a) as [-> | _].
  - exfalso. apply (Hs a); auto.
  - f_equal. apply IH. auto.
Qed.

(** The file name of a cache key holds none of "/", "\" and ":", is as
    long as the key, and sanitizing it again changes nothing: a key
    cannot name a file outside the cache directory through a path
    separator. *)
Theorem safe_key_has_no_separator (key : string) :
  (forall c, In c (list_ascii_of_string (safe_key key)) ->
     c <> "/"%char /\ c <> "\"%char /\ c <> ":"%char) /\
  String.length (safe_key key) = String.length key /\
  safe_key (safe_key key) = safe_key key.
Proof.
  assert (Hno : forall c, In c (list_ascii_of_string (safe_key key)) ->
                  c <> "/"%char /\ c <> "\"%char /\ c <> ":"%char).
  { intros c Hc. unfold safe_key in Hc. repeat split.
    - revert c Hc. apply replace_char_keeps; [discriminate |].
      apply replace_char_keeps; [discriminate |].
      intros c. apply replace_char_spec. discriminate.
    - revert c Hc. apply replace_char_keeps; [discriminate |].
      intros c. apply replace_char_spec. discriminate.
    - revert Hc. apply replace_char_spec. discriminate. }
  split; [exact Hno |]. split.
  - unfold safe_key. now rewrite !replace_char_length.
  - unfold safe_key at 1.
    rewrite (replace_char_absent "/" "_" (safe_key key))
      by (intros c Hc; apply (Hno c Hc)).
    rewrite (replace_char_absent "\" "_" (safe_key key))
      by (intros c Hc; apply (Hno c Hc)).
    apply replace_char_absent. intros c Hc. apply (Hno c Hc).
Qed.

Lemma append_length (a s : string) :
  String.length (String.append a s) = String.length a + String.length s.
Proof.
  induction a as [| c a IH]; simpl; [reflexivity | now rewrite IH].
Qed.

Lemma append_inj_l (a b s : string) :
  String.append a s = String.append b s -> a = b.
Proof.
  revert b. induction a as [| c a IH]; intros [| d b] H; simpl in H.
  - reflexivity.
  - apply (f_equal String.length) in H. simpl in H.
    rewrite append_length in H. lia.
  - apply (f_equal String.length) in H. simpl in H.
    rewrite append_length in H. lia.
  - injection H as -> H. f_equal. now apply IH.
Qed.

(** Two keys name the same cache file exactly when they agree once "/",
    "\" and ":" have become "_". *)
Lemma cache_file_same (key key' : string) :
  cache_file key' = cache_file key <-> safe_key key' = safe_key key.
Proof.
  unfold cache_file. split; [apply append_inj_l | now intros ->].
Qed.

(** [set] followed by [get], for each way the write can end, and for
    every key [key'] that agrees with [key] once the separators "/", "\"
    and ":" have become "_":
    - written: [get] returns the value and leaves the directory alone;
    - [open] failed: nothing was stored, [get] answers as it did before
      the [set], be it a miss or an older value;
    - [pickle.dump] failed: [get] misses and removes the file, and from
      then on the cache answers as after [clear] of the key.
    A key with another file name is not affected, however the write
    ends.  So [get] after [set] returns the value exactly when it was
    written, or when [open] failed and the cache held that value
    already. *)
Theorem get_after_set {V : Type} (dir : Dir V) (key key' : string) (value : V)
  (outcome : WriteOutcome) :
  (safe_key key' = safe_key key ->
   match outcome with
   | Written =>
       get (set dir key value outcome) key'
       = (Some value, set dir key value outcome)
   | OpenFails => get (set dir key value outcome) key' = get dir key'
   | DumpFails =>
       fst (get (set dir key value outcome) key') = None /\
       forall other,
         fst (get (snd (get (set dir key value outcome) key')) other)
         = fst (get (clear dir key) other)
   end) /\
  (safe_key key' <> safe_key key ->
   fst (get (set dir key value outcome) key') = fst (get dir key')) /\
  (fst (get (set dir key value outcome) key) = Some value <->
   outcome = Written \/
   (outcome = OpenFails /\ fst (get dir key) = Some value)).
Proof.
  split; [| split].
  - intros Hsame. apply cache_file_same in Hsame.
    destruct outcome; unfold get, set, write, clear, remove; rewrite Hsame;
      rewrite ?String.eqb_refl; try reflexivity.
    split; [reflexivity |]. intros other. simpl.
    destruct (String.eqb (cache_file other) (cache_file key));
      [reflexivity |].
    destruct (dir (cache_file other)) as [[v |] |]; reflexivity.
  - intros Hne.
    assert (Hf : String.eqb (cache_file key') (cache_file key) = false).
    { apply String.eqb_neq. intros H. apply Hne. now apply cache_file_same. }
    destruct outcome; unfold get, set, write; rewrite ?Hf;
      destruct (dir (cache_file key')) as [[v |] |]; reflexivity.
  - destruct outcome; unfold get, set, write; rewrite ?String.eqb_refl; simpl.
    + split; [intros _; now left | reflexivity].
    + split; [intros H; right; now split |].
      intros [H | [_ H]]; [discriminate | exact H].
    + split; [discriminate |]. intros [H | [H _]]; discriminate.
Qed.

Lemma get_after_set_witness :
  get (set (@empty_dir nat) "search_Dhaka_Rajshahi/x" 7 Written)
    "search_Dhaka_Rajshahi:x"
  = (Some 7, set (@empty_dir nat) "search_Dhaka_Rajshahi/x" 7 Written).
Proof.
  apply (proj1 (get_after_set (@empty_dir nat) "search_Dhaka_Rajshahi/x"
                  "search_Dhaka_Rajshahi:x" 7 Written)).
  reflexivity.
Defined.

Lemma endswith_append (a suffix : string) :
  endswith (String.append a suffix) suffix = true.
Proof.
  induction a as [| c a IH]; simpl.
  - destruct suffix; simpl; now rewrite ?String.eqb_refl, ?Ascii.eqb_refl.
  - rewrite IH. apply orb_true_r.
Qed.

(** After [clear_all] no key is found any more, and after [clear] the
    cleared key is not; a file that does not load is reported as a miss
    and is gone afterwards. *)
Theorem cleared_keys_are_missed {V : Type} (dir : Dir V) (key key' : string) :
  fst (get (clear_all dir) key') = None /\
  fst (get (clear dir key) key) = None /\
  (dir (cache_file key) = Some Garbage ->
   fst (get dir key) = None /\
   snd (get dir key) (cache_file key) = None /\
   fst (get (snd (get dir key)) key) = None).
Proof.
  unfold get, clear_all, clear, remove. split; [| split].
  - unfold cache_file. now rewrite endswith_append.
  - now rewrite String.eqb_refl.
  - intros ->. simpl. rewrite String.eqb_refl. auto.
Qed.

Lemma cleared_keys_are_missed_witness :
  fst (get (write (cache_file "k") (@Garbage nat) empty_dir) "k") = None.
Proof.
  apply (proj2 (proj2 (cleared_keys_are_missed
                         (write (cache_file "k") (@Garbage nat) empty_dir)
                         "k" "k"))).
  reflexivity.
Defined.

End CacheFacts.

(** ** Authentication *)
Module AuthFacts.
Import PassengerService AuthService.

(** After [set_token] with a non-empty token the service, the client
    and the file all hold that token, the Authorization header holds it
    behind "Bearer ", and [ensure_authenticated] needs no sign-in. *)
Theorem set_token_installs_everywhere
  (token : string) (st : AuthState) (reply : LoginReply) :
  token <> ""%string ->
  let st' := set_token token st in
  fst (get_current_token st') = Some token /\
  is_token_valid st' = true /\
  client_token st' = Some token /\
  authorization st' = Some (String.append "Bearer " token) /\
  token_file st' = Some token /\
  ensure_authenticated reply st' = (Returns true, 0, st').
Proof.
  intros Hne. apply String.eqb_neq in Hne. cbv zeta.
  unfold set_token, install, ensure_authenticated, get_current_token,
    is_token_valid, truthy. simpl. now rewrite Hne.
Qed.

Lemma set_token_installs_everywhere_witness :
  fst (get_current_token (set_token "abc" (mkAuthState None None None None)))
  = Some "abc"%string.
Proof.
  apply (set_token_installs_everywhere "abc" (mkAuthState None None None None)
           (mkLoginReply false None)).
  discriminate.
Defined.

(** [clear_token] does not sign out for good: while the token file
    holds a non-blank token, the next [ensure_authenticated] returns
    True without a sign-in and takes the token back from the file, but
    the Authorization header it removed stays removed. *)
Theorem clear_token_keeps_the_saved_token
  (st : AuthState) (reply : LoginReply) (saved : string) :
  token_file st = Some saved ->
  strip saved <> ""%string ->
  let '(result, logins, st') := ensure_authenticated reply (clear_token st) in
  result = Returns true /\ logins = 0 /\
  current_token st' = Some (strip saved) /\
  authorization st' = None.
Proof.
  intros Hfile Hne. apply String.eqb_neq in Hne.
  unfold ensure_authenticated, get_current_token, clear_token, auth_token,
    truthy. simpl. rewrite Hfile. simpl. rewrite Hne. simpl. rewrite Hne.
  simpl. auto.
Qed.

Lemma clear_token_keeps_the_saved_token_witness :
  fst (fst (ensure_authenticated (mkLoginReply false None)
              (clear_token (set_token "abc" (mkAuthState None None None None)))))
  = Returns true.
Proof.
  pose proof (clear_token_keeps_the_saved_token
                (set_token "abc" (mkAuthState None None None None))
                (mkLoginReply false None) "abc" eq_refl) as H.
  destruct (ensure_authenticated (mkLoginReply false None)
              (clear_token (set_token "abc" (mkAuthState None None None None))))
    as [[result logins] st'].
  apply H. discriminate.
Defined.

(** Without a token object and without a usable token file,
    [ensure_authenticated] signs in exactly once: it returns True
    exactly when the reply succeeded with a non-empty token, which is
    then held by the service, the client and the token file as it came,
    and by the Authorization header behind "Bearer "; otherwise it
    raises and changes nothing. *)
Theorem ensure_authenticated_signs_in_once
  (st : AuthState) (reply : LoginReply) :
  current_token st = None ->
  truthy (auth_token st) = false ->
  let '(result, logins, st') := ensure_authenticated reply st in
  logins = 1 /\
  (result = Returns true <->
   login_success reply = true /\ truthy (login_token reply) = true) /\
  (result = Returns true ->
   exists t, login_token reply = Some t /\
             t <> ""%string /\
             st' = mkAuthState (Some t) (Some t)
                     (Some (String.append "Bearer " t)) (Some t)) /\
  (result <> Returns true -> result = Raises Exception /\ st' = st).
Proof.
  intros Hcur Hfile.
  unfold ensure_authenticated, get_current_token. rewrite Hcur, Hfile. simpl.
  unfold login. destruct (login_success reply); simpl.
  - destruct (login_token reply) as [t |]; simpl.
    + destruct (String.eqb t "") eqn:Ht; simpl.
      * repeat split; try discriminate; try tauto.
        intros (_ & H). discriminate.
      * apply String.eqb_neq in Ht.
        repeat split; auto; try tauto. exists t. auto.
    + repeat split; try discriminate; try tauto.
      intros (_ & H). discriminate.
  - repeat split; try discriminate; try tauto.
    intros (H & _). discriminate.
Qed.

Lemma ensure_authenticated_signs_in_once_witness :
  snd (fst (ensure_authenticated (mkLoginReply true (Some "tok"%string))
              (mkAuthState None None None None))) = 1.
Proof.
  pose proof (ensure_authenticated_signs_in_once
                (mkAuthState None None None None)
                (mkLoginReply true (Some "tok"%string)) eq_refl eq_refl) as H.
  destruct (ensure_authenticated (mkLoginReply true (Some "tok"%string))
              (mkAuthState None None None None)) as [[result logins] st'].
  apply H.
Defined.

End AuthFacts.

(** ** From the reservation to the booking *)
Module AfterRaceFacts.
Import Models Config Race Finalization AfterRace RaceInvariant.
Import RaceInvariantFacts.

Lemma create_booking_data_cases (config : PayloadConfig)
  (request : BookingRequest) (otp : string) :
  (br_passengers request = [] /\
   create_booking_data config request otp = Raises IndexError) \/
  (br_passengers request <> [] /\
   exists d, create_booking_data config request otp = Returns d).
Proof.
  unfold create_booking_data.
  destruct (br_passengers request) as [| p ps].
  - left. split; reflexivity.
  - right. split; [discriminate | eexists; reflexivity].
Qed.

Lemma find_boarding_point_cases (t : Trip) (from_city : string) :
  (boarding_points t = [] /\
   find_boarding_point t from_city = Raises IndexError) \/
  (boarding_points t <> [] /\
   exists bp, find_boarding_point t from_city = Returns (Some bp)).
Proof.
  unfold find_boarding_point, next_matching.
  destruct (boarding_points t) as [| b0 l].
  - left. split; reflexivity.
  - right. split; [discriminate |].
    destruct (find (bp_matches from_city) (b0 :: l)); eexists; reflexivity.
Qed.

Lemma submit_booking_success (d : BookingData) (response : ApiResponse) :
  result_success (submit_booking d response) = success response.
Proof.
  unfold submit_booking. destruct (success response); reflexivity.
Qed.

Lemma finalize_true_iff (config : PayloadConfig) (env : FinalEnv)
  (r : Reservation) (otp from_city to_city : string) :
  fst (finalize_booking config env r otp from_city to_city) = Returns true <->
  success (verify_response env) = true /\
  boarding_points (r_trip r) <> [] /\
  r_passengers r <> [] /\
  success (confirm_response env) = true /\
  handled env = Returns tt.
Proof.
  unfold finalize_booking, verify_otp.
  destruct (success (verify_response env));
    [| split; [discriminate | intros (H & _); discriminate]].
  destruct (find_boarding_point_cases (r_trip r) from_city)
    as [(Hnil & ->) | (Hbps & bp & ->)];
    [split; [discriminate | intros (_ & H & _); contradiction] |].
  match goal with
  | |- context [create_booking_data config ?req otp] =>
      destruct (create_booking_data_cases config req otp)
        as [(Hps & ->) | (Hps & d & ->)]
  end; cbn [br_passengers] in Hps;
    [split; [discriminate | intros (_ & _ & H & _); contradiction] |].
  rewrite submit_booking_success.
  destruct (success (confirm_response env));
    [| split; [discriminate | intros (_ & _ & _ & H & _); discriminate]].
  destruct (handled env) as [[] | e].
  - split; [intros _ | reflexivity].
    split; [reflexivity |]. split; [exact Hbps |]. split; [exact Hps |].
    split; reflexivity.
  - split; [discriminate | intros (_ & _ & _ & _ & H); discriminate].
Qed.

(** For a reservation received from a race, [book_ticket] returns True
    exactly when the passenger-details request, the verification of the
    code and the confirmation all succeed, the trip has a boarding
    point, and the receipt handling raises nothing; in every other case,
    a rejected code included, it returns False. *)
Theorem book_ticket_true_iff_all_steps_succeed
  (trip : Trip) (race_config : BookingConfig) (n : nat)
  (schedule : list (nat * Env)) (rd : ReservationData)
  (config : PayloadConfig) (passenger_details : ApiResponse)
  (otp from_city to_city : string) (env : FinalEnv) :
  book_ticket_race trip race_config n schedule = Got rd ->
  fst (book_ticket_after_race config rd passenger_details otp from_city
         to_city env) = true <->
  success passenger_details = true /\
  success (verify_response env) = true /\
  boarding_points trip <> [] /\
  success (confirm_response env) = true /\
  handled env = Returns tt.
Proof.
  intros Hgot.
  assert (Hrd : reservation_ok trip race_config n rd).
  { unfold book_ticket_race, collect in Hgot.
    destruct (run_keeps_inv trip race_config n schedule (start_race n)
                (start_race_inv trip race_config n)) as (_ & _ & Hq & _).
    destruct (forallb is_exited _); [| discriminate].
    destruct (result_queue _) as [| rd0 q]; [discriminate |].
    injection Hgot as <-. now inversion Hq. }
  destruct Hrd as (Htrip & _ & _ & _ & Hlen & Hpos & _).
  unfold book_ticket_after_race.
  assert (Hrows : Nat.eqb (List.length (combine (rd_selected_seats rd)
                                          (rd_passengers rd))) 0 = false).
  { apply Nat.eqb_neq. rewrite length_combine. lia. }
  rewrite Hrows.
  destruct (success passenger_details); simpl;
    [| split; [discriminate | intros (H & _); discriminate]].
  pose proof (finalize_true_iff config env (reservation_of rd) otp from_city
                to_city) as Hfin.
  destruct (finalize_booking config env (reservation_of rd) otp from_city
              to_city) as [result sent].
  simpl in *. rewrite Htrip in Hfin.
  assert (Hps : rd_passengers rd <> []).
  { intros Hnil. rewrite Hnil in Hlen. simpl in Hlen. lia. }
  split.
  - intros Hres.
    assert (Hr : result = Returns true).
    { destruct result as [[|] | e]; try discriminate; reflexivity. }
    apply Hfin in Hr. tauto.
  - intros (_ & Hv & Hb & Hc & Hh).
    rewrite (proj2 Hfin); [reflexivity |]. tauto.
Qed.

Lemma book_ticket_true_iff_all_steps_succeed_witness :
  fst (book_ticket_after_race default_payload_config first_result accepted
         "1234" "Dhaka" "Rajshahi" (mkFinalEnv rejected accepted (Returns tt)))
  <> true.
Proof.
  assert (Hgot : book_ticket_race dhaka_trip one_passenger 2
                   overlapping_schedule = Got first_result)
    by (vm_compute; reflexivity).
  intros H.
  apply (book_ticket_true_iff_all_steps_succeed dhaka_trip one_passenger 2
           overlapping_schedule first_result default_payload_config accepted
           "1234" "Dhaka" "Rajshahi"
           (mkFinalEnv rejected accepted (Returns tt)) Hgot) in H.
  destruct H as (_ & Hv & _). discriminate.
Defined.

End AfterRaceFacts.
